(** * gdrive_task_scheduler: a filesystem-coordinated task queue

    Shallow embedding of the Python package [gdrive_task_scheduler]
    (scheduler.py, recovery.py, heartbeat.py, task_manager.py,
    models/task.py, utils/file_ops.py, utils/process_utils.py,
    utils/locking.py) and
    the properties its specification states about it.

    Conventions of the embedding
    - instants and durations are integers counting microseconds (the
      resolution of [datetime] and [timedelta]);
    - a directory is the list of its entries in the order [os.listdir]
      reports them; a path is a directory of the queue and an entry name
      (entry names hold no path separator and no NUL byte);
    - every system call may fail for reasons of the environment: the world
      carries the list of these decisions, one per call, and a world whose
      list is empty never fails that way;
    - Python exceptions are values of [exn]; a computation is a function
      from worlds to a result and a world. *)

From stdpp Require Import gmap strings list.
From Stdlib Require Import ZArith Lia.

Local Open Scope string_scope.
Local Open Scope list_scope.
Local Open Scope Z_scope.

Set Warnings "-register-all".

(** ** Python values held in task and heartbeat records *)

Inductive pyval :=
| PNone
| PBool (b : bool)
| PInt (z : Z)
| PFloat (micros : Z)   (* a float, kept as the count of its millionths *)
| PStr (s : string)
| PList (l : list pyval)
| PDict (d : list (string * pyval)).

(** What [yaml.safe_load] gives for a document: a mapping, or anything
    else (None for an empty file, a scalar, a sequence). *)
Inductive ydoc :=
| YMap (d : gmap string pyval)
| YOther (v : pyval).

(** What a file holds: bytes that do not parse, or a document. *)
Inductive content :=
| Garbled
| Doc (y : ydoc).

Inductive exn :=
| OSError | FileNotFoundError | PermissionError | ProcessLookupError
| LockTimeout | LockAcquisitionError
| NameError | AttributeError | TypeError | ValueError | IndexError
| YAMLError | RuntimeError.

(** [except OSError] also catches its subclasses. *)
Definition is_OSError (e : exn) : bool :=
  match e with
  | OSError | FileNotFoundError | PermissionError | ProcessLookupError => true
  | _ => false
  end.

Inductive result (A : Type) :=
| Ok (a : A)
| Raise (e : exn).
Arguments Ok {A} a.
Arguments Raise {A} e.

(** Truth value of a Python object. *)
Definition truthy (v : pyval) : bool :=
  match v with
  | PNone => false
  | PBool b => b
  | PInt z => negb (z =? 0)
  | PFloat m => negb (m =? 0)
  | PStr s => negb (String.eqb s "")
  | PList l => match l with [] => false | _ => true end
  | PDict d => match d with [] => false | _ => true end
  end.

(** Keys of a Python set: hashable values, numbers compared by value
    ([1 == True == 1.0]). Lists and dicts are unhashable. *)
Inductive pykey :=
| KNone
| KNum (micros : Z)
| KStr (s : string).

Global Instance pykey_eq_dec : EqDecision pykey.
Proof. solve_decision. Defined.

Global Instance pykey_countable : Countable pykey.
Proof.
  refine (inj_countable'
    (fun k => match k with
              | KNone => inl ()
              | KNum z => inr (inl z)
              | KStr s => inr (inr s)
              end)
    (fun x => match x with
              | inl _ => KNone
              | inr (inl z) => KNum z
              | inr (inr s) => KStr s
              end) _).
  by intros [].
Defined.

Definition hash_key (v : pyval) : result pykey :=
  match v with
  | PNone => Ok KNone
  | PBool b => Ok (KNum (if b then 1000000 else 0))
  | PInt z => Ok (KNum (z * 1000000))
  | PFloat m => Ok (KNum m)
  | PStr s => Ok (KStr s)
  | PList _ | PDict _ => Raise TypeError
  end.

(** [d.get(key)] and [d.get(key, default)]: only a mapping has [get]. *)
Definition py_get (y : ydoc) (key : string) (default : pyval) : result pyval :=
  match y with
  | YMap d => Ok (match d !! key with Some v => v | None => default end)
  | YOther _ => Raise AttributeError
  end.

(** [d[key] = v]: on anything but a mapping, a TypeError. *)
Definition py_setitem (y : ydoc) (key : string) (v : pyval) : result ydoc :=
  match y with
  | YMap d => Ok (YMap (<[key := v]> d))
  | YOther _ => Raise TypeError
  end.

(** [x + 1] for the values YAML can hold. *)
Definition py_add1 (v : pyval) : result pyval :=
  match v with
  | PInt z => Ok (PInt (z + 1))
  | PBool b => Ok (PInt ((if b then 1 else 0) + 1))
  | PFloat m => Ok (PFloat (m + 1000000))
  | _ => Raise TypeError
  end.

(** Numeric value in millionths, for comparisons; None when the value is
    not a number. *)
Definition py_num (v : pyval) : option Z :=
  match v with
  | PInt z => Some (z * 1000000)
  | PBool b => Some (if b then 1000000 else 0)
  | PFloat m => Some m
  | _ => None
  end.

(** ** The world: files, clock, processes, environment faults *)

Record file := { body : content; mtime : Z }.

Inductive dirname := Todo | InProgress | Done | Corrupted | Status | Locks.

Global Instance dirname_eq_dec : EqDecision dirname.
Proof. solve_decision. Defined.

Definition entries := list (string * file).
Definition fpath : Type := dirname * string.

Inductive kill_outcome := KillOk | KillNoProcess | KillNotPermitted | KillFailed.

Record world := {
  fs : dirname -> option entries;   (* None: the directory does not exist *)
  now : Z;                          (* wall clock *)
  ticks : list Z;                   (* how far the clock moves after each reading *)
  faults : list bool;               (* per system call: does the environment fail it *)
  local_host : string;              (* socket.gethostname() *)
  self_pid : Z;                     (* os.getpid() *)
  proc_entry : Z -> bool;           (* does /proc/<pid> exist *)
  kill0 : Z -> kill_outcome;        (* os.kill(pid, 0) *)
  uuids : list string               (* the draws of uuid.uuid4() to come *)
}.

Definition M (A : Type) : Type := world -> result A * world.

Definition ret {A} (a : A) : M A := fun w => (Ok a, w).
Definition raise {A} (e : exn) : M A := fun w => (Raise e, w).
Definition bind {A B} (m : M A) (k : A -> M B) : M B :=
  fun w => match m w with
           | (Ok a, w') => k a w'
           | (Raise e, w') => (Raise e, w')
           end.
Definition lift {A} (r : result A) : M A := fun w => (r, w).

Notation "x <- m ;; k" := (bind m (fun x => k))
  (at level 100, m at next level, right associativity).
Notation "m ;;; k" := (bind m (fun _ => k))
  (at level 100, right associativity).

(** [try: body except Exception: handler] *)
Definition try_except {A} (body : M A) (handler : exn -> M A) : M A :=
  fun w => match body w with
           | (Ok a, w') => (Ok a, w')
           | (Raise e, w') => handler e w'
           end.

(** [try: body except <classes>: handler], other exceptions pass. *)
Definition try_except_of {A} (catches : exn -> bool) (body : M A)
    (handler : exn -> M A) : M A :=
  fun w => match body w with
           | (Ok a, w') => (Ok a, w')
           | (Raise e, w') => if catches e then handler e w' else (Raise e, w')
           end.

(** *** Directories as entry lists *)

Fixpoint lookup_entry (n : string) (d : entries) : option file :=
  match d with
  | [] => None
  | (k, f) :: d' => if String.eqb k n then Some f else lookup_entry n d'
  end.

Fixpoint remove_entry (n : string) (d : entries) : entries :=
  match d with
  | [] => []
  | (k, f) :: d' => if String.eqb k n then remove_entry n d'
                    else (k, f) :: remove_entry n d'
  end.

Definition put_entry (n : string) (f : file) (d : entries) : entries :=
  remove_entry n d ++ [(n, f)].

Definition names (d : entries) : list string := map fst d.

Definition set_dir (dn : dirname) (d : entries) (w : world) : world :=
  {| fs := fun x => if decide (x = dn) then Some d else fs w x;
     now := now w; ticks := ticks w; faults := faults w;
     local_host := local_host w; self_pid := self_pid w;
     proc_entry := proc_entry w; kill0 := kill0 w;
                       uuids := uuids w |}.

Definition lookup_file (p : fpath) (w : world) : option file :=
  match fs w (fst p) with
  | Some d => lookup_entry (snd p) d
  | None => None
  end.

(** *** System calls *)

(** The environment's decision for the next system call. *)
Definition sys_fault : M bool :=
  fun w => match faults w with
           | [] => (Ok false, w)
           | b :: rest =>
             (Ok b, {| fs := fs w; now := now w; ticks := ticks w; faults := rest;
                       local_host := local_host w; self_pid := self_pid w;
                       proc_entry := proc_entry w; kill0 := kill0 w;
                       uuids := uuids w |})
           end.

(** A system call that raises OSError when the environment fails it. *)
Definition syscall {A} (m : M A) : M A :=
  bad <- sys_fault ;; if (bad : bool) then raise OSError else m.

(** [datetime.now()] (and [time.time()]): read the clock, which then moves. *)
Definition datetime_now : M Z :=
  fun w => (Ok (now w),
            {| fs := fs w;
               now := now w + match ticks w with [] => 0 | t :: _ => t end;
               ticks := tl (ticks w); faults := faults w;
               local_host := local_host w; self_pid := self_pid w;
               proc_entry := proc_entry w; kill0 := kill0 w;
                       uuids := uuids w |}).

(** [str(uuid.uuid4())] *)
Definition uuid4 : M string :=
  fun w => (Ok (match uuids w with [] => "" | u :: _ => u end),
            {| fs := fs w; now := now w; ticks := ticks w; faults := faults w;
               local_host := local_host w; self_pid := self_pid w;
               proc_entry := proc_entry w; kill0 := kill0 w;
               uuids := tl (uuids w) |}).

(** [os.path.exists]: never raises; a failing stat reads as absent. *)
Definition os_path_exists (p : fpath) : M bool :=
  bad <- sys_fault ;;
  if (bad : bool) then ret false
  else fun w => (Ok (bool_decide (is_Some (lookup_file p w))), w).

Definition dir_exists (dn : dirname) : M bool :=
  bad <- sys_fault ;;
  if (bad : bool) then ret false
  else fun w => (Ok (bool_decide (is_Some (fs w dn))), w).

(** [open(path, 'r')] and reading the whole file. *)
Definition open_read (p : fpath) : M content :=
  syscall (fun w => match lookup_file p w with
                    | Some f => (Ok (body f), w)
                    | None => (Raise FileNotFoundError, w)
                    end).

(** The file at [p] becomes [f], when the directory exists. *)
Definition write_entry (p : fpath) (f : file) (w : world) : world :=
  match fs w (fst p) with
  | Some d => set_dir (fst p) (put_entry (snd p) f d) w
  | None => w
  end.

(** The entry at [p] goes. *)
Definition delete_entry (p : fpath) (w : world) : world :=
  match fs w (fst p) with
  | Some d => set_dir (fst p) (remove_entry (snd p) d) w
  | None => w
  end.

(** [open(path, 'w')] and writing the whole file. *)
Definition open_write (p : fpath) (c : content) : M unit :=
  syscall (fun w => match fs w (fst p) with
                    | Some _ =>
                      (Ok (), write_entry p {| body := c; mtime := now w |} w)
                    | None => (Raise FileNotFoundError, w)
                    end).

Definition os_remove (p : fpath) : M unit :=
  syscall (fun w => match lookup_file p w with
                    | Some _ => (Ok (), delete_entry p w)
                    | None => (Raise FileNotFoundError, w)
                    end).

(** Moving a file: the source entry goes, the destination is replaced. *)
Definition move_file (src dst : fpath) : M unit :=
  fun w => match lookup_file src w, fs w (fst dst) with
           | Some f, Some _ => (Ok (), write_entry dst f (delete_entry src w))
           | _, _ => (Raise FileNotFoundError, w)
           end.

Definition os_rename (src dst : fpath) : M unit := syscall (move_file src dst).
Definition shutil_move (src dst : fpath) : M unit := syscall (move_file src dst).

(** [shutil.copy2]: the destination gets the content and the times. *)
Definition shutil_copy2 (src dst : fpath) : M unit :=
  syscall (fun w => match lookup_file src w, fs w (fst dst) with
                    | Some f, Some _ => (Ok (), write_entry dst f w)
                    | _, _ => (Raise FileNotFoundError, w)
                    end).

Definition os_listdir (dn : dirname) : M (list string) :=
  syscall (fun w => match fs w dn with
                    | Some d => (Ok (names d), w)
                    | None => (Raise FileNotFoundError, w)
                    end).

Definition os_path_getmtime (p : fpath) : M Z :=
  syscall (fun w => match lookup_file p w with
                    | Some f => (Ok (mtime f), w)
                    | None => (Raise FileNotFoundError, w)
                    end).

(** [os.makedirs(d, exist_ok=True)] *)
Definition os_makedirs (dn : dirname) : M unit :=
  syscall (fun w => match fs w dn with
                    | Some _ => (Ok (), w)
                    | None => (Ok (), set_dir dn [] w)
                    end).

Definition yaml_safe_load (c : content) : M ydoc :=
  match c with
  | Garbled => raise YAMLError
  | Doc y => ret y
  end.

(** [with open(path, 'r') as f: data = yaml.safe_load(f)] *)
Definition read_yaml (p : fpath) : M ydoc :=
  c <- open_read p ;; yaml_safe_load c.

(** ** Names of directory entries *)

Definition startswith (pre s : string) : bool := String.prefix pre s.

(** [s.endswith(suf)]: some tail of [s] is [suf]. *)
Fixpoint endswith (suf s : string) : bool :=
  String.eqb s suf ||
  match s with
  | EmptyString => false
  | String _ s' => endswith suf s'
  end.

(** A visible task file: [f.endswith('.yaml') and not f.startswith('.')]. *)
Definition visible (f : string) : bool :=
  endswith ".yaml" f && negb (startswith "." f).

(** [f"{path}.tmp"] *)
Definition dot_tmp (p : fpath) : fpath := (fst p, snd p +:+ ".tmp").

(** [f".{name}{suffix}"], the marker of a file in flight. *)
Definition marker (name suffix : string) : string := "." +:+ name +:+ suffix.

(** ** utils/file_ops.py *)

Definition safe_rename (src dst : fpath) : M unit :=
  try_except_of is_OSError (os_rename src dst)
    (fun _ =>
       try_except (shutil_move src dst)
         (fun _ =>
            try_except (shutil_copy2 src dst ;;; os_remove src)
              (fun _ => ret ()))).

Definition atomic_write_yaml (p : fpath) (data : ydoc) : M unit :=
  let temp_path := dot_tmp p in
  open_write temp_path (Doc data) ;;;
  safe_rename temp_path p.

Definition atomic_read_yaml (p : fpath) : M ydoc := read_yaml p.

Definition transient_suffix (f : string) : bool :=
  endswith ".reserved" f || endswith ".completing" f ||
  endswith ".recovering" f || endswith ".tmp" f.

Fixpoint for_each {A} (l : list A) (f : A -> M unit) : M unit :=
  match l with
  | [] => ret ()
  | x :: rest => f x ;;; for_each rest f
  end.

Definition cleanup_temp_files (dn : dirname) (older_than_secs : Z) : M unit :=
  e <- dir_exists dn ;;
  if negb e then ret () else
  try_except
    (l <- os_listdir dn ;;
     for_each l (fun filename =>
       if negb (startswith "." filename) then ret () else
       try_except
         (t <- datetime_now ;;
          mt <- os_path_getmtime (dn, filename) ;;
          let age := t - mt in
          if (older_than_secs * 1000000 <? age) && transient_suffix filename
          then os_remove (dn, filename)
          else ret ())
         (fun _ => ret ())))
    (fun _ => ret ()).

Definition get_yaml_files (dn : dirname) : M (list string) :=
  e <- dir_exists dn ;;
  if negb e then ret [] else
  l <- os_listdir dn ;;
  ret (List.filter visible l).

Definition try_remove (p : fpath) : M unit :=
  try_except
    (e <- os_path_exists p ;;
     if (e : bool) then os_remove p else ret ())
    (fun _ => ret ()).

(** [open(path, 'a')]: the file is created empty when it is missing. An
    empty file loads as None. *)
Definition open_append (p : fpath) : M unit :=
  syscall (fun w => match fs w (fst p) with
                    | Some _ =>
                      match lookup_file p w with
                      | Some _ => (Ok (), w)
                      | None =>
                        (Ok (), write_entry p {| body := Doc (YOther PNone);
                                                 mtime := now w |} w)
                      end
                    | None => (Raise FileNotFoundError, w)
                    end).

(** [os.utime(path, None)]: the times of the file become the present,
    which the system reads off the clock; the clock moves on as after any
    reading. *)
Definition os_utime (p : fpath) : M unit :=
  syscall (n <- datetime_now ;;
           fun w => match lookup_file p w with
                    | Some f =>
                      (Ok (), write_entry p {| body := body f; mtime := n |} w)
                    | None => (Raise FileNotFoundError, w)
                    end).

Definition touch_file (p : fpath) : M unit :=
  open_append p ;;;
  os_utime p.

Definition file_is_fresh (p : fpath) (max_age_seconds : Z) : M bool :=
  try_except
    (mt <- os_path_getmtime p ;;
     t <- datetime_now ;;
     ret (t - mt <=? max_age_seconds * 1000000))
    (fun _ => ret false).

(** ** utils/locking.py *)

(** [lock.acquire()]: the environment decides whether it times out. *)
Definition filelock_acquire : M unit :=
  bad <- sys_fault ;; if (bad : bool) then raise LockTimeout else ret ().

Definition is_LockTimeout (e : exn) : bool :=
  match e with LockTimeout => true | _ => false end.

(** The loop [for attempt in range(max_retries)], by the attempts left. *)
Fixpoint acquire_attempts (left : nat) : M unit :=
  match left with
  | O => raise LockAcquisitionError
  | S left' =>
    try_except_of is_LockTimeout filelock_acquire
      (fun _ => match left' with
                | O => raise LockAcquisitionError
                | S _ => acquire_attempts left'
                end)
  end.

Definition acquire_lock (name : string) (timeout : Z) (max_retries : nat) : M unit :=
  os_makedirs Locks ;;;
  acquire_attempts max_retries.

(** ** utils/process_utils.py and the Python runtime *)

(** A [datetime]: naive, as the local clock gives it, or aware of its
    offset from UTC, as a string with an offset parses. *)
Inductive pytime :=
| Naive (t : Z)
| Aware (t : Z).

(** Library functions of the runtime the code calls and the embedding
    leaves open: parsing and printing of ISO-8601 instants, [int] on a
    string, [str] on an integer. *)
Record runtime := {
  fromisoformat : string -> option pytime;
  isoformat : Z -> string;
  int_of_str : string -> option Z;
  str_of_int : Z -> string
}.

Section Runtime.

Variable py : runtime.

(** [datetime.fromisoformat(v)] *)
Definition py_fromisoformat (v : pyval) : result pytime :=
  match v with
  | PStr s => match fromisoformat py s with
              | Some t => Ok t
              | None => Raise ValueError
              end
  | _ => Raise TypeError
  end.

(** [n - t] for a reading [n] of the local clock, which is naive: an aware
    [t] cannot be subtracted from it. *)
Definition elapsed (n : Z) (t : pytime) : result Z :=
  match t with
  | Naive t => Ok (n - t)
  | Aware _ => Raise TypeError
  end.

(** [int(v)] *)
Definition py_int (v : pyval) : result Z :=
  match v with
  | PInt z => Ok z
  | PBool b => Ok (if b then 1 else 0)
  | PFloat m => Ok (Z.quot m 1000000)
  | PStr s => match int_of_str py s with
              | Some z => Ok z
              | None => Raise ValueError
              end
  | PNone | PList _ | PDict _ => Raise TypeError
  end.

(** [hostname != socket.gethostname()] *)
Definition differs_from_host (hostname : pyval) (h : string) : bool :=
  match hostname with
  | PStr s => negb (String.eqb s h)
  | _ => true
  end.

Definition os_kill0 (pid : Z) : M unit :=
  fun w => match kill0 w pid with
           | KillOk => (Ok (), w)
           | KillNoProcess => (Raise ProcessLookupError, w)
           | KillNotPermitted => (Raise PermissionError, w)
           | KillFailed => (Raise OSError, w)
           end.

Definition proc_exists (pid : Z) : M bool := fun w => (Ok (proc_entry w pid), w).

Definition gethostname : M string := fun w => (Ok (local_host w), w).
Definition getpid : M Z := fun w => (Ok (self_pid w), w).

Definition is_process_running (pid hostname : pyval) : M bool :=
  h <- gethostname ;;
  if truthy hostname && differs_from_host hostname h then ret false else
  try_except
    (pid <- lift (py_int pid) ;;
     if pid <=? 0 then ret false else
     e <- proc_exists pid ;;
     if (e : bool) then ret true else
     os_kill0 pid ;;;
     ret true)
    (fun _ => ret false).

Definition current_hostname : M string := gethostname.

(** ** models/task.py *)

Record Task := { filename : string; data : ydoc; path : fpath }.

Definition from_file (p : fpath) : M Task :=
  try_except
    (d <- read_yaml p ;;
     ret {| filename := snd p; data := d; path := p |})
    (fun _ => raise RuntimeError).

Definition set_data (t : Task) (key : string) (v : pyval) : M Task :=
  d <- lift (py_setitem (data t) key v) ;;
  ret {| filename := filename t; data := d; path := path t |}.

Definition get_priority (t : Task) (default : pyval) : result pyval :=
  py_get (data t) "priority" default.

Definition mark_failed (t : Task) (reason : string) : M Task :=
  r <- lift (py_get (data t) "retries" (PInt 0)) ;;
  r1 <- lift (py_add1 r) ;;
  t1 <- set_data t "retries" r1 ;;
  n <- datetime_now ;;
  t2 <- set_data t1 "last_failed" (PStr (isoformat py n)) ;;
  set_data t2 "failure_reason" (PStr reason).

Definition mark_started (t : Task) (process_id : Z) (hostname session_id : string)
    : M Task :=
  n <- datetime_now ;;
  t1 <- set_data t "started_at" (PStr (isoformat py n)) ;;
  t2 <- set_data t1 "process_id" (PInt process_id) ;;
  t3 <- set_data t2 "host" (PStr hostname) ;;
  set_data t3 "session_id" (PStr session_id).

Definition mark_completed (t : Task) (success : bool) (results error : pyval)
    : M Task :=
  n <- datetime_now ;;
  t1 <- set_data t "completed_at" (PStr (isoformat py n)) ;;
  t2 <- set_data t1 "success" (PBool success) ;;
  t3 <- set_data t2 "results" results ;;
  t4 <- set_data t3 "error" error ;;
  try_except
    (s <- lift (py_get (data t4) "started_at" PNone) ;;
     start <- lift (py_fromisoformat s) ;;
     n2 <- datetime_now ;;
     d <- lift (elapsed n2 start) ;;
     set_data t4 "duration_seconds" (PFloat d))
    (fun _ => set_data t4 "duration_seconds" (PInt 0)).

(** [self.data.update(updates)] *)
Definition update (t : Task) (updates : list (string * pyval)) : M Task :=
  match data t with
  | YMap d =>
    ret {| filename := filename t;
           data := YMap (fold_left (fun acc kv => <[fst kv := snd kv]> acc)
                           updates d);
           path := path t |}
  | YOther _ => raise AttributeError
  end.

(** [v == z] for an integer [z]. *)
Definition py_eq_int (v : pyval) (z : Z) : bool :=
  match py_num v with
  | Some m => m =? z * 1000000
  | None => false
  end.

(** [v == s] for a string [s]. *)
Definition py_eq_str (v : pyval) (s : string) : bool :=
  match v with
  | PStr s' => String.eqb s' s
  | _ => false
  end.

Definition is_owned_by (t : Task) (process_id : Z) (session_id : string)
    : result bool :=
  match py_get (data t) "process_id" PNone with
  | Ok p =>
    if py_eq_int p process_id
    then match py_get (data t) "session_id" PNone with
         | Ok s => Ok (py_eq_str s session_id)
         | Raise e => Raise e
         end
    else Ok false
  | Raise e => Raise e
  end.

(** [os.path.splitext] on an entry name: the extension starts at the last
    dot, unless only dots come before it. *)
Definition is_dot (c : Ascii.ascii) : bool :=
  String.eqb (String c EmptyString) ".".

Fixpoint all_dots (s : string) : bool :=
  match s with
  | EmptyString => true
  | String c s' => is_dot c && all_dots s'
  end.

Fixpoint split_last_dot (s : string) : option (string * string) :=
  match s with
  | EmptyString => None
  | String c s' =>
    match split_last_dot s' with
    | Some (root, ext) => Some (String c root, ext)
    | None => if is_dot c then Some (EmptyString, s) else None
    end
  end.

Definition splitext (s : string) : string * string :=
  match split_last_dot s with
  | Some (root, ext) => if all_dots root then (s, "") else (root, ext)
  | None => (s, "")
  end.

(** [os.replace] *)
Definition os_replace (src dst : fpath) : M unit := syscall (move_file src dst).

Definition save (t : Task) (directory : dirname) (suffix : string) : M Task :=
  let target_filename :=
    if negb (String.eqb suffix "")
    then fst (splitext (filename t)) +:+ suffix +:+ ".yaml"
    else filename t in
  let target_path := (directory, target_filename) in
  let temp_path := dot_tmp target_path in
  try_except
    (open_write temp_path (Doc (data t)) ;;;
     os_replace temp_path target_path ;;;
     ret {| filename := filename t; data := data t; path := target_path |})
    (fun _ => raise RuntimeError).

(** [timestamped_filename] of utils/file_ops.py *)
Definition timestamped_filename (base_name ext : string) : M string :=
  t <- datetime_now ;;
  ret (base_name +:+ "_" +:+ str_of_int py (Z.quot t 1000000) +:+ ext).

End Runtime.

(** ** heartbeat.py *)

Module Heartbeat.

Record t := {
  session_id : string;
  process_id : Z;
  interval : Z;
  start_time : Z;
  hostname : string
}.

Section Methods.

Variable py : runtime.
Variable self : t.

Definition _write_heartbeat : M unit :=
  let heartbeat_file := (Status, session_id self +:+ ".heartbeat") in
  beat <- datetime_now ;;
  n <- datetime_now ;;
  let data :=
    <["uptime_seconds" := PFloat (n - start_time self)]>
    (<["last_beat" := PStr (isoformat py beat)]>
    (<["hostname" := PStr (hostname self)]>
    (<["process_id" := PInt (process_id self)]>
    (<["session_id" := PStr (session_id self)]> (∅ : gmap string pyval))))) in
  atomic_write_yaml heartbeat_file (YMap data).

End Methods.

End Heartbeat.

(** ** recovery.py *)

Module TaskRecovery.

Record t := { timeout : Z }.   (* timedelta(minutes=timeout_minutes) *)

Definition new (timeout_minutes : Z) : t :=
  {| timeout := timeout_minutes * 60 * 1000000 |}.

Section Methods.

Variable py : runtime.
Variable self : t.

(** One round of the loop of [_get_active_sessions] over the files of
    [.status/]; [active] is the set built so far. *)
Definition heartbeat_entry (now : Z) (active : gset pykey) (file : string)
    : M (gset pykey) :=
  if negb (endswith ".heartbeat" file) then ret active else
  try_except
    (mt <- os_path_getmtime (Status, file) ;;
     if timeout self <? now - mt then ret active else
     data <- read_yaml (Status, file) ;;
     beat_time_str <- lift (py_get data "last_beat" PNone) ;;
     if negb (truthy beat_time_str) then ret active else
     beat_time <- lift (py_fromisoformat py beat_time_str) ;;
     age <- lift (elapsed now beat_time) ;;
     if age <=? timeout self then
       sid <- lift (py_get data "session_id" PNone) ;;
       k <- lift (hash_key sid) ;;
       ret ({[ k ]} ∪ active)
     else ret active)
    (fun _ => ret active).

Fixpoint heartbeat_loop (now : Z) (active : gset pykey) (files : list string)
    : M (gset pykey) :=
  match files with
  | [] => ret active
  | file :: rest =>
    active' <- heartbeat_entry now active file ;;
    heartbeat_loop now active' rest
  end.

(** No round of the loop raises, so the outer handler is reached with the
    set still empty. *)
Definition _get_active_sessions : M (gset pykey) :=
  now <- datetime_now ;;
  e <- dir_exists Status ;;
  if negb e then ret ∅ else
  try_except
    (files <- os_listdir Status ;;
     heartbeat_loop now ∅ files)
    (fun _ => ret ∅).

(** The block "Determine if task is stale" of [recover_stale_tasks]. *)
Definition is_stale (active_sessions : gset pykey)
    (session_id pid host started_str : pyval) : M bool :=
  c1 <- (if truthy session_id
         then k <- lift (hash_key session_id) ;;
              ret (bool_decide (k ∉ active_sessions))
         else ret false) ;;
  if (c1 : bool) then ret true else
  c2 <- (if truthy pid
         then r <- is_process_running py pid host ;; ret (negb r)
         else ret false) ;;
  if (c2 : bool) then ret true else
  if truthy started_str then
    try_except
      (started <- lift (py_fromisoformat py started_str) ;;
       n <- datetime_now ;;
       age <- lift (elapsed n started) ;;
       ret (timeout self <? age))
      (fun _ => ret true)
  else ret true.

(** [task_data.update({...})] of the recovery. *)
Definition stamp_recovery (task_data : ydoc) : M ydoc :=
  r <- lift (py_get task_data "retries" (PInt 0)) ;;
  r1 <- lift (py_add1 r) ;;
  n <- datetime_now ;;
  me <- getpid ;;
  match task_data with
  | YMap d =>
    ret (YMap (<["recovered_by" := PInt me]>
              (<["failure_reason" := PStr "Stale task recovery"]>
              (<["last_failed" := PStr (isoformat py n)]>
              (<["retries" := r1]> d)))))
  | YOther _ => raise AttributeError
  end.

(** The body of the loop over the visible files of [in_progress/]: the
    result tells whether the file was recovered. *)
Definition recover_entry (active_sessions : gset pykey) (filename : string)
    : M bool :=
  let task_path := (InProgress, filename) in
  task_data <- read_yaml task_path ;;
  session_id <- lift (py_get task_data "session_id" PNone) ;;
  pid <- lift (py_get task_data "process_id" PNone) ;;
  host <- lift (py_get task_data "host" PNone) ;;
  started_str <- lift (py_get task_data "started_at" PNone) ;;
  stale <- is_stale active_sessions session_id pid host started_str ;;
  if (stale : bool) then
    let recovering_path := (InProgress, marker filename ".recovering") in
    safe_rename task_path recovering_path ;;;
    task_data' <- stamp_recovery task_data ;;
    let new_path := (Todo, filename) in
    atomic_write_yaml (dot_tmp new_path) task_data' ;;;
    safe_rename (dot_tmp new_path) new_path ;;;
    try_except (os_remove recovering_path) (fun _ => ret ()) ;;;
    ret true
  else ret false.

Fixpoint recover_loop (active_sessions : gset pykey) (files : list string)
    (recovered_count : Z) : M Z :=
  match files with
  | [] => ret recovered_count
  | filename :: rest =>
    n <- try_except
           (r <- recover_entry active_sessions filename ;;
            ret (if (r : bool) then recovered_count + 1 else recovered_count))
           (fun _ => ret recovered_count) ;;
    recover_loop active_sessions rest n
  end.

Definition recover_stale_tasks (current_session_id current_hostname : string)
    : M Z :=
  active_sessions <- _get_active_sessions ;;
  try_except
    (acquire_lock "stale_check" 10 5 ;;;
     e <- dir_exists InProgress ;;
     if negb e then ret 0 else
     files <- get_yaml_files InProgress ;;
     recover_loop active_sessions files 0)
    (fun _ => ret 0).

End Methods.

End TaskRecovery.

(** ** scheduler.py *)

Module TaskScheduler.

Record t := {
  session_id : string;
  process_id : Z;
  hostname : string;
  timeout_minutes : Z;
  _shutdown : bool;
  recovery : TaskRecovery.t
}.

(** The names bound at the top level of scheduler.py: its imports and its
    class. The module has no [import yaml]. *)
Definition module_names : list string :=
  [ "os"; "uuid"; "signal"; "datetime"; "Task"; "Heartbeat"; "TaskRecovery";
    "acquire_lock"; "is_process_running"; "get_memory_usage_mb";
    "get_process_uptime"; "current_hostname"; "get_yaml_files";
    "atomic_write_yaml"; "safe_rename"; "cleanup_temp_files"; "try_remove";
    "TaskScheduler" ].

(** Stable insertion of an element into a list ordered by decreasing key:
    it goes behind the elements whose key is as large. *)
Fixpoint insert_desc (x : Z * string) (l : list (Z * string)) : list (Z * string) :=
  match l with
  | [] => [x]
  | y :: rest => if fst y <? fst x then x :: y :: rest
                 else y :: insert_desc x rest
  end.

Definition sort_desc_stable (l : list (Z * string)) : list (Z * string) :=
  fold_left (fun acc x => insert_desc x acc) l [].

Fixpoint numeric_keys (l : list (pyval * string)) : option (list (Z * string)) :=
  match l with
  | [] => Some []
  | (k, f) :: rest =>
    match py_num k, numeric_keys rest with
    | Some z, Some r => Some ((z, f) :: r)
    | _, _ => None
    end
  end.

(** [tasks.sort(key=..., reverse=True)] on the keys already computed: the
    sort is stable, so with keys that are numbers its result is fixed.
    How Python orders keys that are not numbers is left out: such a list
    of two or more is taken to raise TypeError. *)
Definition sort_by_key (l : list (pyval * string)) : M (list string) :=
  match l with
  | [] | [_] => ret (map snd l)
  | _ => match numeric_keys l with
         | Some nl => ret (map snd (sort_desc_stable nl))
         | None => raise TypeError
         end
  end.

(** [max(0, min(100, pct))] *)
Definition clamp_pct (pct : pyval) : result pyval :=
  match py_num pct with
  | None => Raise TypeError
  | Some m =>
    let low := if m <? 100 * 1000000 then pct else PInt 100 in
    match py_num low with
    | Some m' => Ok (if 0 <? m' then low else PInt 0)
    | None => Raise TypeError
    end
  end.

Fixpoint assoc_set (k : string) (v : pyval) (l : list (string * pyval))
    : list (string * pyval) :=
  match l with
  | [] => [(k, v)]
  | (k', v') :: rest => if String.eqb k' k then (k, v) :: rest
                        else (k', v') :: assoc_set k v rest
  end.

(** [d['progress'][key] = v] *)
Definition set_progress (y : ydoc) (key : string) (v : pyval) : result ydoc :=
  match y with
  | YMap d =>
    match d !! "progress" with
    | Some (PDict l) => Ok (YMap (<["progress" := PDict (assoc_set key v l)]> d))
    | Some _ => Raise TypeError
    | None => Raise TypeError
    end
  | YOther _ => Raise TypeError
  end.

(** [d.setdefault('progress', {})] *)
Definition setdefault_progress (y : ydoc) : result ydoc :=
  match y with
  | YMap d =>
    match d !! "progress" with
    | Some _ => Ok y
    | None => Ok (YMap (<["progress" := PDict []]> d))
    end
  | YOther _ => Raise AttributeError
  end.

Section Methods.

Variable py : runtime.
Variable globals : list string.   (* the module's top-level names *)
Variable self : t.

(** Looking a global name up. *)
Definition global_name (n : string) : M unit :=
  if existsb (String.eqb n) globals then ret () else raise NameError.

Definition _get_task_priority (filename : string) : M pyval :=
  try_except
    (c <- open_read (Todo, filename) ;;
     global_name "yaml" ;;;
     data <- yaml_safe_load c ;;
     lift (py_get data "priority" (PInt 0)))
    (fun _ => ret (PInt 0)).

(** The keys of the sort, computed file by file before any comparison. *)
Fixpoint priority_keys (tasks : list string) : M (list (pyval * string)) :=
  match tasks with
  | [] => ret []
  | f :: rest =>
    k <- _get_task_priority f ;;
    ks <- priority_keys rest ;;
    ret ((k, f) :: ks)
  end.

Definition get_next_task (check_stale : bool) : M (option Task) :=
  if _shutdown self then ret None else
  cleanup_temp_files Todo 3600 ;;;
  (if check_stale
   then TaskRecovery.recover_stale_tasks py (recovery self)
          (session_id self) (hostname self) ;;; ret ()
   else ret ()) ;;;
  try_except
    (acquire_lock "todo_lock" 5 5 ;;;
     tasks <- get_yaml_files Todo ;;
     match tasks with
     | [] => ret None
     | _ :: _ =>
       keyed <- priority_keys tasks ;;
       sorted <- sort_by_key keyed ;;
       match sorted with
       | task_file :: _ =>
         task <- from_file (Todo, task_file) ;;
         ret (Some task)
       | [] => raise IndexError
       end
     end)
    (fun _ => ret None).

Definition move_to_in_progress (task : option Task) : M (option Task) :=
  match task with
  | None => ret None
  | Some task =>
    if _shutdown self then ret None else
    let temp_reserved := (Todo, marker (filename task) ".reserved") in
    let dst_path := (InProgress, filename task) in
    try_except
      (acquire_lock "task_move" 10 5 ;;;
       e <- os_path_exists (path task) ;;
       if negb e then ret None else
       safe_rename (path task) temp_reserved ;;;
       task' <- mark_started py task (process_id self) (hostname self)
                  (session_id self) ;;
       let temp_dst := dot_tmp dst_path in
       atomic_write_yaml temp_dst (data task') ;;;
       safe_rename temp_dst dst_path ;;;
       try_remove temp_reserved ;;;
       ret (Some {| filename := filename task'; data := data task';
                    path := dst_path |}))
      (fun _ => safe_rename temp_reserved (path task) ;;; ret None)
  end.

Definition move_to_done (task : option Task) (success : bool)
    (results error : pyval) : M bool :=
  match task with
  | None => ret false
  | Some task =>
    if _shutdown self then ret false else
    let in_prog := path task in
    let completing := (InProgress, marker (filename task) ".completing") in
    let done_path := (Done, filename task) in
    try_except
      (acquire_lock "task_done" 10 5 ;;;
       safe_rename in_prog completing ;;;
       task' <- mark_completed py task success results error ;;
       let temp_done := dot_tmp done_path in
       atomic_write_yaml temp_done (data task') ;;;
       safe_rename temp_done done_path ;;;
       try_remove completing ;;;
       ret true)
      (fun _ => safe_rename completing in_prog ;;; ret false)
  end.

Definition report_progress (task : option Task) (pct : option pyval)
    (msg : option string) : M bool :=
  match task with
  | None => ret false
  | Some task =>
    if _shutdown self then ret false else
    try_except
      (acquire_lock ("progress_" +:+ filename task) 5 5 ;;;
       c <- open_read (path task) ;;
       global_name "yaml" ;;;
       task_data <- yaml_safe_load c ;;
       d0 <- lift (setdefault_progress task_data) ;;
       d1 <- match pct with
             | Some v => p <- lift (clamp_pct v) ;;
                         lift (set_progress d0 "percentage" p)
             | None => ret d0
             end ;;
       d2 <- match msg with
             | Some m => if negb (String.eqb m "")
                         then lift (set_progress d1 "status" (PStr m))
                         else ret d1
             | None => ret d1
             end ;;
       n <- datetime_now ;;
       d3 <- lift (set_progress d2 "updated_at" (PStr (isoformat py n))) ;;
       atomic_write_yaml (dot_tmp (path task)) d3 ;;;
       safe_rename (dot_tmp (path task)) (path task) ;;;
       ret true)
      (fun _ => ret false)
  end.

Definition _cleanup_status_files : M unit :=
  try_remove (Status, str_of_int py (process_id self) +:+ ".status") ;;;
  try_remove (Status, session_id self +:+ ".heartbeat").

(** [close]: the scheduler it leaves is shut down. Stopping the heartbeat
    thread touches no file. *)
Definition close : M t :=
  _cleanup_status_files ;;;
  ret {| session_id := session_id self; process_id := process_id self;
         hostname := hostname self; timeout_minutes := timeout_minutes self;
         _shutdown := true; recovery := recovery self |}.

End Methods.

End TaskScheduler.

(** ** task_manager.py *)

Module TaskManager.

Record t := { process_id : Z; session_id : string }.

Section Methods.

Variable py : runtime.
Variable self : t.

Definition create_task (task_data : gmap string pyval) (task_id : option string)
    : M (option string) :=
  task_id <- match task_id with
             | Some i => ret i
             | None =>
               n <- datetime_now ;;
               u <- uuid4 ;;
               ret ("task_" +:+ str_of_int py (Z.quot n 1000000) +:+ "_"
                    +:+ String.substring 0 8 u)
             end ;;
  let task_id := if endswith ".yaml" task_id then task_id
                 else task_id +:+ ".yaml" in
  let task_path := (Todo, task_id) in
  n <- datetime_now ;;
  let task_data :=
    <["session_id" := PStr (session_id self)]>
    (<["retries" := PInt 0]>
    (<["created_by" := PInt (process_id self)]>
    (<["created_at" := PStr (isoformat py n)]> task_data))) in
  try_except
    (acquire_lock "task_create" 10 3 ;;;
     atomic_write_yaml (dot_tmp task_path) (YMap task_data) ;;;
     os_rename (dot_tmp task_path) task_path ;;;
     ret (Some task_id))
    (fun _ => try_remove (dot_tmp task_path) ;;; ret None).

Definition empty_counts : gmap string Z :=
  <["corrupted" := 0]> (<["done" := 0]> (<["in_progress" := 0]> (<["todo" := 0]> ∅))).

Definition count_tasks : M (gmap string Z) :=
  let counts := empty_counts in
  counts <- try_except
              (l <- get_yaml_files Todo ;;
               ret (<["todo" := Z.of_nat (length l)]> counts))
              (fun _ => ret counts) ;;
  counts <- try_except
              (l <- get_yaml_files InProgress ;;
               ret (<["in_progress" := Z.of_nat (length l)]> counts))
              (fun _ => ret counts) ;;
  counts <- try_except
              (l <- get_yaml_files Done ;;
               ret (<["done" := Z.of_nat (length l)]> counts))
              (fun _ => ret counts) ;;
  counts <- try_except
              (l <- os_listdir Corrupted ;;
               ret (<["corrupted" := Z.of_nat (length l)]> counts))
              (fun _ => ret counts) ;;
  ret counts.

(** The loop of [list_owned_in_progress_tasks]. *)
Fixpoint owned_loop (files : list string) (owned : list Task) : M (list Task) :=
  match files with
  | [] => ret owned
  | fname :: rest =>
    let path := (InProgress, fname) in
    owned' <- try_except
                (data <- read_yaml path ;;
                 p <- lift (py_get data "process_id" PNone) ;;
                 if py_eq_int p (process_id self)
                 then s <- lift (py_get data "session_id" PNone) ;;
                      if py_eq_str s (session_id self)
                      then ret (owned ++ [{| filename := fname; data := data;
                                             path := path |}])
                      else ret owned
                 else ret owned)
                (fun _ => ret owned) ;;
    owned_loop rest owned'
  end.

Definition list_owned_in_progress_tasks : M (list Task) :=
  e <- dir_exists InProgress ;;
  if negb e then ret [] else
  files <- get_yaml_files InProgress ;;
  owned_loop files [].

(** The loop of [count_tasks_by_process]. *)
Fixpoint pid_count_loop (files : list string) (counts : gmap pykey Z)
    : M (gmap pykey Z) :=
  match files with
  | [] => ret counts
  | fname :: rest =>
    counts' <- try_except
                 (data <- read_yaml (InProgress, fname) ;;
                  pid <- lift (py_get data "process_id" PNone) ;;
                  match pid with
                  | PNone => ret counts
                  | _ =>
                    k <- lift (hash_key pid) ;;
                    ret (<[k := default 0 (counts !! k) + 1]> counts)
                  end)
                 (fun _ => ret counts) ;;
    pid_count_loop rest counts'
  end.

Definition count_tasks_by_process : M (gmap pykey Z) :=
  files <- get_yaml_files InProgress ;;
  pid_count_loop files ∅.

End Methods.

End TaskManager.

(** ** Worlds and a runtime for the examples *)

From Stdlib Require DecimalString.

(** A runtime in which an instant is written as the decimal count of its
    microseconds, and integers in decimal. *)
Definition decimal_runtime : runtime :=
  {| fromisoformat := fun s =>
       option_map (fun i => Naive (Z.of_int i))
         (DecimalString.NilZero.int_of_string s);
     isoformat := fun z => DecimalString.NilZero.string_of_int (Z.to_int z);
     int_of_str := fun s =>
       option_map Z.of_int (DecimalString.NilZero.int_of_string s);
     str_of_int := fun z => DecimalString.NilZero.string_of_int (Z.to_int z) |}.

(** The queue as the scheduler's constructor leaves it: six empty
    directories. The host runs no process the probe can see or signal. *)
Definition fresh_world : world :=
  {| fs := fun _ => Some [];
     now := 0; ticks := []; faults := [];
     local_host := "worker-1"; self_pid := 100;
     proc_entry := fun _ => false;
     kill0 := fun _ => KillNoProcess;
     uuids := [] |}.

Definition with_dir (dn : dirname) (d : entries) (w : world) : world := set_dir dn d w.

Definition at_time (t : Z) (w : world) : world :=
  {| fs := fs w; now := t; ticks := ticks w; faults := faults w;
     local_host := local_host w; self_pid := self_pid w;
     proc_entry := proc_entry w; kill0 := kill0 w; uuids := uuids w |}.

Definition with_ticks (l : list Z) (w : world) : world :=
  {| fs := fs w; now := now w; ticks := l; faults := faults w;
     local_host := local_host w; self_pid := self_pid w;
     proc_entry := proc_entry w; kill0 := kill0 w; uuids := uuids w |}.

Definition with_faults (l : list bool) (w : world) : world :=
  {| fs := fs w; now := now w; ticks := ticks w; faults := l;
     local_host := local_host w; self_pid := self_pid w;
     proc_entry := proc_entry w; kill0 := kill0 w; uuids := uuids w |}.

Definition with_kill0 (k : Z -> kill_outcome) (w : world) : world :=
  {| fs := fs w; now := now w; ticks := ticks w; faults := faults w;
     local_host := local_host w; self_pid := self_pid w;
     proc_entry := proc_entry w; kill0 := k; uuids := uuids w |}.

Definition yaml_file (l : list (string * pyval)) (t : Z) : file :=
  {| body := Doc (YMap (list_to_map l)); mtime := t |}.

(** A world without environment faults to come. *)
Definition calm (w : world) : Prop := faults w = [].

(** A hostname that does not send the probe away: absent (or empty), or
    the local one. *)
Definition local_to (w : world) (hostname : pyval) : Prop :=
  truthy hostname = false \/ hostname = PStr (local_host w).

(** A process of another user: no /proc entry to see, signals refused. *)
Definition foreign_process_world : world :=
  with_kill0 (fun p => if p =? 4242 then KillNotPermitted else KillNoProcess)
    fresh_world.


(** ** Worlds seen through their files *)

Definition has_dir (w : world) (dn : dirname) : bool :=
  match fs w dn with Some _ => true | None => false end.

(** The world after a reading of the clock. *)
Definition tick (w : world) : world := snd (datetime_now w).

(** The world once [.locks/] is there. *)
Definition mk_locks (w : world) : world :=
  match fs w Locks with Some _ => w | None => set_dir Locks [] w end.

(** The world after a rename that fails in silence when it cannot be done. *)
Definition rename_to (src dst : fpath) (w : world) : world :=
  snd (move_file src dst w).

Definition remove_if_present (p : fpath) (w : world) : world :=
  match lookup_file p w with Some _ => delete_entry p w | None => w end.

(** The world after [atomic_write_yaml p data] went through. *)
Definition publish (p : fpath) (data : ydoc) (w : world) : world :=
  rename_to (dot_tmp p) p
    (write_entry (dot_tmp p) {| body := Doc data; mtime := now w |} w).

(** Weakest precondition of a computation: [Q] holds of its result and of
    the world it leaves. *)
Definition wp {A} (m : M A) (Q : result A -> world -> Prop) (w : world) : Prop :=
  Q (fst (m w)) (snd (m w)).

(** The computation raises nothing. *)
Definition returns {A} (r : result A) : Prop :=
  match r with Ok _ => True | Raise _ => False end.

Definition no_raise {A} (m : M A) : Prop := forall w, returns (fst (m w)).

(** The computation raises, if anything, an OSError. *)
Definition os_errors_only {A} (m : M A) : Prop :=
  forall w e, fst (m w) = Raise e -> is_OSError e = true.

(** ** Counting *)

(** The number of visible entries of a directory, 0 when it is missing. *)
Definition visible_count (dn : dirname) (w : world) : Z :=
  match fs w dn with
  | Some d => Z.of_nat (length (List.filter visible (names d)))
  | None => 0
  end.

(** The number of all its entries, 0 when it is missing. *)
Definition entry_count (dn : dirname) (w : world) : Z :=
  match fs w dn with
  | Some d => Z.of_nat (length (names d))
  | None => 0
  end.

(** [corrupted/] holds a file whose name does not end in .yaml, and the
    marker of a write that was cut short. *)
Definition corrupted_leftovers_world : world :=
  with_dir Corrupted
    [ ("notes.txt", {| body := Garbled; mtime := 0 |});
      (".task_A.yaml.tmp", {| body := Garbled; mtime := 0 |}) ]
    fresh_world.

(** The value a key has in the record of the file at [p], if that file is
    there and holds a mapping with the key. *)
Definition field_at (p : fpath) (key : string) (w : world) : option pyval :=
  match lookup_file p w with
  | Some f => match body f with
              | Doc (YMap d) => d !! key
              | _ => None
              end
  | None => None
  end.

(** ** Durations *)

(** What [mark_completed] stores under [duration_seconds] for a record [d]
    when the clock, read after [started_at] was parsed, shows [n2]: the
    difference when [started_at] parses as a naive instant, 0 when it is
    absent, does not parse, or parses with an offset. *)
Definition duration_of (py : runtime) (d : gmap string pyval) (n2 : Z) : pyval :=
  match d !! "started_at" with
  | Some v => match py_fromisoformat py v with
              | Ok (Naive start) => PFloat (n2 - start)
              | Ok (Aware _) => PInt 0
              | Raise _ => PInt 0
              end
  | None => PInt 0
  end.

Definition plain_scheduler : TaskScheduler.t :=
  {| TaskScheduler.session_id := "S1";
     TaskScheduler.process_id := 100;
     TaskScheduler.hostname := "worker-1";
     TaskScheduler.timeout_minutes := 15;
     TaskScheduler._shutdown := false;
     TaskScheduler.recovery := TaskRecovery.new 15 |}.

(** A claimed task whose [started_at] (5 s) is ahead of the clock (1 s),
    as a claimant with a fast clock leaves it. *)
Definition early_record : gmap string pyval :=
  list_to_map [("started_at", PStr "5000000"); ("session_id", PStr "S1");
               ("process_id", PInt 100); ("host", PStr "worker-1");
               ("retries", PInt 0)].

Definition early_task : Task :=
  {| filename := "task_A.yaml"; data := YMap early_record;
     path := (InProgress, "task_A.yaml") |}.

Definition early_world : world :=
  at_time 1000000
    (with_dir InProgress
       [("task_A.yaml", {| body := Doc (YMap early_record); mtime := 0 |})]
       fresh_world).

(** ** Calls of the public operations, and runs of them *)

Inductive call :=
| CreateTask (m : TaskManager.t) (task_data : gmap string pyval)
    (task_id : option string)
| GetNextTask (s : TaskScheduler.t) (check_stale : bool)
| MoveToInProgress (s : TaskScheduler.t) (task : option Task)
| MoveToDone (s : TaskScheduler.t) (task : option Task) (success : bool)
    (results error : pyval)
| ReportProgress (s : TaskScheduler.t) (task : option Task)
    (pct : option pyval) (msg : option string)
| RecoverStaleTasks (r : TaskRecovery.t)
    (current_session_id current_hostname : string).

(** The world a call leaves. *)
Definition exec (py : runtime) (globals : list string) (c : call) (w : world)
    : world :=
  match c with
  | CreateTask m task_data task_id =>
    snd (TaskManager.create_task py m task_data task_id w)
  | GetNextTask s check_stale =>
    snd (TaskScheduler.get_next_task py globals s check_stale w)
  | MoveToInProgress s task =>
    snd (TaskScheduler.move_to_in_progress py s task w)
  | MoveToDone s task success results error =>
    snd (TaskScheduler.move_to_done py s task success results error w)
  | ReportProgress s task pct msg =>
    snd (TaskScheduler.report_progress py globals s task pct msg w)
  | RecoverStaleTasks r sid host =>
    snd (TaskRecovery.recover_stale_tasks py r sid host w)
  end.

Fixpoint run (py : runtime) (globals : list string) (cs : list call)
    (w : world) : world :=
  match cs with
  | [] => w
  | c :: rest => run py globals rest (exec py globals c w)
  end.

(** The visible names of a directory, in listing order. *)
Definition visible_names (dn : dirname) (w : world) : list string :=
  match fs w dn with
  | Some d => List.filter visible (names d)
  | None => []
  end.

Definition plain_manager : TaskManager.t :=
  {| TaskManager.process_id := 100; TaskManager.session_id := "S1" |}.

(** ** Selection by priority *)

(** todo/ lists three tasks of priorities 1, 10 and 3, in this order. *)
Definition priorities_world : world :=
  with_dir Todo
    [ ("a.yaml", yaml_file [("priority", PInt 1)] 0);
      ("b.yaml", yaml_file [("priority", PInt 10)] 0);
      ("c.yaml", yaml_file [("priority", PInt 3)] 0) ]
    fresh_world.

(** The filename and priority of the task a claim attempt returned. *)
Definition chosen (r : result (option Task)) : option (string * result pyval) :=
  match r with
  | Ok (Some t) => Some (filename t, get_priority t (PInt 0))
  | _ => None
  end.

(** Two tasks created one after the other in an empty queue. *)
Definition two_tasks_world : world :=
  run decimal_runtime TaskScheduler.module_names
    [ CreateTask plain_manager (list_to_map [("priority", PInt 5)]) (Some "first");
      CreateTask plain_manager (list_to_map [("priority", PInt 1)]) (Some "second") ]
    fresh_world.

(** The environment lets eight system calls through and fails the ninth:
    in a claim attempt without recovery on two tasks, the read that loads
    the selected one. *)
Definition unreadable_selection_world : world :=
  with_faults (replicate 8 false ++ [true]) two_tasks_world.

(** The claim attempt, without recovery, in that world. *)
Definition unreadable_attempt : result (option Task) * world :=
  TaskScheduler.get_next_task decimal_runtime TaskScheduler.module_names
    plain_scheduler false unreadable_selection_world.

(** ** Heartbeats *)

Section Heartbeats.

Variable py : runtime.
Variable r : TaskRecovery.t.

(** The heartbeat file [f], read at instant [n], is fresh and puts the
    key [k] into the active set: its mtime and its [last_beat] are within
    the window, its [last_beat] parsing as a naive instant, and [k] is
    what its record holds under [session_id] (None when the field is
    missing). *)
Definition fresh_heartbeat (n : Z) (f : file) (k : pykey) : Prop :=
  n - mtime f <= TaskRecovery.timeout r /\
  exists d beat t,
    body f = Doc (YMap d) /\
    d !! "last_beat" = Some beat /\
    truthy beat = true /\
    py_fromisoformat py beat = Ok (Naive t) /\
    n - t <= TaskRecovery.timeout r /\
    hash_key (default PNone (d !! "session_id")) = Ok k.

(** The key one file of [.status/] contributes in a calm world. *)
Definition heartbeat_key (n : Z) (name : string) (w : world) : option pykey :=
  if negb (endswith ".heartbeat" name) then None else
  match lookup_file (Status, name) w with
  | None => None
  | Some f =>
    if TaskRecovery.timeout r <? n - mtime f then None else
    match body f with
    | Doc (YMap d) =>
      let beat := default PNone (d !! "last_beat") in
      if negb (truthy beat) then None else
      match py_fromisoformat py beat with
      | Ok (Naive t) =>
        if n - t <=? TaskRecovery.timeout r
        then match hash_key (default PNone (d !! "session_id")) with
             | Ok k => Some k
             | Raise _ => None
             end
        else None
      | Ok (Aware _) => None
      | Raise _ => None
      end
    | _ => None
    end
  end.

End Heartbeats.

(** [.status/] holds one heartbeat, fresh, without a [session_id]. *)
Definition anonymous_heartbeat_world : world :=
  with_dir Status
    [("ghost.heartbeat", yaml_file [("last_beat", PStr "0"); ("process_id", PInt 7)] 0)]
    fresh_world.

(** ** Staleness *)

(** A task claimed on another host, worker-2, by a session whose heartbeat
    is fresh; its [started_at] is the present instant. The local host is
    worker-1. *)
Definition remote_record : list (string * pyval) :=
  [ ("session_id", PStr "S2"); ("process_id", PInt 4242);
    ("host", PStr "worker-2"); ("started_at", PStr "0"); ("retries", PInt 0) ].

Definition remote_owner_world : world :=
  with_dir Status
    [("S2.heartbeat",
      yaml_file [("session_id", PStr "S2"); ("process_id", PInt 4242);
                 ("hostname", PStr "worker-2"); ("last_beat", PStr "0")] 0)]
    (with_dir InProgress [("task_D.yaml", yaml_file remote_record 0)]
       fresh_world).

Definition remote_owner_active : result (gset pykey) :=
  fst (TaskRecovery._get_active_sessions decimal_runtime (TaskRecovery.new 15)
         remote_owner_world).

Definition remote_owner_recovery : result Z * world :=
  TaskRecovery.recover_stale_tasks decimal_runtime (TaskRecovery.new 15)
    "S1" "worker-1" remote_owner_world.

(** ** The queue seen as slots *)

(** The directories in which a task file lives. *)
Definition primary (dn : dirname) : bool :=
  match dn with
  | Todo | InProgress | Done | Corrupted => true
  | Status | Locks => false
  end.

(** [n] is a visible entry of the primary directory [dn]. *)
Definition shown (w : world) (dn : dirname) (n : string) : Prop :=
  primary dn = true /\ visible n = true /\ is_Some (lookup_file (dn, n) w).

(** No filename is a visible entry of two primary directories. *)
Definition exclusive (w : world) : Prop :=
  forall n d1 d2, shown w d1 n -> shown w d2 n -> d1 = d2.

(** The integer a record holds under [retries], if any. *)
Definition doc_retries (y : ydoc) : option Z :=
  match y with
  | YMap d => match d !! "retries" with
              | Some (PInt z) => Some z
              | _ => None
              end
  | YOther _ => None
  end.

Definition file_retries (f : file) : option Z :=
  match body f with
  | Doc y => doc_retries y
  | Garbled => None
  end.

(** The integer persisted as [retries] in the file at [p], if any. *)
Definition retries_at (p : fpath) (w : world) : option Z :=
  match lookup_file p w with
  | Some f => file_retries f
  | None => None
  end.

(** Every task file that holds an integer [retries] in [w] is still a
    visible entry of some primary directory in [w'], with an integer
    [retries] that is no smaller. *)
Definition keeps_retries (w w' : world) : Prop :=
  forall d n z,
    primary d = true -> visible n = true ->
    retries_at (d, n) w = Some z ->
    exists d' z', primary d' = true /\ retries_at (d', n) w' = Some z' /\ z <= z'.

(** The four primary directories are there. *)
Definition dirs_ready (w : world) : Prop :=
  forall d, primary d = true -> has_dir w d = true.

(** *** What an operation does to the visible files *)

(** The visible files are what they were. *)
Definition unchanged (w w' : world) : Prop :=
  forall q, visible (snd q) = true -> lookup_file q w' = lookup_file q w.

(** The file [n] left [src] and [dst] now holds [f'] under that name. *)
Definition transferred (src dst : dirname) (n : string) (f' : file)
    (w w' : world) : Prop :=
  forall q, visible (snd q) = true ->
    lookup_file q w' =
    if decide (q = (dst, n)) then Some f'
    else if decide (q = (src, n)) then None
    else lookup_file q w.

(** The file at [p] is now [f']. *)
Definition written (p : fpath) (f' : file) (w w' : world) : Prop :=
  forall q, visible (snd q) = true ->
    lookup_file q w' = if decide (q = p) then Some f' else lookup_file q w.

(** The file at [p] is no longer visible. *)
Definition dropped (p : fpath) (w w' : world) : Prop :=
  forall q, visible (snd q) = true ->
    lookup_file q w' = if decide (q = p) then None else lookup_file q w.

(** A step that keeps the world calm and removes no directory. *)
Definition steady (w w' : world) : Prop :=
  calm w' /\ forall x, has_dir w x = true -> has_dir w' x = true.

(** The filename [create_task] settles on in the world [w]. *)
Definition task_name (py : runtime) (task_id : option string) (w : world)
    : string :=
  let id := match task_id with
            | Some i => i
            | None =>
              "task_" +:+ str_of_int py (Z.quot (now w) 1000000) +:+ "_"
              +:+ String.substring 0 8
                    (match uuids w with [] => "" | u :: _ => u end)
            end in
  if endswith ".yaml" id then id else id +:+ ".yaml".

(** [w'] is [w] with some hidden transient files of [dn] removed, the
    clock apart. *)
Definition pruned (dn : dirname) (w w' : world) : Prop :=
  calm w' /\
  (forall x, has_dir w' x = has_dir w x) /\
  forall q,
    lookup_file q w' = lookup_file q w \/
    (lookup_file q w' = None /\ fst q = dn /\
     startswith "." (snd q) = true /\ transient_suffix (snd q) = true).

(** What a step of the queue keeps: the world calm and its directories,
    the exclusivity of the visible names, and the integers persisted as
    [retries]. *)
Definition kept (w w' : world) : Prop :=
  steady w w' /\ (exclusive w -> exclusive w') /\
  (exclusive w -> dirs_ready w -> keeps_retries w w').

(** ** Worlds for the further properties *)

(** todo/ holds one task and the marker of a reservation cut short. *)
Definition one_task_world : world :=
  with_dir Todo
    [ ("task_A.yaml", yaml_file [("priority", PInt 5); ("retries", PInt 0)] 0);
      (".task_Z.yaml.reserved", yaml_file [("priority", PInt 1)] 0) ]
    fresh_world.

(** The first [n] attempts on a lock all time out, by the decisions of the
    environment that are left. *)
Fixpoint all_time_out (n : nat) (l : list bool) : bool :=
  match n with
  | O => true
  | S n' => match l with
            | true :: l' => all_time_out n' l'
            | _ => false
            end
  end.

(** The verdict of the probe on a local process. *)
Definition probe_alive (py : runtime) (pid : pyval) (w : world) : Prop :=
  exists z, py_int py pid = Ok z /\ 0 < z /\
            (proc_entry w z = true \/ kill0 w z = KillOk).

(** The task of [one_task_world], as [from_file] loads it. *)
Definition task_A : Task :=
  {| filename := "task_A.yaml";
     data := YMap (list_to_map [("priority", PInt 5); ("retries", PInt 0)]);
     path := (Todo, "task_A.yaml") |}.

(** A heartbeat of the session S1, and the world after its first beat. *)
Definition plain_heartbeat : Heartbeat.t :=
  {| Heartbeat.session_id := "S1"; Heartbeat.process_id := 100;
     Heartbeat.interval := 30; Heartbeat.start_time := 0;
     Heartbeat.hostname := "worker-1" |}.

Definition beating_world : world :=
  snd (Heartbeat._write_heartbeat decimal_runtime plain_heartbeat fresh_world).

(** The task [Task.from_file] loads from [p] in a calm world, if any. *)
Definition loaded (p : fpath) (w : world) : option Task :=
  match lookup_file p w with
  | Some f => match body f with
              | Doc y => Some {| filename := snd p; data := y; path := p |}
              | Garbled => None
              end
  | None => None
  end.

(** The world after the scheduler S1 claimed the task of [one_task_world]. *)
Definition claimed_world : world :=
  snd (TaskScheduler.move_to_in_progress decimal_runtime plain_scheduler
         (Some task_A) one_task_world).

(** A world whose clock moves by a second and a half at its next reading. *)
Definition slow_clock_world : world := with_ticks [1500000] fresh_world.

(** ** Names of entries *)

(** The names an entry of a directory can bear: not empty, without the
    path separator and without the NUL byte. The code joins a name into a
    path and hands it to the system, which refuses a NUL byte with
    ValueError and reads a separator as a directory. *)
Definition plain_char (c : Ascii.ascii) : bool :=
  negb (Ascii.eqb c Ascii.zero) &&
  negb (String.eqb (String c EmptyString) "/").

Fixpoint plain_chars (s : string) : bool :=
  match s with
  | EmptyString => true
  | String c s' => plain_char c && plain_chars s'
  end.

Definition entry_name (s : string) : bool :=
  negb (String.eqb s "") && plain_chars s.

(** in_progress/ holds a file that does not parse, and a handle on it. *)
Definition garbled_world : world :=
  with_dir InProgress [("task_G.yaml", {| body := Garbled; mtime := 0 |})]
    fresh_world.

Definition garbled_task : Task :=
  {| filename := "task_G.yaml"; data := YOther (PStr "not a mapping");
     path := (InProgress, "task_G.yaml") |}.

(** ** A task that outlives the staleness window *)

(** The record of job.yaml as the session S1, process 100 on worker-1,
    claimed it at the instant 0. *)
Definition job_record : gmap string pyval :=
  list_to_map [("priority", PInt 5); ("retries", PInt 0);
               ("started_at", PStr "0"); ("process_id", PInt 100);
               ("host", PStr "worker-1"); ("session_id", PStr "S1")].

(** The handle S1 holds on it since [move_to_in_progress]. *)
Definition job_handle : Task :=
  {| filename := "job.yaml"; data := YMap job_record;
     path := (InProgress, "job.yaml") |}.

(** Sixteen minutes later S1 is still at work on it: its process runs,
    its heartbeat is fresh, and in_progress/ holds the file. No other
    directory holds a task file. *)
Definition overrun_world : world :=
  {| fs := fun dn =>
       match dn with
       | InProgress =>
         Some [("job.yaml", {| body := Doc (YMap job_record); mtime := 0 |})]
       | Status =>
         Some [("S1.heartbeat",
                yaml_file [("session_id", PStr "S1"); ("process_id", PInt 100);
                           ("hostname", PStr "worker-1");
                           ("last_beat", PStr "960000000")] 960000000)]
       | _ => Some []
       end;
     now := 960000000; ticks := []; faults := [];
     local_host := "worker-1"; self_pid := 200;
     proc_entry := fun p => p =? 100;
     kill0 := fun p => if p =? 100 then KillOk else KillNoProcess;
     uuids := [] |}.

(** The recovery another scheduler runs then, with a window of 15 minutes. *)
Definition overrun_recovery : result Z * world :=
  TaskRecovery.recover_stale_tasks decimal_runtime (TaskRecovery.new 15)
    "S2" "worker-1" overrun_world.

(** S1 finishes the task and finalizes it with its handle. *)
Definition overrun_finalization : result bool * world :=
  TaskScheduler.move_to_done decimal_runtime plain_scheduler (Some job_handle)
    true PNone PNone (snd overrun_recovery).

(** ** A handle that lags behind the file *)

(** todo/ holds job.yaml, created with [retries] 0. *)
Definition lag_world : world :=
  snd (TaskManager.create_task decimal_runtime plain_manager
         (list_to_map [("priority", PInt 5)]) (Some "job") fresh_world).

(** The scheduler S1 selects it and holds the handle. *)
Definition lag_selection : result (option Task) * world :=
  TaskScheduler.get_next_task decimal_runtime TaskScheduler.module_names
    plain_scheduler false lag_world.

Definition lag_handle : option Task :=
  match fst lag_selection with
  | Ok t => t
  | Raise _ => None
  end.

(** Another scheduler, S3, selected it too and claims it first; then its
    process dies. *)
Definition other_scheduler : TaskScheduler.t :=
  {| TaskScheduler.session_id := "S3";
     TaskScheduler.process_id := 300;
     TaskScheduler.hostname := "worker-1";
     TaskScheduler.timeout_minutes := 15;
     TaskScheduler._shutdown := false;
     TaskScheduler.recovery := TaskRecovery.new 15 |}.

Definition lag_first_claim : result (option Task) * world :=
  TaskScheduler.move_to_in_progress decimal_runtime other_scheduler lag_handle
    (snd lag_selection).

(** The recovery puts the file back into todo/, with [retries] 1. *)
Definition lag_recovery : result Z * world :=
  TaskRecovery.recover_stale_tasks decimal_runtime (TaskRecovery.new 15)
    "S2" "worker-1" (snd lag_first_claim).

(** Now S1 claims the task with the handle it has held all along. *)
Definition lag_late_claim : result (option Task) * world :=
  TaskScheduler.move_to_in_progress decimal_runtime plain_scheduler lag_handle
    (snd lag_recovery).

(** The key under which [count_tasks_by_process] counts the entry [name] of
    in_progress/, if it counts it: what its record holds under
    [process_id], when that is there, not None and hashable. *)
Definition pid_key (name : string) (w : world) : option pykey :=
  match lookup_file (InProgress, name) w with
  | Some f =>
    match body f with
    | Doc (YMap d) =>
      match d !! "process_id" with
      | None | Some PNone => None
      | Some v => match hash_key v with
                  | Ok k => Some k
                  | Raise _ => None
                  end
      end
    | _ => None
    end
  | None => None
  end.

(** The number of names of [files] counted under [k]. *)
Definition counted_under (k : pykey) (files : list string) (w : world) : Z :=
  Z.of_nat (length (List.filter (fun name => bool_decide (pid_key name w = Some k))
                      files)).
(** * Properties *)

(** ** Entry lists *)

Lemma lookup_entry_remove m n d :
  lookup_entry m (remove_entry n d) =
  if decide (m = n) then None else lookup_entry m d.
Proof.
  induction d as [| [k f] d IH]; cbn.
  - by case_decide.
  - destruct (String.eqb_spec k n) as [-> | Hkn]; cbn.
    + rewrite IH. case_decide; [done |].
      destruct (String.eqb_spec n m); [congruence | done].
    + rewrite IH. destruct (String.eqb_spec k m) as [-> | ?]; [| done].
      by rewrite decide_False.
Qed.

Lemma lookup_entry_app m d1 d2 :
  lookup_entry m (d1 ++ d2) =
  match lookup_entry m d1 with Some f => Some f | None => lookup_entry m d2 end.
Proof.
  induction d1 as [| [k f] d1 IH]; cbn; [done |].
  destruct (String.eqb k m); [done | apply IH].
Qed.

Lemma lookup_entry_put m n f d :
  lookup_entry m (put_entry n f d) =
  if decide (m = n) then Some f else lookup_entry m d.
Proof.
  unfold put_entry. rewrite lookup_entry_app, lookup_entry_remove. cbn.
  case_decide as H.
  - subst. by rewrite String.eqb_refl.
  - destruct (lookup_entry m d); [done |].
    destruct (String.eqb_spec n m); [congruence | done].
Qed.

Lemma lookup_entry_names n d :
  In n (names d) <-> is_Some (lookup_entry n d).
Proof.
  induction d as [| [k f] d IH]; cbn.
  - split; [done | by intros [? ?]].
  - destruct (String.eqb_spec k n) as [-> | Hkn].
    + split; [by eexists | by left].
    + rewrite <- IH. split; [intros [? | ?]; [done | done] | by right].
Qed.

(** ** Worlds seen through their files *)

Lemma lookup_file_set_dir q dn d w :
  lookup_file q (set_dir dn d w) =
  if decide (fst q = dn) then lookup_entry (snd q) d else lookup_file q w.
Proof. unfold lookup_file. cbn. by case_decide. Qed.

Lemma has_dir_set_dir dn d w x :
  has_dir (set_dir dn d w) x = has_dir w x || bool_decide (x = dn).
Proof.
  unfold has_dir. cbn. case_decide.
  - rewrite bool_decide_eq_true_2 by done. by rewrite orb_true_r.
  - rewrite bool_decide_eq_false_2 by done. by rewrite orb_false_r.
Qed.

Lemma lookup_file_has_dir q w f :
  lookup_file q w = Some f -> has_dir w (fst q) = true.
Proof. unfold lookup_file, has_dir. by destruct (fs w (fst q)). Qed.

Lemma lookup_file_write_entry q p f w :
  has_dir w (fst p) = true ->
  lookup_file q (write_entry p f w) =
  if decide (q = p) then Some f else lookup_file q w.
Proof.
  unfold has_dir, write_entry. intros Hd.
  destruct (fs w (fst p)) as [d |] eqn:E; [| done].
  rewrite lookup_file_set_dir. destruct q as [qd qn], p as [pd pn]; cbn in *.
  case_decide as H1.
  - subst. rewrite lookup_entry_put. unfold lookup_file. cbn. rewrite E.
    case_decide; case_decide; congruence.
  - rewrite decide_False by congruence. done.
Qed.

Lemma lookup_file_delete_entry q p w :
  lookup_file q (delete_entry p w) =
  if decide (q = p) then None else lookup_file q w.
Proof.
  unfold delete_entry. destruct q as [qd qn], p as [pd pn]; cbn.
  destruct (fs w pd) as [d |] eqn:E.
  - rewrite lookup_file_set_dir. cbn. case_decide as H1.
    + subst. rewrite lookup_entry_remove. unfold lookup_file. cbn. rewrite E.
      case_decide; case_decide; congruence.
    + by rewrite decide_False by congruence.
  - case_decide as H; [| done]. inversion H; subst.
    unfold lookup_file. cbn. by rewrite E.
Qed.

Lemma has_dir_write_entry p f w x : has_dir (write_entry p f w) x = has_dir w x.
Proof.
  unfold write_entry. destruct (fs w (fst p)) eqn:E; [| done].
  rewrite has_dir_set_dir. case_bool_decide; [| by rewrite orb_false_r].
  subst. unfold has_dir. by rewrite E.
Qed.

Lemma has_dir_delete_entry p w x : has_dir (delete_entry p w) x = has_dir w x.
Proof.
  unfold delete_entry. destruct (fs w (fst p)) eqn:E; [| done].
  rewrite has_dir_set_dir. case_bool_decide; [| by rewrite orb_false_r].
  subst. unfold has_dir. by rewrite E.
Qed.

Lemma faults_write_entry p f w : faults (write_entry p f w) = faults w.
Proof. unfold write_entry. by destruct (fs w (fst p)). Qed.

Lemma faults_delete_entry p w : faults (delete_entry p w) = faults w.
Proof. unfold delete_entry. by destruct (fs w (fst p)). Qed.

Lemma now_write_entry p f w : now (write_entry p f w) = now w.
Proof. unfold write_entry. by destruct (fs w (fst p)). Qed.

Lemma now_delete_entry p w : now (delete_entry p w) = now w.
Proof. unfold delete_entry. by destruct (fs w (fst p)). Qed.

Lemma lookup_file_rename_to q src dst w :
  lookup_file q (rename_to src dst w) =
  match lookup_file src w with
  | Some f =>
    if has_dir w (fst dst)
    then if decide (q = dst) then Some f
         else if decide (q = src) then None else lookup_file q w
    else lookup_file q w
  | None => lookup_file q w
  end.
Proof.
  unfold rename_to, move_file.
  destruct (lookup_file src w) as [f |] eqn:Es; [| done].
  unfold has_dir. destruct (fs w (fst dst)) as [d |] eqn:Ed; [| done]. cbn.
  rewrite lookup_file_write_entry.
  - case_decide; [done |]. apply lookup_file_delete_entry.
  - rewrite has_dir_delete_entry. unfold has_dir. by rewrite Ed.
Qed.

Lemma has_dir_rename_to src dst w x : has_dir (rename_to src dst w) x = has_dir w x.
Proof.
  unfold rename_to, move_file.
  destruct (lookup_file src w); [| done]. destruct (fs w (fst dst)); [| done].
  cbn. by rewrite has_dir_write_entry, has_dir_delete_entry.
Qed.

Lemma faults_rename_to src dst w : faults (rename_to src dst w) = faults w.
Proof.
  unfold rename_to, move_file.
  destruct (lookup_file src w); [| done]. destruct (fs w (fst dst)); [| done].
  cbn. by rewrite faults_write_entry, faults_delete_entry.
Qed.

Lemma now_rename_to src dst w : now (rename_to src dst w) = now w.
Proof.
  unfold rename_to, move_file.
  destruct (lookup_file src w); [| done]. destruct (fs w (fst dst)); [| done].
  cbn. by rewrite now_write_entry, now_delete_entry.
Qed.

Lemma lookup_file_remove_if_present q p w :
  lookup_file q (remove_if_present p w) =
  if decide (q = p) then None else lookup_file q w.
Proof.
  unfold remove_if_present. destruct (lookup_file p w) eqn:E.
  - apply lookup_file_delete_entry.
  - case_decide; congruence.
Qed.

Lemma has_dir_remove_if_present p w x :
  has_dir (remove_if_present p w) x = has_dir w x.
Proof.
  unfold remove_if_present. destruct (lookup_file p w); [| done].
  apply has_dir_delete_entry.
Qed.

Lemma faults_remove_if_present p w : faults (remove_if_present p w) = faults w.
Proof.
  unfold remove_if_present. destruct (lookup_file p w); [| done].
  apply faults_delete_entry.
Qed.

Lemma lookup_file_tick q w : lookup_file q (tick w) = lookup_file q w.
Proof. done. Qed.

Lemma has_dir_tick w x : has_dir (tick w) x = has_dir w x.
Proof. done. Qed.

Lemma faults_tick w : faults (tick w) = faults w.
Proof. done. Qed.

Lemma lookup_file_mk_locks q w : lookup_file q (mk_locks w) = lookup_file q w.
Proof.
  unfold mk_locks. destruct (fs w Locks) eqn:E; [done |].
  rewrite lookup_file_set_dir. case_decide as H; [| done].
  unfold lookup_file. rewrite H, E. done.
Qed.

Lemma has_dir_mk_locks w x :
  has_dir (mk_locks w) x = has_dir w x || bool_decide (x = Locks).
Proof.
  unfold mk_locks. destruct (fs w Locks) eqn:E.
  - case_bool_decide; [| by rewrite orb_false_r].
    subst. unfold has_dir. by rewrite E.
  - apply has_dir_set_dir.
Qed.

Lemma faults_mk_locks w : faults (mk_locks w) = faults w.
Proof. unfold mk_locks. by destruct (fs w Locks). Qed.

Lemma now_mk_locks w : now (mk_locks w) = now w.
Proof. unfold mk_locks. by destruct (fs w Locks). Qed.


(** ** Rules of the weakest precondition *)

Lemma wp_ret {A} (a : A) Q w : Q (Ok a) w -> wp (ret a) Q w.
Proof. done. Qed.

Lemma wp_raise {A} e (Q : result A -> world -> Prop) w :
  Q (Raise e) w -> wp (raise e) Q w.
Proof. done. Qed.

Lemma wp_lift {A} (r : result A) Q w : Q r w -> wp (lift r) Q w.
Proof. done. Qed.

Lemma wp_bind {A B} (m : M A) (k : A -> M B) Q w :
  wp m (fun r w' => match r with
                    | Ok a => wp (k a) Q w'
                    | Raise e => Q (Raise e) w'
                    end) w ->
  wp (bind m k) Q w.
Proof. unfold wp, bind. by destruct (m w) as [[a | e] w']. Qed.

Lemma wp_try {A} (body : M A) handler Q w :
  wp body (fun r w' => match r with
                       | Ok a => Q (Ok a) w'
                       | Raise e => wp (handler e) Q w'
                       end) w ->
  wp (try_except body handler) Q w.
Proof. unfold wp, try_except. by destruct (body w) as [[a | e] w']. Qed.

Lemma wp_mono {A} (m : M A) (Q Q' : result A -> world -> Prop) w :
  wp m Q w -> (forall r w', Q r w' -> Q' r w') -> wp m Q' w.
Proof. unfold wp. auto. Qed.

Lemma wp_eq {A} (m : M A) Q w r w' : m w = (r, w') -> Q r w' -> wp m Q w.
Proof. unfold wp. by intros ->. Qed.

Lemma bind_ok {A B} (m : M A) (k : A -> M B) w a w' :
  m w = (Ok a, w') -> bind m k w = k a w'.
Proof. unfold bind. by intros ->. Qed.

Lemma bind_raised {A B} (m : M A) (k : A -> M B) w e w' :
  m w = (Raise e, w') -> bind m k w = (Raise e, w').
Proof. unfold bind. by intros ->. Qed.

Lemma datetime_now_tick w : datetime_now w = (Ok (now w), tick w).
Proof. done. Qed.

(** ** System calls in a calm world *)

Lemma sys_fault_calm w : calm w -> sys_fault w = (Ok false, w).
Proof. unfold calm, sys_fault. by intros ->. Qed.

Lemma syscall_calm {A} (m : M A) w : calm w -> syscall m w = m w.
Proof. intros H. unfold syscall, bind. by rewrite sys_fault_calm. Qed.

Lemma dir_exists_calm dn w : calm w -> dir_exists dn w = (Ok (has_dir w dn), w).
Proof.
  intros H. unfold dir_exists, bind. rewrite sys_fault_calm by done.
  unfold has_dir. destruct (fs w dn); cbn; f_equal.
Qed.

Lemma os_path_exists_calm p w :
  calm w ->
  os_path_exists p w =
  (Ok (match lookup_file p w with Some _ => true | None => false end), w).
Proof.
  intros H. unfold os_path_exists, bind. rewrite sys_fault_calm by done.
  by destruct (lookup_file p w).
Qed.

Lemma open_read_calm p w :
  calm w ->
  open_read p w =
  (match lookup_file p w with
   | Some f => Ok (body f)
   | None => Raise FileNotFoundError
   end, w).
Proof.
  intros H. unfold open_read. rewrite syscall_calm by done.
  by destruct (lookup_file p w).
Qed.

Lemma read_yaml_calm p w :
  calm w ->
  read_yaml p w =
  (match lookup_file p w with
   | Some f => match body f with Doc y => Ok y | Garbled => Raise YAMLError end
   | None => Raise FileNotFoundError
   end, w).
Proof.
  intros H. unfold read_yaml, bind. rewrite open_read_calm by done.
  destruct (lookup_file p w) as [f |]; [| done]. by destruct (body f).
Qed.

Lemma os_listdir_calm dn w :
  calm w ->
  os_listdir dn w =
  (match fs w dn with
   | Some d => Ok (names d)
   | None => Raise FileNotFoundError
   end, w).
Proof.
  intros H. unfold os_listdir. rewrite syscall_calm by done.
  by destruct (fs w dn).
Qed.

Lemma os_path_getmtime_calm p w :
  calm w ->
  os_path_getmtime p w =
  (match lookup_file p w with
   | Some f => Ok (mtime f)
   | None => Raise FileNotFoundError
   end, w).
Proof.
  intros H. unfold os_path_getmtime. rewrite syscall_calm by done.
  by destruct (lookup_file p w).
Qed.

(** The visible files of a directory, as [get_yaml_files] lists them. *)
Lemma get_yaml_files_calm dn w :
  calm w ->
  get_yaml_files dn w =
  (Ok (match fs w dn with
       | Some d => List.filter visible (names d)
       | None => []
       end), w).
Proof.
  intros H. unfold get_yaml_files, bind. rewrite dir_exists_calm by done.
  unfold has_dir. destruct (fs w dn) eqn:E; cbn; [| done].
  rewrite os_listdir_calm by done. by rewrite E.
Qed.

Lemma open_write_calm p c w :
  calm w ->
  open_write p c w =
  if has_dir w (fst p)
  then (Ok (), write_entry p {| body := c; mtime := now w |} w)
  else (Raise FileNotFoundError, w).
Proof.
  intros H. unfold open_write. rewrite syscall_calm by done.
  unfold has_dir. by destruct (fs w (fst p)).
Qed.

Lemma os_remove_calm p w :
  calm w ->
  os_remove p w =
  match lookup_file p w with
  | Some _ => (Ok (), delete_entry p w)
  | None => (Raise FileNotFoundError, w)
  end.
Proof. intros H. unfold os_remove. by rewrite syscall_calm. Qed.

Lemma move_file_result src dst w :
  move_file src dst w =
  (match lookup_file src w with
   | Some _ => if has_dir w (fst dst) then Ok () else Raise FileNotFoundError
   | None => Raise FileNotFoundError
   end, rename_to src dst w).
Proof.
  unfold rename_to, move_file, has_dir.
  destruct (lookup_file src w); [| done]. by destruct (fs w (fst dst)).
Qed.

Lemma rename_to_failed src dst w :
  match lookup_file src w with
  | Some _ => has_dir w (fst dst) = false
  | None => True
  end ->
  rename_to src dst w = w.
Proof.
  unfold rename_to, move_file, has_dir.
  destruct (lookup_file src w); [| done].
  destruct (fs w (fst dst)); [done | done].
Qed.

Lemma os_rename_calm src dst w :
  calm w -> os_rename src dst w = move_file src dst w.
Proof. intros H. unfold os_rename. by rewrite syscall_calm. Qed.

(** [safe_rename] never raises; in a calm world it renames when it can. *)
Lemma safe_rename_calm src dst w :
  calm w -> safe_rename src dst w = (Ok (), rename_to src dst w).
Proof.
  intros H.
  unfold safe_rename, try_except_of, try_except, os_rename, shutil_move,
    shutil_copy2, os_remove, syscall, bind, raise, rename_to, move_file.
  rewrite (sys_fault_calm w H).
  destruct (lookup_file src w) eqn:Es.
  - destruct (fs w (fst dst)) eqn:Ed; [done |]. cbn.
    rewrite (sys_fault_calm w H), Es, Ed. cbn.
    by rewrite (sys_fault_calm w H), Es, Ed.
  - cbn. rewrite (sys_fault_calm w H), Es. cbn.
    by rewrite (sys_fault_calm w H), Es.
Qed.

Lemma try_remove_calm p w :
  calm w -> try_remove p w = (Ok (), remove_if_present p w).
Proof.
  intros H. unfold try_remove, try_except, bind.
  rewrite os_path_exists_calm by done. unfold remove_if_present.
  destruct (lookup_file p w) eqn:E; [| done].
  rewrite os_remove_calm by done. by rewrite E.
Qed.

Lemma atomic_write_yaml_calm p data w :
  calm w ->
  atomic_write_yaml p data w =
  if has_dir w (fst p) then (Ok (), publish p data w)
  else (Raise FileNotFoundError, w).
Proof.
  intros H. unfold atomic_write_yaml, bind. rewrite open_write_calm by done.
  cbn. destruct (has_dir w (fst p)); [| done].
  rewrite safe_rename_calm; [done |].
  unfold calm. by rewrite faults_write_entry.
Qed.

Lemma acquire_attempts_calm n w :
  calm w -> acquire_attempts (S n) w = (Ok (), w).
Proof.
  intros H. cbn. unfold try_except_of, filelock_acquire, bind.
  by rewrite sys_fault_calm.
Qed.

Lemma acquire_lock_calm name t n w :
  calm w -> acquire_lock name t (S n) w = (Ok (), mk_locks w).
Proof.
  intros H. unfold acquire_lock, bind, os_makedirs.
  rewrite syscall_calm by done. unfold mk_locks.
  destruct (fs w Locks) eqn:E.
  - by rewrite acquire_attempts_calm.
  - rewrite acquire_attempts_calm; [done | done].
Qed.

(** What a published file looks like from outside. *)
Lemma lookup_file_publish q p data w :
  has_dir w (fst p) = true ->
  lookup_file q (publish p data w) =
  if decide (q = p) then Some {| body := Doc data; mtime := now w |}
  else if decide (q = dot_tmp p) then None else lookup_file q w.
Proof.
  intros Hd. unfold publish. rewrite lookup_file_rename_to.
  rewrite !lookup_file_write_entry by done.
  rewrite decide_True by done. rewrite has_dir_write_entry, Hd.
  case_decide; [done |]. by case_decide.
Qed.

Lemma has_dir_publish p data w x : has_dir (publish p data w) x = has_dir w x.
Proof. unfold publish. by rewrite has_dir_rename_to, has_dir_write_entry. Qed.

Lemma faults_publish p data w : faults (publish p data w) = faults w.
Proof. unfold publish. by rewrite faults_rename_to, faults_write_entry. Qed.

(** ** Weakest preconditions of the calls in a calm world *)

Lemma wp_datetime_now (Q : result Z -> world -> Prop) w :
  Q (Ok (now w)) (tick w) -> wp datetime_now Q w.
Proof. done. Qed.

Lemma wp_acquire_lock name t n (Q : result unit -> world -> Prop) w :
  calm w -> Q (Ok ()) (mk_locks w) -> wp (acquire_lock name t (S n)) Q w.
Proof. intros H HQ. eapply wp_eq; [by apply acquire_lock_calm | done]. Qed.

Lemma wp_safe_rename src dst (Q : result unit -> world -> Prop) w :
  calm w -> Q (Ok ()) (rename_to src dst w) -> wp (safe_rename src dst) Q w.
Proof. intros H HQ. eapply wp_eq; [by apply safe_rename_calm | done]. Qed.

Lemma wp_try_remove p (Q : result unit -> world -> Prop) w :
  calm w -> Q (Ok ()) (remove_if_present p w) -> wp (try_remove p) Q w.
Proof. intros H HQ. eapply wp_eq; [by apply try_remove_calm | done]. Qed.

Lemma wp_os_path_exists p (Q : result bool -> world -> Prop) w :
  calm w ->
  Q (Ok (match lookup_file p w with Some _ => true | None => false end)) w ->
  wp (os_path_exists p) Q w.
Proof. intros H HQ. eapply wp_eq; [by apply os_path_exists_calm | done]. Qed.

Lemma wp_dir_exists dn (Q : result bool -> world -> Prop) w :
  calm w -> Q (Ok (has_dir w dn)) w -> wp (dir_exists dn) Q w.
Proof. intros H HQ. eapply wp_eq; [by apply dir_exists_calm | done]. Qed.

Lemma wp_atomic_write_yaml p data (Q : result unit -> world -> Prop) w :
  calm w ->
  (if has_dir w (fst p) then Q (Ok ()) (publish p data w)
   else Q (Raise FileNotFoundError) w) ->
  wp (atomic_write_yaml p data) Q w.
Proof.
  intros H HQ. unfold wp. rewrite atomic_write_yaml_calm by done.
  by destruct (has_dir w (fst p)).
Qed.

Lemma wp_read_yaml p (Q : result ydoc -> world -> Prop) w :
  calm w ->
  Q (match lookup_file p w with
     | Some f => match body f with Doc y => Ok y | Garbled => Raise YAMLError end
     | None => Raise FileNotFoundError
     end) w ->
  wp (read_yaml p) Q w.
Proof. intros H HQ. eapply wp_eq; [by apply read_yaml_calm | done]. Qed.

Lemma wp_open_read p (Q : result content -> world -> Prop) w :
  calm w ->
  Q (match lookup_file p w with
     | Some f => Ok (body f)
     | None => Raise FileNotFoundError
     end) w ->
  wp (open_read p) Q w.
Proof. intros H HQ. eapply wp_eq; [by apply open_read_calm | done]. Qed.

Lemma wp_get_yaml_files dn (Q : result (list string) -> world -> Prop) w :
  calm w ->
  Q (Ok (match fs w dn with
         | Some d => List.filter visible (names d)
         | None => []
         end)) w ->
  wp (get_yaml_files dn) Q w.
Proof. intros H HQ. eapply wp_eq; [by apply get_yaml_files_calm | done]. Qed.

Lemma wp_os_path_getmtime p (Q : result Z -> world -> Prop) w :
  calm w ->
  Q (match lookup_file p w with
     | Some f => Ok (mtime f)
     | None => Raise FileNotFoundError
     end) w ->
  wp (os_path_getmtime p) Q w.
Proof. intros H HQ. eapply wp_eq; [by apply os_path_getmtime_calm | done]. Qed.

Lemma wp_os_remove p (Q : result unit -> world -> Prop) w :
  calm w ->
  match lookup_file p w with
  | Some _ => Q (Ok ()) (delete_entry p w)
  | None => Q (Raise FileNotFoundError) w
  end ->
  wp (os_remove p) Q w.
Proof.
  intros H HQ. unfold wp. rewrite os_remove_calm by done.
  by destruct (lookup_file p w).
Qed.

Lemma wp_os_rename src dst (Q : result unit -> world -> Prop) w :
  calm w ->
  Q (match lookup_file src w with
     | Some _ => if has_dir w (fst dst) then Ok () else Raise FileNotFoundError
     | None => Raise FileNotFoundError
     end) (rename_to src dst w) ->
  wp (os_rename src dst) Q w.
Proof.
  intros H HQ. unfold wp. rewrite os_rename_calm by done.
  by rewrite move_file_result.
Qed.

(** ** Names that are not visible *)

Lemma length_append s1 s2 :
  String.length (s1 +:+ s2) = (String.length s1 + String.length s2)%nat.
Proof. induction s1 as [| a s1 IH]; simpl; [done | by f_equal]. Qed.

Lemma append_tmp_not_yaml n : String.eqb (n +:+ ".tmp") ".yaml" = false.
Proof.
  destruct (String.eqb_spec (n +:+ ".tmp") ".yaml") as [E |]; [| done].
  exfalso. pose proof (f_equal String.length E) as Hl.
  rewrite length_append in Hl. cbn in Hl.
  destruct n as [| a [| b n]]; cbn in *; [done | | lia].
  by inversion E.
Qed.

Lemma endswith_yaml_tmp n : endswith ".yaml" (n +:+ ".tmp") = false.
Proof.
  induction n as [| a n IH].
  - reflexivity.
  - change (String a n +:+ ".tmp") with (String a (n +:+ ".tmp")).
    cbn [endswith]. rewrite IH.
    change (String a (n +:+ ".tmp")) with (String a n +:+ ".tmp").
    by rewrite append_tmp_not_yaml.
Qed.

Lemma visible_dot_tmp n : visible (n +:+ ".tmp") = false.
Proof. unfold visible. by rewrite endswith_yaml_tmp. Qed.

Lemma startswith_dot x : startswith "." ("." +:+ x) = true.
Proof. unfold startswith. apply String.prefix_correct. cbn. by destruct x. Qed.

Lemma visible_marker n s : visible (marker n s) = false.
Proof.
  unfold visible, marker. rewrite startswith_dot. by rewrite andb_false_r.
Qed.

Lemma visible_not_tmp (q p : fpath) : visible (snd q) = true -> q <> dot_tmp p.
Proof. intros Hv ->. cbn in Hv. by rewrite visible_dot_tmp in Hv. Qed.

Lemma visible_not_marker (q : fpath) d n s :
  visible (snd q) = true -> q <> (d, marker n s).
Proof. intros Hv ->. cbn in Hv. by rewrite visible_marker in Hv. Qed.

(** ** The process probe *)

Section Probe.

Variable py : runtime.

Lemma local_to_guard w hostname :
  local_to w hostname ->
  truthy hostname && differs_from_host hostname (local_host w) = false.
Proof.
  intros [H | ->].
  - by rewrite H.
  - cbn. rewrite String.eqb_refl. by rewrite andb_false_r.
Qed.

(** An invalid pid ([int] raises) or one that is not positive: False. *)
Lemma is_process_running_invalid_pid w pid hostname :
  (forall z, py_int py pid = Ok z -> z <= 0) ->
  is_process_running py pid hostname w = (Ok false, w).
Proof.
  intros Hpid. unfold is_process_running, bind, gethostname, try_except, lift, ret.
  destruct (truthy hostname && _); [done |].
  destruct (py_int py pid) as [z | e] eqn:E; [| done].
  specialize (Hpid z eq_refl).
  destruct (z <=? 0) eqn:Hz; [done | lia].
Qed.

(** A remote host: False, whatever the local process table holds. *)
Lemma is_process_running_remote w pid hostname :
  truthy hostname = true ->
  differs_from_host hostname (local_host w) = true ->
  is_process_running py pid hostname w = (Ok false, w).
Proof.
  intros H1 H2. unfold is_process_running, bind, gethostname.
  by rewrite H1, H2.
Qed.

(** The probe finds the process: True. *)
Lemma is_process_running_alive w pid z hostname :
  local_to w hostname ->
  py_int py pid = Ok z -> 0 < z ->
  proc_entry w z = true \/ kill0 w z = KillOk ->
  is_process_running py pid hostname w = (Ok true, w).
Proof.
  intros Hl Hz Hpos Hlive.
  unfold is_process_running, bind, gethostname, try_except, lift, ret,
    proc_exists, os_kill0.
  rewrite (local_to_guard _ _ Hl), Hz.
  destruct (z <=? 0) eqn:E; [lia |].
  destruct (proc_entry w z) eqn:Hp; [done |].
  destruct Hlive as [? | ->]; [done | done].
Qed.

(** C3. On the local host, with a valid positive pid that has no entry
    under /proc and whose zero-signal send is refused for lack of
    permission, [is_process_running] returns False: the handler of
    PermissionError answers False like that of the other errors. The
    claim expects True there. *)
Theorem is_process_running_permission_denied w pid z hostname :
  local_to w hostname ->
  py_int py pid = Ok z -> 0 < z ->
  proc_entry w z = false ->
  kill0 w z = KillNotPermitted ->
  is_process_running py pid hostname w = (Ok false, w).
Proof.
  intros Hl Hz Hpos Hp Hk.
  unfold is_process_running, bind, gethostname, try_except, lift, ret,
    proc_exists, os_kill0.
  rewrite (local_to_guard _ _ Hl), Hz.
  destruct (z <=? 0) eqn:E; [lia |].
  by rewrite Hp, Hk.
Qed.

End Probe.

Lemma is_process_running_permission_denied_witness :
  is_process_running decimal_runtime (PInt 4242) PNone foreign_process_world
  = (Ok false, foreign_process_world).
Proof.
  apply (is_process_running_permission_denied decimal_runtime
           foreign_process_world (PInt 4242) 4242 PNone).
  - left. reflexivity.
  - reflexivity.
  - lia.
  - reflexivity.
  - reflexivity.
Defined.

(** ** Counting tasks *)

(** C9, as the code has it. In a calm world [count_tasks] reports the
    number of visible entries of todo/, in_progress/ and done/, and for
    corrupted/ the number of all its entries, hidden ones and other
    suffixes included; a missing directory counts 0. *)
Theorem count_tasks_counts w :
  calm w ->
  exists c,
    TaskManager.count_tasks w = (Ok c, w) /\
    c !! "todo" = Some (visible_count Todo w) /\
    c !! "in_progress" = Some (visible_count InProgress w) /\
    c !! "done" = Some (visible_count Done w) /\
    c !! "corrupted" = Some (entry_count Corrupted w).
Proof.
  intros H. unfold TaskManager.count_tasks, bind, try_except, ret.
  rewrite !get_yaml_files_calm by done.
  rewrite os_listdir_calm by done.
  unfold visible_count, entry_count, TaskManager.empty_counts.
  destruct (fs w Todo), (fs w InProgress), (fs w Done), (fs w Corrupted);
    eexists; (split; [reflexivity |]); repeat split; by simplify_map_eq.
Qed.

Lemma count_tasks_counts_witness :
  exists c,
    TaskManager.count_tasks corrupted_leftovers_world
    = (Ok c, corrupted_leftovers_world) /\
    c !! "todo" = Some (visible_count Todo corrupted_leftovers_world) /\
    c !! "in_progress" = Some (visible_count InProgress corrupted_leftovers_world) /\
    c !! "done" = Some (visible_count Done corrupted_leftovers_world) /\
    c !! "corrupted" = Some (entry_count Corrupted corrupted_leftovers_world).
Proof. apply (count_tasks_counts corrupted_leftovers_world). reflexivity. Defined.

(** C9 as stated fails: with two entries in corrupted/ that are not
    visible, the count reported for it is 2, not the 0 visible ones. *)
Lemma count_tasks_corrupted_counts_hidden :
  visible_count Corrupted corrupted_leftovers_world = 0 /\
  exists c,
    fst (TaskManager.count_tasks corrupted_leftovers_world) = Ok c /\
    c !! "corrupted" = Some 2.
Proof.
  split; [reflexivity |].
  unfold TaskManager.count_tasks, bind, try_except, ret.
  rewrite !get_yaml_files_calm by done.
  rewrite os_listdir_calm by done. cbn.
  eexists. split; [reflexivity |]. by simplify_map_eq.
Qed.

(** ** Completion and its duration *)

Lemma ticks_write_entry p f w : ticks (write_entry p f w) = ticks w.
Proof. unfold write_entry. by destruct (fs w (fst p)). Qed.

Lemma ticks_delete_entry p w : ticks (delete_entry p w) = ticks w.
Proof. unfold delete_entry. by destruct (fs w (fst p)). Qed.

Lemma ticks_rename_to src dst w : ticks (rename_to src dst w) = ticks w.
Proof.
  unfold rename_to, move_file.
  destruct (lookup_file src w); [| done]. destruct (fs w (fst dst)); [| done].
  cbn. by rewrite ticks_write_entry, ticks_delete_entry.
Qed.

Lemma ticks_mk_locks w : ticks (mk_locks w) = ticks w.
Proof. unfold mk_locks. by destruct (fs w Locks). Qed.

Lemma self_pid_write_entry p f w : self_pid (write_entry p f w) = self_pid w.
Proof. unfold write_entry. by destruct (fs w (fst p)). Qed.

Lemma self_pid_delete_entry p w : self_pid (delete_entry p w) = self_pid w.
Proof. unfold delete_entry. by destruct (fs w (fst p)). Qed.

Lemma self_pid_rename_to src dst w : self_pid (rename_to src dst w) = self_pid w.
Proof.
  unfold rename_to, move_file.
  destruct (lookup_file src w); [| done]. destruct (fs w (fst dst)); [| done].
  cbn. by rewrite self_pid_write_entry, self_pid_delete_entry.
Qed.

Lemma now_tick w :
  now (tick w) = now w + match ticks w with [] => 0 | t :: _ => t end.
Proof. done. Qed.

Section Completion.

Variable py : runtime.

(** What [mark_completed] does to the record of a task. *)
Lemma mark_completed_record t d success results error w :
  data t = YMap d ->
  exists d' w',
    mark_completed py t success results error w
    = (Ok {| filename := filename t; data := YMap d'; path := path t |}, w') /\
    faults w' = faults w /\
    (forall q, lookup_file q w' = lookup_file q w) /\
    (forall x, has_dir w' x = has_dir w x) /\
    d' !! "completed_at" = Some (PStr (isoformat py (now w))) /\
    d' !! "duration_seconds" = Some (duration_of py d (now (tick w))) /\
    (forall k, k <> "completed_at" -> k <> "success" -> k <> "results" ->
               k <> "error" -> k <> "duration_seconds" -> d' !! k = d !! k).
Proof.
  intros Hd.
  unfold mark_completed, bind, try_except, set_data, lift, ret, datetime_now.
  cbn. rewrite Hd. cbn.
  unfold duration_of.
  rewrite !lookup_insert_ne by done.
  destruct (d !! "started_at") as [v |] eqn:Es; cbn.
  - destruct (py_fromisoformat py v) as [[start | start] | e] eqn:Ep; cbn.
    + eexists _, _. split; [reflexivity |].
      repeat split; try done; [by simplify_map_eq | by simplify_map_eq |].
      intros k ? ? ? ? ?. by simplify_map_eq.
    + eexists _, _. split; [reflexivity |].
      repeat split; try done; [by simplify_map_eq | by simplify_map_eq |].
      intros k ? ? ? ? ?. by simplify_map_eq.
    + eexists _, _. split; [reflexivity |].
      repeat split; try done; [by simplify_map_eq | by simplify_map_eq |].
      intros k ? ? ? ? ?. by simplify_map_eq.
  - eexists _, _. split; [reflexivity |].
    repeat split; try done; [by simplify_map_eq | by simplify_map_eq |].
    intros k ? ? ? ? ?. by simplify_map_eq.
Qed.

End Completion.

Create Rewrite HintDb world.
#[local] Hint Rewrite faults_write_entry faults_delete_entry faults_rename_to
  faults_remove_if_present faults_tick faults_mk_locks faults_publish
  has_dir_write_entry has_dir_delete_entry has_dir_rename_to
  has_dir_remove_if_present has_dir_tick has_dir_mk_locks has_dir_publish
  now_write_entry now_delete_entry now_rename_to now_mk_locks
  ticks_write_entry ticks_delete_entry ticks_rename_to ticks_mk_locks
  lookup_file_tick lookup_file_mk_locks : world.

(** Discharges that a world built from a calm one is calm. *)
Ltac calm_tac :=
  unfold calm in *; autorewrite with world; try assumption; try congruence.

Section Finalization.

Variable py : runtime.
Variable globals : list string.
Variable self : TaskScheduler.t.

(** C6, as the code has it. [move_to_done] on a task whose record is a
    mapping, in a calm world with a done/ directory, returns True and
    leaves in done/ a record whose [completed_at] is the first reading of
    the clock and whose [duration_seconds] is the second reading minus
    [started_at] when that parses as a naive instant, and 0 when it is
    absent, malformed, or parses with an offset (the naive reading of the
    clock minus an aware instant raises TypeError, which is caught).
    Nothing clamps the difference. *)
Theorem move_to_done_duration task d success results error w :
  calm w ->
  TaskScheduler._shutdown self = false ->
  data task = YMap d ->
  has_dir w Done = true ->
  exists w' f d',
    TaskScheduler.move_to_done py self (Some task) success results error w
    = (Ok true, w') /\
    lookup_file (Done, filename task) w' = Some f /\
    body f = Doc (YMap d') /\
    d' !! "completed_at" = Some (PStr (isoformat py (now w))) /\
    d' !! "duration_seconds" = Some (duration_of py d (now (tick w))).
Proof.
  intros Hc Hs Hd Hdone.
  unfold TaskScheduler.move_to_done. rewrite Hs.
  unfold bind, try_except.
  rewrite acquire_lock_calm by done.
  rewrite safe_rename_calm by calm_tac.
  set (w2 := rename_to _ _ (mk_locks w)).
  destruct (mark_completed_record py task d success results error w2 Hd)
    as (d' & w3 & Hm & Hf & Hl & Hh & Hca & Hdu & _).
  rewrite Hm. cbn [data filename path].
  assert (Hc3 : calm w3) by (unfold calm; rewrite Hf; subst w2; calm_tac).
  assert (Hd3 : has_dir w3 Done = true).
  { rewrite Hh. subst w2. autorewrite with world. by rewrite Hdone. }
  rewrite atomic_write_yaml_calm by done. cbn [dot_tmp fst snd]. rewrite Hd3.
  rewrite safe_rename_calm by calm_tac.
  rewrite try_remove_calm by calm_tac.
  eexists _, _, d'. split; [reflexivity |].
  rewrite lookup_file_remove_if_present, decide_False by done.
  rewrite lookup_file_rename_to.
  rewrite lookup_file_publish by done. rewrite decide_True by done.
  rewrite has_dir_publish. cbn [fst]. rewrite Hd3. rewrite decide_True by done.
  split; [reflexivity |]. split; [reflexivity |].
  split.
  - rewrite Hca. subst w2. by autorewrite with world.
  - rewrite Hdu. subst w2. rewrite !now_tick. by autorewrite with world.
Qed.

End Finalization.

Lemma move_to_done_duration_witness :
  exists w' f d',
    TaskScheduler.move_to_done decimal_runtime plain_scheduler (Some early_task)
      true (PList [PInt 1; PInt 2]) PNone early_world
    = (Ok true, w') /\
    lookup_file (Done, "task_A.yaml") w' = Some f /\
    body f = Doc (YMap d') /\
    d' !! "completed_at" = Some (PStr "1000000") /\
    d' !! "duration_seconds"
    = Some (duration_of decimal_runtime early_record (now (tick early_world))).
Proof.
  apply (move_to_done_duration decimal_runtime plain_scheduler early_task
           early_record true (PList [PInt 1; PInt 2]) PNone early_world);
    reflexivity.
Defined.

(** C6 as stated fails: a task whose [started_at] is 5 s, completed when
    the clock shows 1 s, gets a duration of -4 s, in the record that
    [mark_completed] builds and in the file that [move_to_done] leaves. *)
Lemma move_to_done_negative_duration :
  (let r := mark_completed decimal_runtime early_task true PNone PNone
              early_world in
   match fst r with
   | Ok t' => py_get (data t') "duration_seconds" PNone
   | Raise e => Raise e
   end = Ok (PFloat (-4000000))) /\
  (let r := TaskScheduler.move_to_done decimal_runtime plain_scheduler
              (Some early_task) true PNone PNone early_world in
   fst r = Ok true /\
   field_at (Done, "task_A.yaml") "duration_seconds" (snd r)
   = Some (PFloat (-4000000))).
Proof. split; [| split]; by vm_compute. Qed.

(** ** Selection of the next task *)

Section Selection.

Variable py : runtime.
Variable self : TaskScheduler.t.

(** scheduler.py never binds the name [yaml]: the priority of every file
    is read as 0, in every world. *)
Lemma _get_task_priority_unbound filename w :
  fst (TaskScheduler._get_task_priority TaskScheduler.module_names filename w)
  = Ok (PInt 0).
Proof.
  unfold TaskScheduler._get_task_priority, try_except, bind,
    TaskScheduler.global_name.
  destruct (open_read (Todo, filename) w) as [[c | e] w']; reflexivity.
Qed.

End Selection.

(** Had the module bound [yaml], the task of priority 10 would be chosen
    among 1, 10 and 3. *)
Lemma get_next_task_with_yaml_bound :
  chosen (fst (TaskScheduler.get_next_task decimal_runtime
                 ("yaml" :: TaskScheduler.module_names) plain_scheduler true
                 priorities_world))
  = Some ("b.yaml", Ok (PInt 10)).
Proof. by vm_compute. Qed.

(** C5 fails on the code. With todo/ listing tasks of priorities 1, 10 and
    3 the claim attempt returns the first one listed, of priority 1: the
    lookup of [yaml] in [_get_task_priority] raises NameError, the handler
    answers 0 for every file, and the stable sort leaves the listing order. *)
Theorem get_next_task_ignores_priority :
  visible_names Todo priorities_world = ["a.yaml"; "b.yaml"; "c.yaml"] /\
  chosen (fst (TaskScheduler.get_next_task decimal_runtime
                 TaskScheduler.module_names plain_scheduler true
                 priorities_world))
  = Some ("a.yaml", Ok (PInt 1)).
Proof. split; by vm_compute. Qed.

(** C10. A state reached by two calls of [create_task] lists two visible
    files in todo/; when the environment fails the read that loads the
    selected candidate, [get_next_task] returns None, although the other
    candidate loads, and todo/ still lists both files. *)
Theorem get_next_task_none_despite_candidates :
  visible_names Todo unreadable_selection_world
  = ["first.yaml"; "second.yaml"] /\
  faults unreadable_selection_world = replicate 8 false ++ [true] /\
  chosen (fst (TaskScheduler.get_next_task decimal_runtime
                 TaskScheduler.module_names plain_scheduler false
                 two_tasks_world))
  = Some ("first.yaml", Ok (PInt 5)) /\
  fst unreadable_attempt = Ok None /\
  faults (snd unreadable_attempt) = [] /\
  visible_names Todo (snd unreadable_attempt) = ["first.yaml"; "second.yaml"] /\
  returns (fst (from_file (Todo, "second.yaml") (snd unreadable_attempt))) /\
  returns (fst (from_file (Todo, "first.yaml") (snd unreadable_attempt))).
Proof. vm_compute. repeat split. Qed.

(** ** The active session set *)

Section ActiveSessions.

Variable py : runtime.
Variable r : TaskRecovery.t.

Lemma heartbeat_key_fresh n name w k :
  heartbeat_key py r n name w = Some k <->
  endswith ".heartbeat" name = true /\
  exists f, lookup_file (Status, name) w = Some f /\ fresh_heartbeat py r n f k.
Proof.
  unfold heartbeat_key, fresh_heartbeat. split.
  - intros H.
    destruct (endswith ".heartbeat" name) eqn:He; cbn in H; [| done].
    destruct (lookup_file (Status, name) w) as [f |] eqn:Hf; [| done].
    destruct (Z.ltb_spec (TaskRecovery.timeout r) (n - mtime f)); [done |].
    destruct (body f) as [| [d | v]] eqn:Hb; [done | | done].
    destruct (d !! "last_beat") as [beat |] eqn:Hbeat; cbn in H; [| done].
    destruct (truthy beat) eqn:Htr; cbn in H; [| done].
    destruct (py_fromisoformat py beat) as [[t | t] | e] eqn:Hp;
      [| done | done].
    destruct (Z.leb_spec (n - t) (TaskRecovery.timeout r)); [| done].
    destruct (hash_key (default PNone (d !! "session_id"))) as [k' | e] eqn:Hk;
      [| done].
    injection H as <-.
    split; [done |]. exists f. split; [done |]. split; [lia |].
    by exists d, beat, t.
  - intros (He & f & Hf & Hm & d & beat & t & Hb & Hbeat & Htr & Hp & Hle & Hk).
    rewrite He, Hf. cbn.
    destruct (Z.ltb_spec (TaskRecovery.timeout r) (n - mtime f)); [lia |].
    rewrite Hb, Hbeat. cbn. rewrite Htr. cbn. rewrite Hp.
    destruct (Z.leb_spec (n - t) (TaskRecovery.timeout r)); [| lia].
    by rewrite Hk.
Qed.

Lemma heartbeat_entry_calm n active name w :
  calm w ->
  TaskRecovery.heartbeat_entry py r n active name w =
  (Ok (match heartbeat_key py r n name w with
       | Some k => {[ k ]} ∪ active
       | None => active
       end), w).
Proof.
  intros Hc. unfold TaskRecovery.heartbeat_entry, heartbeat_key.
  destruct (endswith ".heartbeat" name); cbn; [| done].
  unfold try_except, bind.
  rewrite os_path_getmtime_calm by done.
  destruct (lookup_file (Status, name) w) as [f |] eqn:Hf; [| done].
  destruct (TaskRecovery.timeout r <? n - mtime f); [done |].
  rewrite read_yaml_calm by done. rewrite Hf.
  destruct (body f) as [| [d | v]]; [done | | done].
  unfold lift, py_get, default.
  destruct (d !! "last_beat") as [beat |]; cbn; [| done].
  destruct (truthy beat); cbn; [| done].
  destruct (py_fromisoformat py beat) as [[t | t] | e]; [| done | done].
  cbn [elapsed].
  destruct (n - t <=? TaskRecovery.timeout r); [| done].
  by destruct (hash_key _).
Qed.

Lemma heartbeat_loop_calm n files : forall active w,
  calm w ->
  exists active',
    TaskRecovery.heartbeat_loop py r n active files w = (Ok active', w) /\
    forall k, k ∈ active' <->
      k ∈ active \/ exists name, In name files /\
                                 heartbeat_key py r n name w = Some k.
Proof.
  induction files as [| name rest IH]; intros active w Hc.
  - exists active. split; [done |]. intros k. split; [by left |].
    by intros [? | (? & [] & _)].
  - cbn [TaskRecovery.heartbeat_loop]. unfold bind at 1.
    rewrite heartbeat_entry_calm by done.
    destruct (IH (match heartbeat_key py r n name w with
                  | Some k => {[ k ]} ∪ active
                  | None => active
                  end) w Hc) as (active' & Heq & Hin).
    exists active'. split; [exact Heq |].
    intros k. rewrite Hin. split.
    + intros [Hk | (nm & Hnm & Hkey)].
      * destruct (heartbeat_key py r n name w) as [k0 |] eqn:Hk0.
        -- apply elem_of_union in Hk as [Hk | Hk].
           ++ apply elem_of_singleton in Hk. subst.
              right. exists name. split; [by left | done].
           ++ by left.
        -- by left.
      * right. exists nm. split; [by right | done].
    + intros [Hk | (nm & [<- | Hnm] & Hkey)].
      * left. destruct (heartbeat_key py r n name w); [| done].
        apply elem_of_union. by right.
      * left. rewrite Hkey. apply elem_of_union. left. by apply elem_of_singleton.
      * right. by exists nm.
Qed.

(** X22. In a calm world the set [_get_active_sessions] returns holds
    exactly the keys contributed by the fresh heartbeat files of
    [.status/]: the files whose name ends in .heartbeat, whose mtime is
    within the window and whose record is a mapping with a [last_beat]
    that parses as a naive instant and is within the window. The key
    contributed is what the record holds under [session_id], and None
    when the record has no such field. Unparseable files, records that
    are no mapping and records without a usable [last_beat] (absent,
    empty, malformed, or with an offset, which cannot be compared with
    the naive clock) contribute nothing. *)
Theorem active_sessions_fresh_heartbeats w :
  calm w ->
  exists active,
    TaskRecovery._get_active_sessions py r w = (Ok active, tick w) /\
    forall k, k ∈ active <->
      exists name f,
        In name (match fs w Status with Some d => names d | None => [] end) /\
        endswith ".heartbeat" name = true /\
        lookup_file (Status, name) w = Some f /\
        fresh_heartbeat py r (now w) f k.
Proof.
  intros Hc. unfold TaskRecovery._get_active_sessions.
  assert (Hct : calm (tick w)) by done.
  rewrite (bind_ok _ _ _ _ _ (datetime_now_tick w)).
  rewrite (bind_ok _ _ _ _ _ (dir_exists_calm Status (tick w) Hct)).
  unfold has_dir. change (fs (tick w) Status) with (fs w Status).
  destruct (fs w Status) as [d |] eqn:Hd; cbn [negb].
  - unfold try_except, bind. rewrite os_listdir_calm by done.
    change (fs (tick w) Status) with (fs w Status). rewrite Hd.
    destruct (heartbeat_loop_calm (now w) (names d) ∅ (tick w) Hct)
      as (active & Heq & Hin).
    rewrite Heq. exists active. split; [done |].
    intros k. rewrite Hin. split.
    + intros [Hk | (name & Hname & Hkey)]; [by apply not_elem_of_empty in Hk |].
      apply heartbeat_key_fresh in Hkey as (He & f & Hf & Hfresh).
      by exists name, f.
    + intros (name & f & Hname & He & Hf & Hfresh). right.
      exists name. split; [done |]. apply heartbeat_key_fresh.
      split; [done |]. by exists f.
  - exists ∅. split; [done |]. intros k. split.
    + by intros Hk%not_elem_of_empty.
    + by intros (name & f & [] & _).
Qed.

End ActiveSessions.

Lemma active_sessions_fresh_heartbeats_witness :
  exists active,
    TaskRecovery._get_active_sessions decimal_runtime (TaskRecovery.new 15)
      anonymous_heartbeat_world
    = (Ok active, tick anonymous_heartbeat_world) /\
    forall k, k ∈ active <->
      exists name f,
        In name (match fs anonymous_heartbeat_world Status with
                 | Some d => names d
                 | None => []
                 end) /\
        endswith ".heartbeat" name = true /\
        lookup_file (Status, name) anonymous_heartbeat_world = Some f /\
        fresh_heartbeat decimal_runtime (TaskRecovery.new 15)
          (now anonymous_heartbeat_world) f k.
Proof.
  apply (active_sessions_fresh_heartbeats decimal_runtime (TaskRecovery.new 15)
           anonymous_heartbeat_world).
  reflexivity.
Defined.

(** C4 fails on the code. A fresh heartbeat whose record has no
    [session_id] does contribute to the set: [_get_active_sessions],
    documented to return the ids of the active sessions, returns the set
    that holds None. The guard that passes over a record without
    [last_beat] has no counterpart for [session_id]. *)
Lemma active_sessions_missing_session_id :
  field_at (Status, "ghost.heartbeat") "session_id" anonymous_heartbeat_world
  = None /\
  match fst (TaskRecovery._get_active_sessions decimal_runtime
               (TaskRecovery.new 15) anonymous_heartbeat_world) with
  | Ok active => elements active = [KNone]
  | Raise _ => False
  end.
Proof. split; by vm_compute. Qed.

(** ** Staleness of an entry of in_progress/ *)

Section Staleness.

Variable py : runtime.
Variable r : TaskRecovery.t.

(** The verdict of the block that decides staleness, for a session id
    that can be looked up in the set: the four tests of the code, in
    order. The second is the negated probe, which is False for every pid
    on a remote host. *)
Lemma is_stale_verdict active sid pid host started w k running :
  hash_key sid = Ok k ->
  fst (is_process_running py pid host w) = Ok running ->
  fst (TaskRecovery.is_stale py r active sid pid host started w)
  = Ok ((truthy sid && bool_decide (k ∉ active))
        || (truthy pid && negb running)
        || negb (truthy started)
        || match py_fromisoformat py started with
           | Ok (Naive t) => TaskRecovery.timeout r <? now w - t
           | Ok (Aware _) => true
           | Raise _ => true
           end).
Proof.
  intros Hk Hrun. unfold TaskRecovery.is_stale.
  assert (Hw : is_process_running py pid host w = (Ok running, w)).
  { revert Hrun. unfold is_process_running, bind, gethostname, try_except,
      lift, ret, proc_exists, os_kill0.
    destruct (truthy host && _); [by intros [= <-] |].
    destruct (py_int py pid) as [z | e]; [| by intros [= <-]].
    destruct (z <=? 0); [by intros [= <-] |].
    destruct (proc_entry w z); [by intros [= <-] |].
    destruct (kill0 w z); by intros [= <-]. }
  unfold bind at 1.
  destruct (truthy sid) eqn:Hs; cbn [andb].
  - unfold bind at 1, lift. rewrite Hk. unfold ret at 1.
    destruct (bool_decide (k ∉ active)); [done |]. cbn [orb].
    destruct (truthy pid) eqn:Hp; cbn [andb].
    + rewrite (bind_ok _ _ _ _ _ (bind_ok _ _ _ _ _ Hw)). unfold ret at 1.
      destruct running; cbn [negb orb]; [| done].
      destruct (truthy started); cbn [negb orb]; [| done].
      unfold try_except, bind, lift.
      by destruct (py_fromisoformat py started) as [[t | t] | e].
    + unfold bind, ret at 1. cbn [orb].
      destruct (truthy started); cbn [negb orb]; [| done].
      unfold try_except, bind, lift.
      by destruct (py_fromisoformat py started) as [[t | t] | e].
  - unfold ret at 1. cbn [orb].
    destruct (truthy pid) eqn:Hp; cbn [andb].
    + rewrite (bind_ok _ _ _ _ _ (bind_ok _ _ _ _ _ Hw)). unfold ret at 1.
      destruct running; cbn [negb orb]; [| done].
      destruct (truthy started); cbn [negb orb]; [| done].
      unfold try_except, bind, lift.
      by destruct (py_fromisoformat py started) as [[t | t] | e].
    + unfold bind, ret at 1. cbn [orb].
      destruct (truthy started); cbn [negb orb]; [| done].
      unfold try_except, bind, lift.
      by destruct (py_fromisoformat py started) as [[t | t] | e].
Qed.

(** An entry with a pid and the name of another host is stale, whatever
    its session and its [started_at]. *)
Lemma is_stale_remote_host active sid pid host started w k :
  hash_key sid = Ok k ->
  truthy pid = true ->
  truthy host = true ->
  differs_from_host host (local_host w) = true ->
  fst (TaskRecovery.is_stale py r active sid pid host started w) = Ok true.
Proof.
  intros Hk Hp Hh Hd.
  rewrite (is_stale_verdict active sid pid host started w k false Hk).
  - rewrite Hp. cbn. by rewrite orb_true_r.
  - by rewrite is_process_running_remote.
Qed.

End Staleness.

(** C2 fails on the code. An entry of in_progress/ whose session is in the
    active set, whose host is another one than the local host and whose
    [started_at] is the present instant is classified stale and recovered:
    the probe answers False for a remote host, and the code reads that as
    a dead owner. The claim says such an entry is never stale. *)
Theorem recover_stale_tasks_remote_owner :
  match remote_owner_active with
  | Ok active => elements active = [KStr "S2"]
  | Raise _ => False
  end /\
  fst (TaskRecovery.is_stale decimal_runtime (TaskRecovery.new 15)
         {[ KStr "S2" ]} (PStr "S2") (PInt 4242) (PStr "worker-2") (PStr "0")
         remote_owner_world) = Ok true /\
  fst remote_owner_recovery = Ok 1 /\
  lookup_file (InProgress, "task_D.yaml") (snd remote_owner_recovery) = None /\
  field_at (Todo, "task_D.yaml") "retries" (snd remote_owner_recovery)
  = Some (PInt 1) /\
  field_at (Todo, "task_D.yaml") "failure_reason" (snd remote_owner_recovery)
  = Some (PStr "Stale task recovery").
Proof. vm_compute. repeat split. Qed.

(** ** Containment of errors *)

Lemma no_raise_ret {A} (a : A) : no_raise (ret a).
Proof. by intros w. Qed.

Lemma no_raise_bind {A B} (m : M A) (k : A -> M B) :
  no_raise m -> (forall a, no_raise (k a)) -> no_raise (bind m k).
Proof.
  intros Hm Hk w. unfold bind. specialize (Hm w).
  destruct (m w) as [[a | e] w']; [apply Hk | done].
Qed.

Lemma no_raise_try {A} (body : M A) handler :
  (forall e, no_raise (handler e)) -> no_raise (try_except body handler).
Proof.
  intros Hh w. unfold try_except.
  destruct (body w) as [[a | e] w']; [done | apply Hh].
Qed.

Lemma no_raise_try_of {A} catches (body : M A) handler :
  (forall w e, fst (body w) = Raise e -> catches e = true) ->
  (forall e, no_raise (handler e)) ->
  no_raise (try_except_of catches body handler).
Proof.
  intros Hb Hh w. unfold try_except_of. specialize (Hb w).
  destruct (body w) as [[a | e] w']; [done |].
  rewrite (Hb e eq_refl). apply Hh.
Qed.

Lemma no_raise_sys_fault : no_raise sys_fault.
Proof. intros w. unfold sys_fault. by destruct (faults w). Qed.

Lemma no_raise_datetime_now : no_raise datetime_now.
Proof. by intros w. Qed.

Lemma no_raise_uuid4 : no_raise uuid4.
Proof. by intros w. Qed.

Lemma no_raise_dir_exists dn : no_raise (dir_exists dn).
Proof.
  intros w. unfold dir_exists, bind, sys_fault.
  destruct (faults w) as [| [] ?]; done.
Qed.

Lemma no_raise_os_path_exists p : no_raise (os_path_exists p).
Proof.
  intros w. unfold os_path_exists, bind, sys_fault.
  destruct (faults w) as [| [] ?]; done.
Qed.

Lemma os_errors_only_syscall {A} (m : M A) :
  os_errors_only m -> os_errors_only (syscall m).
Proof.
  intros Hm w e. unfold syscall, bind, sys_fault.
  destruct (faults w) as [| [] ?]; cbn; try apply Hm. by intros [= <-].
Qed.

Lemma os_errors_only_move_file src dst : os_errors_only (move_file src dst).
Proof.
  intros w e. rewrite move_file_result. cbn.
  destruct (lookup_file src w); [destruct (has_dir w (fst dst)) |];
    by intros [= <-].
Qed.

Lemma no_raise_safe_rename src dst : no_raise (safe_rename src dst).
Proof.
  unfold safe_rename. apply no_raise_try_of.
  - apply os_errors_only_syscall, os_errors_only_move_file.
  - intros _. apply no_raise_try. intros _. apply no_raise_try.
    intros _. apply no_raise_ret.
Qed.

Lemma no_raise_try_remove p : no_raise (try_remove p).
Proof. apply no_raise_try. intros _. apply no_raise_ret. Qed.

Lemma no_raise_cleanup_temp_files dn secs : no_raise (cleanup_temp_files dn secs).
Proof.
  unfold cleanup_temp_files. apply no_raise_bind; [apply no_raise_dir_exists |].
  intros []; cbn; [| apply no_raise_ret].
  apply no_raise_try. intros _. apply no_raise_ret.
Qed.

Section Containment.

Variable py : runtime.
Variable globals : list string.

Lemma no_raise_get_active_sessions r :
  no_raise (TaskRecovery._get_active_sessions py r).
Proof.
  unfold TaskRecovery._get_active_sessions.
  apply no_raise_bind; [apply no_raise_datetime_now |]. intros n.
  apply no_raise_bind; [apply no_raise_dir_exists |].
  intros []; cbn; [| apply no_raise_ret].
  apply no_raise_try. intros _. apply no_raise_ret.
Qed.

Lemma no_raise_recover_stale_tasks r sid host :
  no_raise (TaskRecovery.recover_stale_tasks py r sid host).
Proof.
  unfold TaskRecovery.recover_stale_tasks.
  apply no_raise_bind; [apply no_raise_get_active_sessions |]. intros active.
  apply no_raise_try. intros _. apply no_raise_ret.
Qed.

Lemma no_raise_get_next_task s check_stale :
  no_raise (TaskScheduler.get_next_task py globals s check_stale).
Proof.
  unfold TaskScheduler.get_next_task.
  destruct (TaskScheduler._shutdown s); [apply no_raise_ret |].
  apply no_raise_bind; [apply no_raise_cleanup_temp_files |]. intros _.
  apply no_raise_bind.
  - destruct check_stale; [| apply no_raise_ret].
    apply no_raise_bind; [apply no_raise_recover_stale_tasks |].
    intros _. apply no_raise_ret.
  - intros _. apply no_raise_try. intros _. apply no_raise_ret.
Qed.

Lemma no_raise_move_to_in_progress s task :
  no_raise (TaskScheduler.move_to_in_progress py s task).
Proof.
  unfold TaskScheduler.move_to_in_progress.
  destruct task as [task |]; [| apply no_raise_ret].
  destruct (TaskScheduler._shutdown s); [apply no_raise_ret |].
  apply no_raise_try. intros _.
  apply no_raise_bind; [apply no_raise_safe_rename |].
  intros _. apply no_raise_ret.
Qed.

Lemma no_raise_move_to_done s task success results error :
  no_raise (TaskScheduler.move_to_done py s task success results error).
Proof.
  unfold TaskScheduler.move_to_done.
  destruct task as [task |]; [| apply no_raise_ret].
  destruct (TaskScheduler._shutdown s); [apply no_raise_ret |].
  apply no_raise_try. intros _.
  apply no_raise_bind; [apply no_raise_safe_rename |].
  intros _. apply no_raise_ret.
Qed.

Lemma no_raise_report_progress s task pct msg :
  no_raise (TaskScheduler.report_progress py globals s task pct msg).
Proof.
  unfold TaskScheduler.report_progress.
  destruct task as [task |]; [| apply no_raise_ret].
  destruct (TaskScheduler._shutdown s); [apply no_raise_ret |].
  apply no_raise_try. intros _. apply no_raise_ret.
Qed.

Lemma no_raise_create_task m task_data task_id :
  no_raise (TaskManager.create_task py m task_data task_id).
Proof.
  unfold TaskManager.create_task.
  apply no_raise_bind.
  - destruct task_id; [apply no_raise_ret |].
    apply no_raise_bind; [apply no_raise_datetime_now |]. intros n.
    apply no_raise_bind; [apply no_raise_uuid4 |]. intros u.
    apply no_raise_ret.
  - intros id. apply no_raise_bind; [apply no_raise_datetime_now |]. intros n.
    apply no_raise_try. intros _.
    apply no_raise_bind; [apply no_raise_try_remove |].
    intros _. apply no_raise_ret.
Qed.


End Containment.

Lemma result_and_world {A} (m : M A) w a : fst (m w) = a -> m w = (a, snd (m w)).
Proof. intros <-. by destruct (m w). Qed.


(** ** Slots: what the outcomes of an operation preserve *)

Lemma shown_unchanged w w' d n : unchanged w w' -> shown w' d n -> shown w d n.
Proof.
  intros Hu (Hp & Hv & Hs). repeat split; try done.
  by rewrite <- (Hu (d, n) Hv).
Qed.

Lemma exclusive_unchanged w w' : unchanged w w' -> exclusive w -> exclusive w'.
Proof.
  intros Hu He n d1 d2 H1 H2.
  apply (He n); by apply (shown_unchanged w w').
Qed.

Lemma exclusive_transferred src dst n f' w w' :
  primary src = true ->
  is_Some (lookup_file (src, n) w) ->
  transferred src dst n f' w w' ->
  exclusive w -> exclusive w'.
Proof.
  intros Hps Hsrc Ht He m d1 d2 (Hp1 & Hv & Hs1) (Hp2 & _ & Hs2).
  rewrite (Ht (d1, m) Hv) in Hs1. rewrite (Ht (d2, m) Hv) in Hs2.
  destruct (decide ((d1, m) = (dst, n))) as [E1 | N1];
    destruct (decide ((d2, m) = (dst, n))) as [E2 | N2].
  - congruence.
  - destruct (decide ((d2, m) = (src, n))) as [E | N];
      [by destruct Hs2 |].
    inversion E1; subst. exfalso. apply N. f_equal.
    by apply (He n).
  - destruct (decide ((d1, m) = (src, n))) as [E | N];
      [by destruct Hs1 |].
    inversion E2; subst. exfalso. apply N. f_equal.
    by apply (He n).
  - destruct (decide ((d1, m) = (src, n))); [by destruct Hs1 |].
    destruct (decide ((d2, m) = (src, n))); [by destruct Hs2 |].
    by apply (He m).
Qed.

Lemma exclusive_written_over p f' w w' :
  is_Some (lookup_file p w) ->
  written p f' w w' -> exclusive w -> exclusive w'.
Proof.
  intros Hp Hw He m d1 d2 (Hp1 & Hv & Hs1) (Hp2 & _ & Hs2).
  rewrite (Hw (d1, m) Hv) in Hs1. rewrite (Hw (d2, m) Hv) in Hs2.
  apply (He m); repeat split; try done.
  - destruct (decide ((d1, m) = p)); [by subst | done].
  - destruct (decide ((d2, m) = p)); [by subst | done].
Qed.

Lemma exclusive_written_new dst n f' w w' :
  (forall d, primary d = true -> d <> dst -> lookup_file (d, n) w = None) ->
  written (dst, n) f' w w' -> exclusive w -> exclusive w'.
Proof.
  intros Hfresh Hw He m d1 d2 (Hp1 & Hv & Hs1) (Hp2 & _ & Hs2).
  rewrite (Hw (d1, m) Hv) in Hs1. rewrite (Hw (d2, m) Hv) in Hs2.
  destruct (decide ((d1, m) = (dst, n))) as [E1 | N1];
    destruct (decide ((d2, m) = (dst, n))) as [E2 | N2].
  - congruence.
  - inversion E1; subst. destruct (decide (d2 = dst)); [by subst |].
    rewrite Hfresh in Hs2 by done. by destruct Hs2.
  - inversion E2; subst. destruct (decide (d1 = dst)); [by subst |].
    rewrite Hfresh in Hs1 by done. by destruct Hs1.
  - by apply (He m).
Qed.

Lemma exclusive_dropped p w w' : dropped p w w' -> exclusive w -> exclusive w'.
Proof.
  intros Hd He m d1 d2 (Hp1 & Hv & Hs1) (Hp2 & _ & Hs2).
  rewrite (Hd (d1, m) Hv) in Hs1. rewrite (Hd (d2, m) Hv) in Hs2.
  destruct (decide ((d1, m) = p)); [by destruct Hs1 |].
  destruct (decide ((d2, m) = p)); [by destruct Hs2 |].
  by apply (He m).
Qed.

Lemma keeps_retries_refl w : keeps_retries w w.
Proof. intros d n z Hp Hv Hz. exists d, z. repeat split; [done | done | lia]. Qed.

Lemma keeps_retries_trans w1 w2 w3 :
  keeps_retries w1 w2 -> keeps_retries w2 w3 -> keeps_retries w1 w3.
Proof.
  intros H12 H23 d n z Hp Hv Hz.
  destruct (H12 d n z Hp Hv Hz) as (d2 & z2 & Hp2 & Hz2 & Hle2).
  destruct (H23 d2 n z2 Hp2 Hv Hz2) as (d3 & z3 & Hp3 & Hz3 & Hle3).
  exists d3, z3. repeat split; [done | done | lia].
Qed.

Lemma retries_at_present p w z : retries_at p w = Some z -> is_Some (lookup_file p w).
Proof. unfold retries_at. by destruct (lookup_file p w). Qed.

Lemma keeps_unchanged w w' : unchanged w w' -> keeps_retries w w'.
Proof.
  intros Hu d n z Hp Hv Hz. exists d, z. repeat split; [done | | lia].
  unfold retries_at in *. by rewrite (Hu (d, n) Hv).
Qed.

Lemma keeps_transferred src dst n f' w w' :
  primary src = true -> primary dst = true ->
  is_Some (lookup_file (src, n) w) ->
  (forall z, retries_at (src, n) w = Some z ->
             exists z', file_retries f' = Some z' /\ z <= z') ->
  transferred src dst n f' w w' ->
  exclusive w -> keeps_retries w w'.
Proof.
  intros Hps Hpd Hsrc Hf Ht He d m z Hp Hv Hz.
  destruct (decide (m = n)) as [-> | Hmn].
  - assert (d = src) as ->.
    { apply (He n); repeat split; try done.
      by apply (retries_at_present _ _ z). }
    destruct (Hf z Hz) as (z' & Hz' & Hle).
    exists dst, z'. repeat split; [done | | done].
    unfold retries_at. rewrite (Ht (dst, n) Hv). by rewrite decide_True.
  - exists d, z. repeat split; [done | | lia].
    unfold retries_at in *. rewrite (Ht (d, m) Hv).
    rewrite !decide_False by congruence. done.
Qed.

Lemma keeps_written p f' w w' :
  (forall z, retries_at p w = Some z ->
             exists z', file_retries f' = Some z' /\ z <= z') ->
  written p f' w w' -> keeps_retries w w'.
Proof.
  intros Hf Hw d m z Hp Hv Hz.
  destruct (decide ((d, m) = p)) as [<- | Hne].
  - destruct (Hf z Hz) as (z' & Hz' & Hle).
    exists d, z'. repeat split; [done | | done].
    unfold retries_at. rewrite (Hw (d, m) Hv). by rewrite decide_True.
  - exists d, z. repeat split; [done | | lia].
    unfold retries_at in *. rewrite (Hw (d, m) Hv). by rewrite decide_False.
Qed.

Lemma keeps_dropped p w w' :
  retries_at p w = None -> dropped p w w' -> keeps_retries w w'.
Proof.
  intros Hn Hd d m z Hp Hv Hz.
  destruct (decide ((d, m) = p)) as [<- | Hne]; [congruence |].
  exists d, z. repeat split; [done | | lia].
  unfold retries_at in *. rewrite (Hd (d, m) Hv). by rewrite decide_False.
Qed.

Lemma steady_refl w : calm w -> steady w w.
Proof. by split. Qed.

Lemma steady_trans w1 w2 w3 : steady w1 w2 -> steady w2 w3 -> steady w1 w3.
Proof. intros [_ H1] [Hc H2]. split; [done | auto]. Qed.

Lemma unchanged_refl w : unchanged w w.
Proof. by intros q _. Qed.

Lemma unchanged_trans w1 w2 w3 :
  unchanged w1 w2 -> unchanged w2 w3 -> unchanged w1 w3.
Proof. intros H1 H2 q Hv. by rewrite (H2 q Hv), (H1 q Hv). Qed.

(** ** What each operation does to the slots, in a calm world *)

Ltac wp_beta := lazy beta iota.

Lemma and_swap (A B : Prop) : B /\ A -> A /\ B.
Proof. tauto. Qed.

(** Case analysis on a decidable proposition, whatever the instances under
    which the goal decides it. *)
Ltac decide_cases P :=
  let H := fresh "Hdec" in
  destruct (decide P) as [H | H];
  [ rewrite ?(decide_True (P := P)) by exact H
  | rewrite ?(decide_False (P := P)) by exact H ].

(** A record written to [p] through its two temporary names. *)
Lemma lookup_file_installed q p data w :
  has_dir w (fst p) = true ->
  visible (snd q) = true ->
  lookup_file q (rename_to (dot_tmp p) p (publish (dot_tmp p) data w)) =
  if decide (q = p) then Some {| body := Doc data; mtime := now w |}
  else lookup_file q w.
Proof.
  intros Hd Hv. rewrite lookup_file_rename_to.
  rewrite (lookup_file_publish (dot_tmp p)) by done.
  rewrite decide_True by done. rewrite has_dir_publish, Hd.
  decide_cases (q = p); [done |].
  rewrite decide_False by by apply visible_not_tmp.
  rewrite lookup_file_publish by done.
  rewrite decide_False by by apply visible_not_tmp.
  rewrite decide_False by by apply visible_not_tmp.
  done.
Qed.

(** A file hidden under a marker and put back is where it was. *)
Lemma lookup_file_restored q src d n s w w2 f0 :
  lookup_file src w = Some f0 ->
  (forall q, lookup_file q w2 = lookup_file q (rename_to src (d, marker n s) w)) ->
  (forall x, has_dir w2 x = has_dir w x) ->
  has_dir w d = true ->
  visible (snd q) = true ->
  lookup_file q (rename_to (d, marker n s) src w2) = lookup_file q w.
Proof.
  intros Hsrc Hl Hh Hd Hv.
  pose proof (lookup_file_has_dir _ _ _ Hsrc) as Hds.
  rewrite lookup_file_rename_to. rewrite !Hl.
  rewrite !lookup_file_rename_to. rewrite Hsrc. cbn [fst]. rewrite Hd.
  rewrite decide_True by done. rewrite Hh, Hds.
  rewrite !(decide_False (P := q = (d, marker n s)))
    by by apply visible_not_marker.
  decide_cases (q = src); [by subst |].
  done.
Qed.

Section Outcomes.

Variable py : runtime.
Variable globals : list string.

Lemma mark_started_ok t d pid host sid w :
  data t = YMap d ->
  mark_started py t pid host sid w =
  (Ok {| filename := filename t;
         data := YMap (<["session_id" := PStr sid]>
                       (<["host" := PStr host]>
                       (<["process_id" := PInt pid]>
                       (<["started_at" := PStr (isoformat py (now w))]> d))));
         path := path t |}, tick w).
Proof.
  intros Hd. unfold mark_started, bind, set_data, lift, ret, datetime_now.
  cbn. by rewrite Hd.
Qed.

Lemma mark_started_not_a_mapping t v pid host sid w :
  data t = YOther v ->
  mark_started py t pid host sid w = (Raise TypeError, tick w).
Proof.
  intros Hd. unfold mark_started, bind, set_data, lift, ret, datetime_now.
  cbn. by rewrite Hd.
Qed.

(** [move_to_in_progress] on a handle of todo/: either the visible files
    are unchanged, or the file went from todo/ to in_progress/ with the
    record of the handle, stamped. *)
Lemma move_to_in_progress_outcome s task w :
  calm w ->
  path task = (Todo, filename task) ->
  let w' := snd (TaskScheduler.move_to_in_progress py s (Some task) w) in
  steady w w' /\
  (unchanged w w' \/
   exists f' d d',
     is_Some (lookup_file (Todo, filename task) w) /\
     data task = YMap d /\ body f' = Doc (YMap d') /\
     d' !! "retries" = d !! "retries" /\
     transferred Todo InProgress (filename task) f' w w').
Proof.
  intros Hc Hpath.
  set (Post := fun w' : world =>
    steady w w' /\
    (unchanged w w' \/
     exists f' d d',
       is_Some (lookup_file (Todo, filename task) w) /\
       data task = YMap d /\ body f' = Doc (YMap d') /\
       d' !! "retries" = d !! "retries" /\
       transferred Todo InProgress (filename task) f' w w')).
  change (wp (TaskScheduler.move_to_in_progress py s (Some task))
            (fun _ w' => Post w') w).
  unfold TaskScheduler.move_to_in_progress.
  destruct (TaskScheduler._shutdown s).
  { apply wp_ret. split; [by apply steady_refl | left; apply unchanged_refl]. }
  rewrite Hpath.
  apply wp_try, wp_bind, wp_acquire_lock; [done |]. wp_beta.
  apply wp_bind, wp_os_path_exists; [calm_tac |]. wp_beta.
  rewrite lookup_file_mk_locks.
  destruct (lookup_file (Todo, filename task) w) as [f0 |] eqn:Hsrc; cbn [negb].
  2:{ apply wp_ret. split.
      - split; [calm_tac |]. intros x Hx. rewrite has_dir_mk_locks.
        by rewrite Hx.
      - left. intros q _. apply lookup_file_mk_locks. }
  pose proof (lookup_file_has_dir _ _ _ Hsrc) as Htodo. cbn [fst] in Htodo.
  apply wp_bind, wp_safe_rename; [calm_tac |]. wp_beta.
  set (w2 := rename_to _ _ (mk_locks w)).
  assert (Hc2 : calm w2) by (subst w2; calm_tac).
  assert (Hh2 : forall x, has_dir w x = true -> has_dir w2 x = true).
  { intros x Hx. subst w2. autorewrite with world. by rewrite Hx. }
  (* the rollback, from any world that holds the files of [w2] *)
  assert (Hback : forall w3,
            calm w3 ->
            (forall q, lookup_file q w3 = lookup_file q w2) ->
            (forall x, has_dir w3 x = has_dir w2 x) ->
            wp (safe_rename (Todo, marker (filename task) ".reserved")
                  (Todo, filename task) ;;; ret None)
               (fun (_ : result (option Task)) w' => Post w') w3).
  { intros w3 Hc3 Hl3 Hh3.
    apply wp_bind, wp_safe_rename; [done |]. wp_beta. apply wp_ret.
    split.
    - split; [calm_tac |]. intros x Hx. autorewrite with world.
      rewrite Hh3. by apply Hh2.
    - left. intros q Hv.
      rewrite (lookup_file_restored q (Todo, filename task) Todo
                 (filename task) ".reserved" (mk_locks w) w3 f0); try done.
      + apply lookup_file_mk_locks.
      + by rewrite lookup_file_mk_locks.
      + intros x. rewrite Hh3. subst w2. by autorewrite with world.
      + rewrite has_dir_mk_locks. by rewrite Htodo. }
  destruct (data task) as [d | v] eqn:Hdata.
  - apply wp_bind. eapply wp_eq; [by apply mark_started_ok |]. wp_beta.
    cbn [data filename path].
    set (d' := <["session_id" := _]> _).
    apply wp_bind, wp_atomic_write_yaml; [calm_tac |]. cbn [dot_tmp fst snd].
    autorewrite with world.
    destruct (has_dir w2 InProgress) eqn:Hip.
    + apply wp_bind, wp_safe_rename; [calm_tac |]. wp_beta.
      apply wp_bind, wp_try_remove; [calm_tac |]. wp_beta.
      apply wp_ret. split.
      * split; [calm_tac |]. intros x Hx. autorewrite with world.
        by apply Hh2.
      * right.
        exists {| body := Doc (YMap d'); mtime := now (tick w2) |}, d, d'.
        split; [done |]. split; [done |].
        split; [reflexivity |]. split; [subst d'; by simplify_map_eq |].
        intros q Hv.
        rewrite lookup_file_remove_if_present.
        rewrite decide_False by by apply visible_not_marker.
        rewrite (lookup_file_installed q (InProgress, filename task)) by done.
        decide_cases (q = (InProgress, filename task)); [reflexivity |].
        rewrite lookup_file_tick. subst w2. rewrite lookup_file_rename_to.
        rewrite lookup_file_mk_locks, Hsrc. cbn [fst].
        rewrite has_dir_mk_locks, Htodo. cbn [orb].
        rewrite decide_False by by apply visible_not_marker.
        decide_cases (q = (Todo, filename task)); [done |].
        apply lookup_file_mk_locks.
    + apply Hback; [calm_tac | done | done].
  - apply wp_bind.
    eapply wp_eq; [by apply (mark_started_not_a_mapping _ v) |].
    wp_beta. apply Hback; [calm_tac | done | done].
Qed.

Lemma mark_completed_not_a_mapping t v success results error w :
  data t = YOther v ->
  mark_completed py t success results error w = (Raise TypeError, tick w).
Proof.
  intros Hd. unfold mark_completed, bind, set_data, lift, ret, datetime_now.
  cbn. by rewrite Hd.
Qed.

(** [move_to_done] on a handle of in_progress/ whose file is there: either
    the visible files are unchanged, or the file went from in_progress/
    to done/ with the record of the handle, completed. *)
Lemma move_to_done_outcome s task success results error w :
  calm w ->
  path task = (InProgress, filename task) ->
  is_Some (lookup_file (InProgress, filename task) w) ->
  let w' := snd (TaskScheduler.move_to_done py s (Some task) success results
                   error w) in
  steady w w' /\
  (unchanged w w' \/
   exists f' d d',
     data task = YMap d /\ body f' = Doc (YMap d') /\
     d' !! "retries" = d !! "retries" /\
     transferred InProgress Done (filename task) f' w w').
Proof.
  intros Hc Hpath [f0 Hsrc].
  set (Post := fun w' : world =>
    steady w w' /\
    (unchanged w w' \/
     exists f' d d',
       data task = YMap d /\ body f' = Doc (YMap d') /\
       d' !! "retries" = d !! "retries" /\
       transferred InProgress Done (filename task) f' w w')).
  change (wp (TaskScheduler.move_to_done py s (Some task) success results error)
            (fun _ w' => Post w') w).
  unfold TaskScheduler.move_to_done.
  destruct (TaskScheduler._shutdown s).
  { apply wp_ret. split; [by apply steady_refl | left; apply unchanged_refl]. }
  rewrite Hpath.
  pose proof (lookup_file_has_dir _ _ _ Hsrc) as Hip. cbn [fst] in Hip.
  apply wp_try, wp_bind, wp_acquire_lock; [done |]. wp_beta.
  apply wp_bind, wp_safe_rename; [calm_tac |]. wp_beta.
  set (w2 := rename_to _ _ (mk_locks w)).
  assert (Hc2 : calm w2) by (subst w2; calm_tac).
  assert (Hh2 : forall x, has_dir w x = true -> has_dir w2 x = true).
  { intros x Hx. subst w2. autorewrite with world. by rewrite Hx. }
  assert (Hback : forall w3,
            calm w3 ->
            (forall q, lookup_file q w3 = lookup_file q w2) ->
            (forall x, has_dir w3 x = has_dir w2 x) ->
            wp (safe_rename (InProgress, marker (filename task) ".completing")
                  (InProgress, filename task) ;;; ret false)
               (fun (_ : result bool) w' => Post w') w3).
  { intros w3 Hc3 Hl3 Hh3.
    apply wp_bind, wp_safe_rename; [done |]. wp_beta. apply wp_ret.
    split.
    - split; [calm_tac |]. intros x Hx. autorewrite with world.
      rewrite Hh3. by apply Hh2.
    - left. intros q Hv.
      rewrite (lookup_file_restored q (InProgress, filename task) InProgress
                 (filename task) ".completing" (mk_locks w) w3 f0); try done.
      + apply lookup_file_mk_locks.
      + by rewrite lookup_file_mk_locks.
      + intros x. rewrite Hh3. subst w2. by autorewrite with world.
      + rewrite has_dir_mk_locks. by rewrite Hip. }
  destruct (data task) as [d | v] eqn:Hdata.
  - destruct (mark_completed_record py task d success results error w2 Hdata)
      as (d' & w3 & Hm & Hf & Hl & Hh & _ & _ & Hkeep).
    apply wp_bind. eapply wp_eq; [exact Hm |]. wp_beta.
    cbn [data filename path].
    assert (Hc3 : calm w3) by (unfold calm; by rewrite Hf).
    apply wp_bind, wp_atomic_write_yaml; [done |]. cbn [dot_tmp fst snd].
    destruct (has_dir w3 Done) eqn:Hdone.
    + apply wp_bind, wp_safe_rename; [calm_tac |]. wp_beta.
      apply wp_bind, wp_try_remove; [calm_tac |]. wp_beta.
      apply wp_ret. split.
      * split; [calm_tac |]. intros x Hx. autorewrite with world.
        rewrite Hh. by apply Hh2.
      * right.
        exists {| body := Doc (YMap d'); mtime := now w3 |}, d, d'.
        split; [done |]. split; [reflexivity |].
        split; [by apply Hkeep |].
        intros q Hv.
        rewrite lookup_file_remove_if_present.
        rewrite decide_False by by apply visible_not_marker.
        rewrite (lookup_file_installed q (Done, filename task)) by done.
        decide_cases (q = (Done, filename task)); [reflexivity |].
        rewrite Hl. subst w2. rewrite lookup_file_rename_to.
        rewrite lookup_file_mk_locks, Hsrc. cbn [fst].
        rewrite has_dir_mk_locks, Hip. cbn [orb].
        rewrite decide_False by by apply visible_not_marker.
        decide_cases (q = (InProgress, filename task)); [done |].
        apply lookup_file_mk_locks.
    + apply Hback; [done | done | done].
  - apply wp_bind.
    eapply wp_eq; [by apply (mark_completed_not_a_mapping _ v) |].
    wp_beta. apply Hback; [calm_tac | done | done].
Qed.

Lemma quiet_step w w1 :
  calm w ->
  faults w1 = faults w ->
  (forall q, lookup_file q w1 = lookup_file q w) ->
  (forall x, has_dir w x = true -> has_dir w1 x = true) ->
  steady w w1 /\ unchanged w w1.
Proof.
  intros Hc Hf Hl Hh. split; [split |].
  - unfold calm in *. congruence.
  - done.
  - intros q _. apply Hl.
Qed.

Lemma steady_mk_locks w : calm w -> steady w (mk_locks w) /\ unchanged w (mk_locks w).
Proof.
  intros Hc. apply quiet_step; [done | apply faults_mk_locks | |].
  - intros q. apply lookup_file_mk_locks.
  - intros x Hx. rewrite has_dir_mk_locks. by rewrite Hx.
Qed.

Lemma setdefault_progress_retries y y' :
  TaskScheduler.setdefault_progress y = Ok y' -> doc_retries y' = doc_retries y.
Proof.
  destruct y as [d | v]; cbn; [| done].
  destruct (d !! "progress"); intros [= <-]; [done |].
  cbn. by rewrite lookup_insert_ne.
Qed.

Lemma set_progress_retries y key v y' :
  TaskScheduler.set_progress y key v = Ok y' -> doc_retries y' = doc_retries y.
Proof.
  destruct y as [d | u]; cbn; [| done].
  destruct (d !! "progress") as [[] |]; try done.
  intros [= <-]. cbn. by rewrite lookup_insert_ne.
Qed.

(** [report_progress]: either the visible files are unchanged, or the file
    of the handle is rewritten with the [retries] it had. *)
Lemma report_progress_outcome s task pct msg w :
  calm w ->
  let w' := snd (TaskScheduler.report_progress py globals s (Some task) pct
                   msg w) in
  steady w w' /\
  (unchanged w w' \/
   exists f0 f',
     lookup_file (path task) w = Some f0 /\
     file_retries f' = file_retries f0 /\
     written (path task) f' w w').
Proof.
  intros Hc.
  set (Post := fun w' : world =>
    steady w w' /\
    (unchanged w w' \/
     exists f0 f',
       lookup_file (path task) w = Some f0 /\
       file_retries f' = file_retries f0 /\
       written (path task) f' w w')).
  change (wp (TaskScheduler.report_progress py globals s (Some task) pct msg)
            (fun _ w' => Post w') w).
  unfold TaskScheduler.report_progress.
  destruct (TaskScheduler._shutdown s).
  { apply wp_ret. split; [by apply steady_refl | left; apply unchanged_refl]. }
  destruct (steady_mk_locks w Hc) as [Hs1 Hu1].
  assert (Hfail1 : wp (ret false) (fun (_ : result bool) w' => Post w')
                     (mk_locks w)).
  { apply wp_ret. split; [done | by left]. }
  assert (Hfail2 : wp (ret false) (fun (_ : result bool) w' => Post w')
                     (tick (mk_locks w))).
  { apply wp_ret. split; [| left].
    - destruct Hs1 as [? ?]. split; [calm_tac | done].
    - intros q Hv. rewrite lookup_file_tick. by apply Hu1. }
  apply wp_try, wp_bind, wp_acquire_lock; [done |]. wp_beta.
  apply wp_bind, wp_open_read; [calm_tac |]. rewrite lookup_file_mk_locks.
  destruct (lookup_file (path task) w) as [f0 |] eqn:Hsrc; [| exact Hfail1].
  wp_beta. apply wp_bind. unfold TaskScheduler.global_name.
  destruct (existsb (String.eqb "yaml") globals); [| exact Hfail1].
  apply wp_ret. wp_beta. apply wp_bind. unfold yaml_safe_load.
  destruct (body f0) as [| y] eqn:Hbody; [exact Hfail1 |].
  apply wp_ret. wp_beta.
  apply wp_bind, wp_lift.
  destruct (TaskScheduler.setdefault_progress y) as [d0 | e0] eqn:E0;
    [| exact Hfail1].
  wp_beta. apply wp_bind.
  assert (Hpct : forall Q : result ydoc -> world -> Prop,
            (forall d1, doc_retries d1 = doc_retries d0 ->
                        Q (Ok d1) (mk_locks w)) ->
            (forall e, Q (Raise e) (mk_locks w)) ->
            wp match pct with
               | Some v => p <- lift (TaskScheduler.clamp_pct v) ;;
                           lift (TaskScheduler.set_progress d0 "percentage" p)
               | None => ret d0
               end Q (mk_locks w)).
  { intros Q Hok Herr. destruct pct as [v |]; [| by apply wp_ret, Hok].
    apply wp_bind, wp_lift. destruct (TaskScheduler.clamp_pct v) as [p0 | e];
      [| apply Herr].
    wp_beta. apply wp_lift.
    destruct (TaskScheduler.set_progress d0 "percentage" p0) as [d1 | e] eqn:E1;
      [| apply Herr].
    apply Hok. by apply set_progress_retries in E1. }
  apply Hpct; [| intros e; exact Hfail1]. intros d1 Hr1. apply wp_bind.
  assert (Hmsg : forall Q : result ydoc -> world -> Prop,
            (forall d2, doc_retries d2 = doc_retries d0 ->
                        Q (Ok d2) (mk_locks w)) ->
            (forall e, Q (Raise e) (mk_locks w)) ->
            wp match msg with
               | Some m => if negb (String.eqb m "")
                           then lift (TaskScheduler.set_progress d1 "status"
                                        (PStr m))
                           else ret d1
               | None => ret d1
               end Q (mk_locks w)).
  { intros Q Hok Herr. destruct msg as [m |]; [| by apply wp_ret, Hok].
    destruct (negb (String.eqb m "")); [| by apply wp_ret, Hok].
    apply wp_lift.
    destruct (TaskScheduler.set_progress d1 "status" (PStr m)) as [d2 | e] eqn:E2;
      [| apply Herr].
    apply Hok. apply set_progress_retries in E2. congruence. }
  apply Hmsg; [| intros e; exact Hfail1]. intros d2 Hr2.
  apply wp_bind, wp_datetime_now. wp_beta.
  apply wp_bind, wp_lift.
  destruct (TaskScheduler.set_progress d2 "updated_at" _) as [d3 | e] eqn:E3;
    [| exact Hfail2].
  wp_beta.
  pose proof (lookup_file_has_dir _ _ _ Hsrc) as Hdir.
  apply wp_bind, wp_atomic_write_yaml; [calm_tac |]. cbn [dot_tmp fst snd].
  autorewrite with world. rewrite Hdir. cbn [orb].
  apply wp_bind, wp_safe_rename; [calm_tac |]. wp_beta.
  apply wp_ret. split.
  - split; [calm_tac |]. intros x Hx. autorewrite with world. by rewrite Hx.
  - right. exists f0, {| body := Doc d3; mtime := now (tick (mk_locks w)) |}.
    split; [done |]. split.
    + unfold file_retries. cbn [body]. rewrite Hbody.
      apply set_progress_retries in E3. apply setdefault_progress_retries in E0.
      congruence.
    + intros q Hv.
      rewrite (lookup_file_installed q (path task)).
      * decide_cases (q = path task); [reflexivity |].
        rewrite lookup_file_tick. apply lookup_file_mk_locks.
      * autorewrite with world. by rewrite Hdir.
      * done.
Qed.

(** [create_task]: either the visible files are unchanged, or todo/ holds
    the new file, with [retries] 0. *)
Lemma create_task_outcome m task_data task_id w :
  calm w ->
  let w' := snd (TaskManager.create_task py m task_data task_id w) in
  steady w w' /\
  (unchanged w w' \/
   exists f',
     file_retries f' = Some 0 /\
     written (Todo, task_name py task_id w) f' w w').
Proof.
  intros Hc.
  set (Post := fun w' : world =>
    steady w w' /\
    (unchanged w w' \/
     exists f',
       file_retries f' = Some 0 /\
       written (Todo, task_name py task_id w) f' w w')).
  change (wp (TaskManager.create_task py m task_data task_id)
            (fun _ w' => Post w') w).
  unfold TaskManager.create_task.
  assert (Hrest : forall id0 w0,
    calm w0 ->
    (forall q, lookup_file q w0 = lookup_file q w) ->
    (forall x, has_dir w0 x = has_dir w x) ->
    task_name py task_id w
    = (if endswith ".yaml" id0 then id0 else id0 +:+ ".yaml") ->
    wp (n <- datetime_now ;;
        try_except
          (acquire_lock "task_create" 10 3 ;;;
           atomic_write_yaml
             (dot_tmp (Todo, if endswith ".yaml" id0 then id0
                             else id0 +:+ ".yaml"))
             (YMap (<["session_id" := PStr (TaskManager.session_id m)]>
                    (<["retries" := PInt 0]>
                    (<["created_by" := PInt (TaskManager.process_id m)]>
                    (<["created_at" := PStr (isoformat py n)]> task_data))))) ;;;
           os_rename
             (dot_tmp (Todo, if endswith ".yaml" id0 then id0
                             else id0 +:+ ".yaml"))
             (Todo, if endswith ".yaml" id0 then id0 else id0 +:+ ".yaml") ;;;
           ret (Some (if endswith ".yaml" id0 then id0 else id0 +:+ ".yaml")))
          (fun _ =>
             try_remove
               (dot_tmp (Todo, if endswith ".yaml" id0 then id0
                               else id0 +:+ ".yaml")) ;;;
             ret None))
       (fun _ w' => Post w') w0).
  { intros id0 w0 Hc0 Hl0 Hh0 Hname. rewrite <- Hname.
    set (name := task_name py task_id w).
    apply wp_bind, wp_datetime_now. wp_beta.
    apply wp_try, wp_bind, wp_acquire_lock; [calm_tac |]. wp_beta.
    set (w1 := mk_locks (tick w0)).
    assert (Hc1 : calm w1) by (subst w1; calm_tac).
    assert (Hl1 : forall q, lookup_file q w1 = lookup_file q w).
    { intros q. subst w1. by rewrite lookup_file_mk_locks, lookup_file_tick. }
    assert (Hh1 : forall x, has_dir w x = true -> has_dir w1 x = true).
    { intros x Hx. subst w1. autorewrite with world. by rewrite Hh0, Hx. }
    apply wp_bind, wp_atomic_write_yaml; [done |]. cbn [dot_tmp fst snd].
    destruct (has_dir w1 Todo) eqn:Htodo.
    - wp_beta. apply wp_bind, wp_os_rename; [calm_tac |].
      rewrite (lookup_file_publish (Todo, name +:+ ".tmp")) by done.
      rewrite decide_True by done. cbn [fst]. rewrite has_dir_publish, Htodo.
      wp_beta. apply wp_ret. split.
      + split; [calm_tac |]. intros x Hx. autorewrite with world.
        by apply Hh1.
      + right. eexists {| body := Doc (YMap _); mtime := now w1 |}.
        apply and_swap. split.
        * intros q Hv.
          rewrite (lookup_file_installed q (Todo, name)) by done.
          decide_cases (q = (Todo, name)); [reflexivity |]. apply Hl1.
        * unfold file_retries; cbn; by simplify_map_eq.
    - wp_beta. apply wp_bind, wp_try_remove; [done |]. wp_beta.
      apply wp_ret. split.
      + split; [calm_tac |]. intros x Hx. autorewrite with world.
        by apply Hh1.
      + left. intros q Hv. rewrite lookup_file_remove_if_present.
        rewrite decide_False by by apply (visible_not_tmp q (Todo, name)).
        apply Hl1. }
  destruct task_id as [i |].
  - apply wp_bind, wp_ret. wp_beta. by apply Hrest.
  - apply wp_bind, wp_bind, wp_datetime_now. wp_beta.
    apply wp_bind. eapply wp_eq; [reflexivity |]. wp_beta.
    apply wp_ret. wp_beta. by apply Hrest.
Qed.

End Outcomes.

(** ** Cleanup of transient files *)

Lemma wp_for_each {A} (l : list A) (f : A -> M unit) (I : world -> Prop) :
  (forall x w1, I w1 -> wp (f x) (fun r w2 => returns r /\ I w2) w1) ->
  forall w, I w -> wp (for_each l f) (fun r w' => returns r /\ I w') w.
Proof.
  intros Hf. induction l as [| x l IH]; intros w HI.
  - by apply wp_ret.
  - cbn [for_each]. apply wp_bind.
    eapply wp_mono; [by apply Hf |].
    intros [[] | e] w2 [Hr HI2]; [| done]. by apply IH.
Qed.

Lemma pruned_refl dn w : calm w -> pruned dn w w.
Proof. intros Hc. split; [done |]. split; [done |]. intros q. by left. Qed.

Lemma pruned_tick dn w w1 : pruned dn w w1 -> pruned dn w (tick w1).
Proof.
  intros (Hc & Hh & Hl). split; [calm_tac |]. split; [done |].
  intros q. rewrite lookup_file_tick. apply Hl.
Qed.

Lemma pruned_delete dn name w w1 :
  startswith "." name = true -> transient_suffix name = true ->
  pruned dn w w1 -> pruned dn w (delete_entry (dn, name) w1).
Proof.
  intros Hs Ht (Hc & Hh & Hl). split; [calm_tac |]. split.
  - intros x. by rewrite has_dir_delete_entry.
  - intros q. rewrite lookup_file_delete_entry.
    decide_cases (q = (dn, name)); [| apply Hl].
    right. subst q. by repeat split.
Qed.

Lemma visible_not_hidden name : startswith "." name = true -> visible name = false.
Proof. intros H. unfold visible. rewrite H. by rewrite andb_false_r. Qed.

Lemma pruned_unchanged dn w w' : pruned dn w w' -> steady w w' /\ unchanged w w'.
Proof.
  intros (Hc & Hh & Hl). split; [split; [done |] |].
  - intros x Hx. by rewrite Hh.
  - intros q Hv. destruct (Hl q) as [-> | (_ & _ & Hs & _)]; [done |].
    apply visible_not_hidden in Hs. congruence.
Qed.

(** [cleanup_temp_files] in a calm world: it returns, and all it does to
    the files is to remove hidden files of the directory whose name has a
    transient suffix. *)
Lemma cleanup_temp_files_pruned dn secs w :
  calm w ->
  wp (cleanup_temp_files dn secs) (fun r w' => returns r /\ pruned dn w w') w.
Proof.
  intros Hc. unfold cleanup_temp_files.
  apply wp_bind, wp_dir_exists; [done |]. wp_beta.
  destruct (has_dir w dn); cbn [negb];
    [| apply wp_ret; split; [done | by apply pruned_refl]].
  apply wp_try.
  apply wp_bind. eapply wp_eq; [by apply os_listdir_calm |].
  destruct (fs w dn) as [d |]; wp_beta;
    [| apply wp_ret; split; [done | by apply pruned_refl]].
  eapply wp_mono.
  - apply (wp_for_each _ _ (pruned dn w)); [| by apply pruned_refl].
    intros name w1 Hp. pose proof Hp as (Hc1 & Hh1 & Hl1).
    destruct (startswith "." name) eqn:Hs; cbn [negb];
      [| by apply wp_ret].
    apply wp_try, wp_bind, wp_datetime_now. wp_beta.
    apply wp_bind, wp_os_path_getmtime; [calm_tac |].
    rewrite lookup_file_tick.
    destruct (lookup_file (dn, name) w1) as [f |] eqn:Hf;
      [| apply wp_ret; split; [done | by apply pruned_tick]].
    wp_beta.
    destruct ((secs * 1000000 <? now w1 - mtime f) && transient_suffix name)
      eqn:Hold.
    + apply wp_os_remove; [calm_tac |]. rewrite lookup_file_tick, Hf.
      split; [done |]. apply andb_true_iff in Hold as [_ Ht].
      apply pruned_delete; [done | done |]. by apply pruned_tick.
    + apply wp_ret. split; [done | by apply pruned_tick].
  - intros [[] | e] w' [Hr Hp]; [done | done].
Qed.

Section MoreOutcomes.

Variable py : runtime.
Variable globals : list string.

Lemma is_process_running_world pid host w :
  snd (is_process_running py pid host w) = w.
Proof.
  unfold is_process_running, bind, gethostname, try_except, lift, ret,
    proc_exists, os_kill0.
  destruct (truthy host && _); [done |].
  destruct (py_int py pid) as [z | e]; [| done].
  destruct (z <=? 0); [done |].
  destruct (proc_entry w z); [done |].
  by destruct (kill0 w z).
Qed.

Lemma is_process_running_eq pid host w :
  is_process_running py pid host w
  = (fst (is_process_running py pid host w), w).
Proof.
  rewrite <- (is_process_running_world pid host w) at 3.
  by destruct (is_process_running py pid host w).
Qed.

(** The block that decides staleness leaves the files alone: at most it
    reads the clock. *)
Lemma is_stale_world r active sid pid host started w :
  wp (TaskRecovery.is_stale py r active sid pid host started)
     (fun _ w' => w' = w \/ w' = tick w) w.
Proof.
  unfold TaskRecovery.is_stale. apply wp_bind.
  destruct (truthy sid);
    [ apply wp_bind, wp_lift; destruct (hash_key sid) as [k | e]; wp_beta;
      [ apply wp_ret; wp_beta;
        destruct (bool_decide (k ∉ active)); [apply wp_ret; by left |]
      | by left ]
    | apply wp_ret; wp_beta ].
  all: apply wp_bind.
  all: destruct (truthy pid);
    [ apply wp_bind; (eapply wp_eq; [apply is_process_running_eq |]);
      destruct (fst (is_process_running py pid host w)) as [b | e]; wp_beta;
      [ apply wp_ret; wp_beta; destruct (negb b); [apply wp_ret; by left |]
      | by left ]
    | apply wp_ret; wp_beta ].
  all: destruct (truthy started); [| apply wp_ret; by left].
  all: apply wp_try, wp_bind, wp_lift.
  all: destruct (py_fromisoformat py started) as [[t | t] | e]; wp_beta;
    [| | apply wp_ret; by left].
  all: apply wp_bind, wp_datetime_now; wp_beta.
  all: apply wp_bind, wp_lift; cbn [elapsed]; wp_beta; apply wp_ret; by right.
Qed.

Lemma stamp_recovery_result d w :
  TaskRecovery.stamp_recovery py (YMap d) w =
  match py_add1 (default (PInt 0) (d !! "retries")) with
  | Ok r1 =>
    (Ok (YMap (<["recovered_by" := PInt (self_pid w)]>
              (<["failure_reason" := PStr "Stale task recovery"]>
              (<["last_failed" := PStr (isoformat py (now w))]>
              (<["retries" := r1]> d))))), tick w)
  | Raise e => (Raise e, w)
  end.
Proof.
  unfold TaskRecovery.stamp_recovery, bind, lift, py_get, default.
  destruct (d !! "retries") as [v |]; cbn.
  - by destruct (py_add1 v).
  - done.
Qed.

Lemma py_add1_retries d z :
  doc_retries (YMap d) = Some z ->
  py_add1 (default (PInt 0) (d !! "retries")) = Ok (PInt (z + 1)).
Proof.
  cbn. destruct (d !! "retries") as [[] |]; try done. by intros [= ->].
Qed.

Lemma py_add1_fails_retries d e :
  py_add1 (default (PInt 0) (d !! "retries")) = Raise e ->
  doc_retries (YMap d) = None.
Proof. cbn. by destruct (d !! "retries") as [[] |]. Qed.

(** What the recovery does with one entry of in_progress/, in a calm
    world: it leaves the visible files alone, or it moves the entry to
    todo/ with the stamped record, or (when [retries] is no number or
    todo/ is missing) it leaves the entry hidden. *)
Lemma recover_entry_outcome r active fn w :
  calm w ->
  wp (TaskRecovery.recover_entry py r active fn)
     (fun res w' =>
        steady w w' /\
        match res with
        | Ok true =>
          exists f d r1 t mt,
            lookup_file (InProgress, fn) w = Some f /\
            body f = Doc (YMap d) /\
            py_add1 (default (PInt 0) (d !! "retries")) = Ok r1 /\
            transferred InProgress Todo fn
              {| body := Doc (YMap (<["recovered_by" := PInt (self_pid w)]>
                                  (<["failure_reason" := PStr "Stale task recovery"]>
                                  (<["last_failed" := PStr (isoformat py t)]>
                                  (<["retries" := r1]> d)))));
                 mtime := mt |} w w'
        | Ok false => unchanged w w'
        | Raise _ =>
          unchanged w w' \/
          ((retries_at (InProgress, fn) w = None \/ has_dir w Todo = false) /\
           dropped (InProgress, fn) w w')
        end) w.
Proof.
  intros Hc. unfold TaskRecovery.recover_entry.
  apply wp_bind, wp_read_yaml; [done |].
  destruct (lookup_file (InProgress, fn) w) as [f |] eqn:Hf;
    [| split; [by apply steady_refl | left; apply unchanged_refl]].
  destruct (body f) as [| [d | v]] eqn:Hb;
    [split; [by apply steady_refl | left; apply unchanged_refl] | |
     wp_beta; apply wp_bind, wp_lift;
     split; [by apply steady_refl | left; apply unchanged_refl]].
  wp_beta. do 4 (apply wp_bind, wp_lift; cbn [py_get]; wp_beta).
  pose proof (lookup_file_has_dir _ _ _ Hf) as Hip. cbn [fst] in Hip.
  apply wp_bind. unfold wp at 1.
  set (sid := match d !! "session_id" with Some v => v | None => PNone end).
  set (pid := match d !! "process_id" with Some v => v | None => PNone end).
  set (host := match d !! "host" with Some v => v | None => PNone end).
  set (started := match d !! "started_at" with Some v => v | None => PNone end).
  pose proof (is_stale_world r active sid pid host started w) as Hw3.
  unfold wp in Hw3.
  destruct (TaskRecovery.is_stale py r active sid pid host started w)
    as [res w3]. cbn [fst snd] in *.
  assert (Hc3 : calm w3) by (destruct Hw3; subst w3; calm_tac).
  assert (Hl3 : forall q, lookup_file q w3 = lookup_file q w)
    by (destruct Hw3; by subst w3).
  assert (Hh3 : forall x, has_dir w3 x = has_dir w x)
    by (destruct Hw3; by subst w3).
  assert (Hp3 : self_pid w3 = self_pid w) by (destruct Hw3; by subst w3).
  assert (Hq3 : steady w w3 /\ unchanged w w3).
  { apply quiet_step; [done | by destruct Hw3; subst w3 | done |].
    intros x Hx. by rewrite Hh3. }
  destruct res as [[] | e]; [| by apply wp_ret | destruct Hq3; by split; [| left]].
  apply wp_bind, wp_safe_rename; [done |]. wp_beta.
  set (w4 := rename_to _ _ w3).
  assert (Hl4 : forall q, visible (snd q) = true ->
            lookup_file q w4 =
            if decide (q = (InProgress, fn)) then None else lookup_file q w).
  { intros q Hv. subst w4. rewrite lookup_file_rename_to, !Hl3, Hf. cbn [fst].
    rewrite Hh3, Hip.
    rewrite decide_False by by apply visible_not_marker. done. }
  assert (Hs4 : steady w w4).
  { split; [subst w4; calm_tac |]. intros x Hx. subst w4.
    autorewrite with world. by rewrite Hh3. }
  apply wp_bind. unfold wp at 1. rewrite stamp_recovery_result.
  destruct (py_add1 (default (PInt 0) (d !! "retries"))) as [r1 | e] eqn:Hadd;
    cbn [fst snd].
  2:{ split; [done |]. right. split; [| exact Hl4].
      left. unfold retries_at, file_retries. rewrite Hf, Hb.
      by apply (py_add1_fails_retries d e). }
  set (d' := <["recovered_by" := _]> _).
  apply wp_bind, wp_atomic_write_yaml; [subst w4; calm_tac |].
  cbn [dot_tmp fst snd]. autorewrite with world.
  destruct (has_dir w4 Todo) eqn:Htodo.
  - apply wp_bind, wp_safe_rename; [subst w4; calm_tac |]. wp_beta.
    apply wp_bind, wp_try, wp_os_remove; [subst w4; calm_tac |].
    set (w6 := rename_to _ _ (publish _ _ (tick w4))).
    assert (Hl6 : forall q, visible (snd q) = true ->
              lookup_file q w6 =
              if decide (q = (Todo, fn))
              then Some {| body := Doc (YMap d'); mtime := now (tick w4) |}
              else if decide (q = (InProgress, fn)) then None
                   else lookup_file q w).
    { intros q Hv. subst w6.
      rewrite (lookup_file_installed q (Todo, fn)) by done.
      decide_cases (q = (Todo, fn)); [done |].
      rewrite lookup_file_tick. by apply Hl4. }
    assert (Hpid : self_pid w4 = self_pid w).
    { subst w4. by rewrite self_pid_rename_to. }
    assert (Hdone : forall w7,
              calm w7 ->
              (forall x, has_dir w7 x = has_dir w6 x) ->
              (forall q, visible (snd q) = true ->
                         lookup_file q w7 = lookup_file q w6) ->
              steady w w7 /\
              exists f0 d0 r0 t mt,
                Some f = Some f0 /\
                body f0 = Doc (YMap d0) /\
                py_add1 (default (PInt 0) (d0 !! "retries")) = Ok r0 /\
                transferred InProgress Todo fn
                  {| body := Doc (YMap (<["recovered_by" := PInt (self_pid w)]>
                                      (<["failure_reason" := PStr "Stale task recovery"]>
                                      (<["last_failed" := PStr (isoformat py t)]>
                                      (<["retries" := r0]> d0)))));
                     mtime := mt |} w w7).
    { intros w7 Hc7 Hh7 Hl7. split.
      - split; [done |]. intros x Hx. rewrite Hh7. subst w6.
        autorewrite with world. by apply Hs4.
      - exists f, d, r1, (now w4), (now (tick w4)).
        split; [done |]. split; [done |]. split; [done |].
        intros q Hv. rewrite (Hl7 q Hv), (Hl6 q Hv).
        subst d'. by rewrite Hpid. }
    destruct (lookup_file (InProgress, marker fn ".recovering") w6); wp_beta.
    + apply wp_ret. apply Hdone.
      * subst w6 w4. calm_tac.
      * intros x. by rewrite has_dir_delete_entry.
      * intros q Hv. rewrite lookup_file_delete_entry.
        by rewrite decide_False by by apply visible_not_marker.
    + apply wp_ret. wp_beta. apply wp_ret. apply Hdone; [| done | done].
      subst w6 w4. calm_tac.
  - split; [split; [subst w4; calm_tac | by destruct Hs4] |].
    right. split.
    + right. subst w4. autorewrite with world in Htodo. by rewrite Hh3 in Htodo.
    + intros q Hv. rewrite lookup_file_tick. by apply Hl4.
Qed.

Lemma dirs_ready_steady w w' : steady w w' -> dirs_ready w -> dirs_ready w'.
Proof. intros [_ Hh] Hd x Hx. apply Hh. by apply Hd. Qed.

Lemma kept_refl w : calm w -> kept w w.
Proof.
  intros Hc. split; [by apply steady_refl |]. split; [done |].
  intros _ _. apply keeps_retries_refl.
Qed.

Lemma kept_trans w1 w2 w3 : kept w1 w2 -> kept w2 w3 -> kept w1 w3.
Proof.
  intros (Hs1 & He1 & Hk1) (Hs2 & He2 & Hk2). split; [| split].
  - by apply (steady_trans w1 w2 w3).
  - auto.
  - intros He Hd. apply (keeps_retries_trans w1 w2 w3); [by apply Hk1 |].
    apply Hk2; [by apply He1 | by apply (dirs_ready_steady w1 w2)].
Qed.

Lemma kept_unchanged w w' : steady w w' -> unchanged w w' -> kept w w'.
Proof.
  intros Hs Hu. split; [done |]. split.
  - by apply exclusive_unchanged.
  - intros _ _. by apply keeps_unchanged.
Qed.

Lemma recover_entry_kept r active fn w :
  calm w ->
  wp (TaskRecovery.recover_entry py r active fn) (fun _ w' => kept w w') w.
Proof.
  intros Hc. eapply wp_mono; [by apply recover_entry_outcome |].
  intros res w' [Hs Hres]. destruct res as [[] | e].
  - destruct Hres as (f & d & r1 & t & mt & Hf & Hb & Hadd & Ht).
    split; [done |]. split.
    + intros He. eapply exclusive_transferred; [| | exact Ht | exact He];
        [done | by rewrite Hf].
    + intros He _.
      eapply keeps_transferred; [| | | | exact Ht | exact He];
        [done | done | by rewrite Hf |].
      intros z Hz. exists (z + 1). split; [| lia].
      unfold retries_at, file_retries in Hz. rewrite Hf, Hb in Hz.
      rewrite (py_add1_retries d z Hz) in Hadd. injection Hadd as <-.
      unfold file_retries. cbn. by simplify_map_eq.
  - by apply kept_unchanged.
  - destruct Hres as [Hu | [Hwhy Hd]]; [by apply kept_unchanged |].
    split; [done |]. split; [by apply (exclusive_dropped (InProgress, fn)) |].
    intros _ Hready. destruct Hwhy as [Hn | Hn].
    + by apply (keeps_dropped (InProgress, fn)).
    + rewrite (Hready Todo eq_refl) in Hn. done.
Qed.

Lemma recover_loop_kept r active files : forall count w,
  calm w ->
  wp (TaskRecovery.recover_loop py r active files count)
     (fun res w' => returns res /\ kept w w') w.
Proof.
  induction files as [| fn rest IH]; intros count w Hc.
  - apply wp_ret. split; [done | by apply kept_refl].
  - cbn [TaskRecovery.recover_loop].
    apply wp_bind, wp_try, wp_bind.
    eapply wp_mono; [by apply recover_entry_kept |].
    intros res w1 Hk. pose proof Hk as [[Hc1 _] _].
    assert (Hnext : forall n,
              wp (TaskRecovery.recover_loop py r active rest n)
                 (fun res w' => returns res /\ kept w w') w1).
    { intros n. eapply wp_mono; [by apply IH |].
      intros res' w2 [Hr Hk2]. split; [done |].
      by apply (kept_trans w w1 w2). }
    destruct res as [b | e]; wp_beta.
    + apply wp_ret. wp_beta. apply Hnext.
    + apply wp_ret. wp_beta. apply Hnext.
Qed.

Lemma get_active_sessions_calm r w :
  calm w ->
  exists active, TaskRecovery._get_active_sessions py r w = (Ok active, tick w).
Proof.
  intros Hc. unfold TaskRecovery._get_active_sessions.
  assert (Hct : calm (tick w)) by done.
  rewrite (bind_ok _ _ _ _ _ (datetime_now_tick w)).
  rewrite (bind_ok _ _ _ _ _ (dir_exists_calm Status (tick w) Hct)).
  unfold has_dir. change (fs (tick w) Status) with (fs w Status).
  destruct (fs w Status) as [d |] eqn:Hd; cbn [negb]; [| by exists ∅].
  unfold try_except, bind. rewrite os_listdir_calm by done.
  change (fs (tick w) Status) with (fs w Status). rewrite Hd.
  destruct (heartbeat_loop_calm py r (now w) (names d) ∅ (tick w) Hct)
    as (active & Heq & _).
  rewrite Heq. by exists active.
Qed.

(** [recover_stale_tasks] in a calm world keeps the queue's invariants. *)
Lemma recover_stale_tasks_kept r sid host w :
  calm w ->
  wp (TaskRecovery.recover_stale_tasks py r sid host)
     (fun res w' => returns res /\ kept w w') w.
Proof.
  intros Hc. unfold TaskRecovery.recover_stale_tasks.
  destruct (get_active_sessions_calm r w Hc) as [active Ha].
  apply wp_bind. eapply wp_eq; [exact Ha |]. wp_beta.
  assert (Hk1 : kept w (mk_locks (tick w))).
  { apply kept_unchanged.
    - split; [calm_tac |]. intros x Hx. autorewrite with world.
      by rewrite Hx.
    - intros q _. by rewrite lookup_file_mk_locks. }
  apply wp_try, wp_bind, wp_acquire_lock; [calm_tac |]. wp_beta.
  apply wp_bind, wp_dir_exists; [calm_tac |]. wp_beta.
  destruct (has_dir (mk_locks (tick w)) InProgress); cbn [negb];
    [| apply wp_ret; by split].
  apply wp_bind, wp_get_yaml_files; [calm_tac |]. wp_beta.
  eapply wp_mono; [apply recover_loop_kept; calm_tac |].
  intros [n | e] w' [Hr Hk]; [| done]. split; [done |].
  by apply (kept_trans w (mk_locks (tick w)) w').
Qed.

Lemma get_task_priority_calm filename w :
  calm w ->
  wp (TaskScheduler._get_task_priority globals filename)
     (fun res w' => returns res /\ w' = w) w.
Proof.
  intros Hc. unfold TaskScheduler._get_task_priority.
  apply wp_try, wp_bind, wp_open_read; [done |].
  destruct (lookup_file (Todo, filename) w) as [f |]; wp_beta;
    [| by apply wp_ret].
  apply wp_bind. unfold TaskScheduler.global_name.
  destruct (existsb (String.eqb "yaml") globals);
    [apply wp_ret; wp_beta | apply wp_raise; wp_beta; by apply wp_ret].
  apply wp_bind. unfold yaml_safe_load.
  destruct (body f) as [| y];
    [apply wp_raise; wp_beta; by apply wp_ret | apply wp_ret; wp_beta].
  apply wp_lift. destruct (py_get y "priority" (PInt 0)); [done |].
  by apply wp_ret.
Qed.

Lemma priority_keys_calm tasks w :
  calm w ->
  wp (TaskScheduler.priority_keys globals tasks)
     (fun res w' => returns res /\ w' = w) w.
Proof.
  intros Hc. induction tasks as [| f rest IH].
  - by apply wp_ret.
  - cbn [TaskScheduler.priority_keys]. apply wp_bind.
    eapply wp_mono; [by apply get_task_priority_calm |].
    intros [k | e] w' [Hr ->]; [| done].
    apply wp_bind. eapply wp_mono; [exact IH |].
    intros [ks | e] w' [Hr' ->]; [| done]. by apply wp_ret.
Qed.

Lemma from_file_calm p w :
  calm w ->
  from_file p w =
  (match lookup_file p w with
   | Some f => match body f with
               | Doc y => Ok {| filename := snd p; data := y; path := p |}
               | Garbled => Raise RuntimeError
               end
   | None => Raise RuntimeError
   end, w).
Proof.
  intros Hc. unfold from_file, try_except, bind.
  rewrite read_yaml_calm by done.
  destruct (lookup_file p w) as [f |]; [| done]. by destruct (body f).
Qed.

(** The selection step of [get_next_task] reads: all it leaves behind is
    the directory of locks. *)
Lemma selection_calm w :
  calm w ->
  wp (try_except
        (acquire_lock "todo_lock" 5 5 ;;;
         tasks <- get_yaml_files Todo ;;
         match tasks with
         | [] => ret None
         | _ :: _ =>
           keyed <- TaskScheduler.priority_keys globals tasks ;;
           sorted <- TaskScheduler.sort_by_key keyed ;;
           match sorted with
           | task_file :: _ =>
             task <- from_file (Todo, task_file) ;;
             ret (Some task)
           | [] => raise IndexError
           end
         end)
        (fun _ => ret None))
     (fun res w' => returns res /\ w' = mk_locks w) w.
Proof.
  intros Hc.
  apply wp_try, wp_bind, wp_acquire_lock; [done |]. wp_beta.
  apply wp_bind, wp_get_yaml_files; [calm_tac |]. wp_beta.
  destruct (match fs (mk_locks w) Todo with
            | Some d => List.filter visible (names d)
            | None => []
            end) as [| t0 ts]; [by apply wp_ret |].
  apply wp_bind. eapply wp_mono; [apply priority_keys_calm; calm_tac |].
  intros [keyed | e] w' [Hr ->]; [| done].
  apply wp_bind. unfold TaskScheduler.sort_by_key.
  assert (Hsorted : forall sorted : list string,
            wp (ret sorted)
               (fun r w'0 =>
                  match r with
                  | Ok a =>
                    wp match a with
                       | [] => raise IndexError
                       | task_file :: _ =>
                         task <- from_file (Todo, task_file) ;; ret (Some task)
                       end
                       (fun r0 w'1 =>
                          match r0 with
                          | Ok a0 => returns (Ok a0) /\ w'1 = mk_locks w
                          | Raise e =>
                            wp (ret None)
                              (fun (res : result (option Task)) w'2 =>
                                 returns res /\ w'2 = mk_locks w) w'1
                          end) w'0
                  | Raise e =>
                    wp (ret None)
                      (fun (res : result (option Task)) w'1 =>
                         returns res /\ w'1 = mk_locks w) w'0
                  end) (mk_locks w)).
  { intros sorted. apply wp_ret. wp_beta.
    destruct sorted as [| task_file rest]; [by apply wp_raise, wp_ret |].
    apply wp_bind. eapply wp_eq; [apply from_file_calm; calm_tac |].
    destruct (lookup_file (Todo, task_file) (mk_locks w)) as [f |];
      [| by apply wp_ret].
    destruct (body f); [by apply wp_ret |]. wp_beta. by apply wp_ret. }
  destruct keyed as [| k1 [| k2 ks]]; [apply Hsorted | apply Hsorted |].
  destruct (TaskScheduler.numeric_keys (k1 :: k2 :: ks));
    [apply Hsorted | by apply wp_raise, wp_ret].
Qed.

(** [get_next_task] in a calm world keeps the queue's invariants. *)
Lemma get_next_task_kept s check_stale w :
  calm w ->
  wp (TaskScheduler.get_next_task py globals s check_stale)
     (fun res w' => returns res /\ kept w w') w.
Proof.
  intros Hc. unfold TaskScheduler.get_next_task.
  destruct (TaskScheduler._shutdown s);
    [apply wp_ret; split; [done | by apply kept_refl] |].
  apply wp_bind. eapply wp_mono; [by apply cleanup_temp_files_pruned |].
  intros [[] | e] w1 [Hr Hp]; [| done].
  destruct (pruned_unchanged Todo w w1 Hp) as [Hs1 Hu1].
  pose proof (kept_unchanged w w1 Hs1 Hu1) as Hk1.
  pose proof Hs1 as [Hc1 _].
  assert (Hsel : forall w2,
            calm w2 -> kept w w2 ->
            wp (try_except
                  (acquire_lock "todo_lock" 5 5 ;;;
                   tasks <- get_yaml_files Todo ;;
                   match tasks with
                   | [] => ret None
                   | _ :: _ =>
                     keyed <- TaskScheduler.priority_keys globals tasks ;;
                     sorted <- TaskScheduler.sort_by_key keyed ;;
                     match sorted with
                     | task_file :: _ =>
                       task <- from_file (Todo, task_file) ;;
                       ret (Some task)
                     | [] => raise IndexError
                     end
                   end)
                  (fun _ => ret None))
               (fun res w' => returns res /\ kept w w') w2).
  { intros w2 Hc2 Hk2. eapply wp_mono; [by apply selection_calm |].
    intros res w' [Hres ->]. split; [done |].
    apply (kept_trans w w2 (mk_locks w2)); [done |].
    destruct (steady_mk_locks w2 Hc2). by apply kept_unchanged. }
  apply wp_bind. destruct check_stale.
  - apply wp_bind. eapply wp_mono; [by apply recover_stale_tasks_kept |].
    intros [n | e] w2 [Hr2 Hk2]; [| done]. apply wp_ret. wp_beta.
    pose proof Hk2 as [[Hc2 _] _].
    apply Hsel; [done | by apply (kept_trans w w1 w2)].
  - apply wp_ret. wp_beta. by apply Hsel.
Qed.

End MoreOutcomes.

(** * Further properties of the code *)

(** ** utils/file_ops.py *)

(** X2. Between names an entry can bear (not empty, without separator and
    without NUL byte) [safe_rename] never raises, whatever the environment
    fails. In a calm world it moves the file when the source exists and
    the directory of the destination exists (the destination then holds
    the file of the source, the source is gone, every other file is as
    before), and it changes no file otherwise. *)
Theorem safe_rename_contained_and_moves src dst :
  (entry_name (snd src) = true -> entry_name (snd dst) = true ->
   forall w, returns (fst (safe_rename src dst w))) /\
  (forall w, calm w ->
     forall q,
       lookup_file q (snd (safe_rename src dst w)) =
       match lookup_file src w with
       | Some f =>
         if has_dir w (fst dst)
         then if decide (q = dst) then Some f
              else if decide (q = src) then None else lookup_file q w
         else lookup_file q w
       | None => lookup_file q w
       end).
Proof.
  split; [intros _ _; apply no_raise_safe_rename |].
  intros w Hc q. rewrite safe_rename_calm by done. cbn [snd].
  apply lookup_file_rename_to.
Qed.

Lemma safe_rename_contained_and_moves_witness :
  returns (fst (safe_rename (Todo, "task_A.yaml") (InProgress, "task_A.yaml")
                  (with_faults [true; true; true; true] one_task_world))) /\
  lookup_file (InProgress, "task_A.yaml")
    (snd (safe_rename (Todo, "task_A.yaml") (InProgress, "task_A.yaml")
            one_task_world))
  = lookup_file (Todo, "task_A.yaml") one_task_world.
Proof.
  destruct (safe_rename_contained_and_moves (Todo, "task_A.yaml")
              (InProgress, "task_A.yaml")) as [Hr H].
  split; [by apply Hr |].
  rewrite (H one_task_world eq_refl (InProgress, "task_A.yaml")).
  reflexivity.
Defined.

(** X3. Writing and reading back. In a calm world whose directory is
    there, [atomic_write_yaml p data] returns, [atomic_read_yaml p] then
    gives [data] back, the temporary file is gone and no other file
    changed. When the directory is missing it raises and changes nothing. *)
Theorem atomic_write_then_read p data w :
  calm w ->
  if has_dir w (fst p)
  then
    fst (atomic_write_yaml p data w) = Ok () /\
    fst (atomic_read_yaml p (snd (atomic_write_yaml p data w))) = Ok data /\
    lookup_file (dot_tmp p) (snd (atomic_write_yaml p data w)) = None /\
    (forall q, q <> p -> q <> dot_tmp p ->
       lookup_file q (snd (atomic_write_yaml p data w)) = lookup_file q w)
  else atomic_write_yaml p data w = (Raise FileNotFoundError, w).
Proof.
  intros Hc. rewrite atomic_write_yaml_calm by done.
  destruct (has_dir w (fst p)) eqn:Hd; [| done]. cbn [fst snd].
  split; [done |]. split; [| split].
  - unfold atomic_read_yaml. rewrite read_yaml_calm by calm_tac.
    rewrite lookup_file_publish by done. by rewrite decide_True.
  - rewrite lookup_file_publish by done.
    destruct (decide (dot_tmp p = p)) as [E | N].
    + exfalso. destruct p as [d n]. unfold dot_tmp in E. cbn in E.
      inversion E as [Hn]. pose proof (f_equal String.length Hn) as Hl.
      rewrite length_append in Hl. cbn in Hl. lia.
    + by rewrite decide_True.
  - intros q Hq1 Hq2. rewrite lookup_file_publish by done.
    by rewrite !decide_False.
Qed.

Lemma atomic_write_then_read_witness :
  fst (atomic_write_yaml (Todo, "task_B.yaml") (YOther (PStr "payload"))
         one_task_world) = Ok () /\
  fst (atomic_read_yaml (Todo, "task_B.yaml")
         (snd (atomic_write_yaml (Todo, "task_B.yaml") (YOther (PStr "payload"))
                 one_task_world))) = Ok (YOther (PStr "payload")) /\
  lookup_file (dot_tmp (Todo, "task_B.yaml"))
    (snd (atomic_write_yaml (Todo, "task_B.yaml") (YOther (PStr "payload"))
            one_task_world)) = None /\
  (forall q, q <> (Todo, "task_B.yaml") -> q <> dot_tmp (Todo, "task_B.yaml") ->
     lookup_file q
       (snd (atomic_write_yaml (Todo, "task_B.yaml") (YOther (PStr "payload"))
               one_task_world))
     = lookup_file q one_task_world).
Proof.
  exact (atomic_write_then_read (Todo, "task_B.yaml") (YOther (PStr "payload"))
           one_task_world eq_refl).
Defined.

Lemma In_filter_visible n l :
  In n (List.filter visible l) <-> In n l /\ visible n = true.
Proof. apply filter_In. Qed.

(** X4. In a calm world [get_yaml_files] returns, leaves the world as it
    is, and lists exactly the entries of the directory whose name ends in
    .yaml and does not begin with a dot: never a marker of a file in
    flight, never a temporary file. A missing directory lists nothing. *)
Theorem get_yaml_files_lists_visible dn w :
  calm w ->
  exists l,
    get_yaml_files dn w = (Ok l, w) /\
    (forall n, In n l <->
       is_Some (lookup_file (dn, n) w) /\
       endswith ".yaml" n = true /\ startswith "." n = false) /\
    (forall n s, ~ In (marker n s) l) /\
    (forall n, ~ In (n +:+ ".tmp") l) /\
    (has_dir w dn = false -> l = []).
Proof.
  intros Hc. rewrite get_yaml_files_calm by done.
  eexists. split; [reflexivity |].
  assert (Hin : forall n,
            In n (match fs w dn with
                  | Some d => List.filter visible (names d)
                  | None => []
                  end) <->
            is_Some (lookup_file (dn, n) w) /\ visible n = true).
  { intros n. unfold lookup_file. cbn [fst snd].
    destruct (fs w dn) as [d |].
    - rewrite In_filter_visible. by rewrite lookup_entry_names.
    - split; [done | by intros [[? ?] _]]. }
  split; [| split; [| split]].
  - intros n. rewrite Hin. unfold visible. rewrite andb_true_iff.
    by rewrite negb_true_iff.
  - intros n s [_ Hv]%Hin. by rewrite visible_marker in Hv.
  - intros n [_ Hv]%Hin. by rewrite visible_dot_tmp in Hv.
  - unfold has_dir. by destruct (fs w dn).
Qed.

Lemma get_yaml_files_lists_visible_witness :
  exists l,
    get_yaml_files Todo one_task_world = (Ok l, one_task_world) /\
    (forall n, In n l <->
       is_Some (lookup_file (Todo, n) one_task_world) /\
       endswith ".yaml" n = true /\ startswith "." n = false) /\
    (forall n s, ~ In (marker n s) l) /\
    (forall n, ~ In (n +:+ ".tmp") l) /\
    (has_dir one_task_world Todo = false -> l = []).
Proof. exact (get_yaml_files_lists_visible Todo one_task_world eq_refl). Defined.

(** X5. In a calm world [cleanup_temp_files] returns, and all it does to
    the files is to remove hidden files of that directory whose name has
    one of the transient suffixes: every other file, and so every visible
    task file, is as before, and no file appears. *)
Theorem cleanup_temp_files_spares_tasks dn secs w :
  calm w ->
  returns (fst (cleanup_temp_files dn secs w)) /\
  pruned dn w (snd (cleanup_temp_files dn secs w)).
Proof. intros Hc. by apply (cleanup_temp_files_pruned dn secs w). Qed.

Lemma cleanup_temp_files_spares_tasks_witness :
  returns (fst (cleanup_temp_files Todo 3600 (at_time 7200000000 one_task_world)))
  /\ pruned Todo (at_time 7200000000 one_task_world)
       (snd (cleanup_temp_files Todo 3600 (at_time 7200000000 one_task_world))).
Proof.
  exact (cleanup_temp_files_spares_tasks Todo 3600
           (at_time 7200000000 one_task_world) eq_refl).
Defined.

(** X6. [try_remove] never raises. In a calm world the file is gone
    afterwards and every other file is as before. *)
Theorem try_remove_removes p :
  (forall w, returns (fst (try_remove p w))) /\
  (forall w, calm w ->
     lookup_file p (snd (try_remove p w)) = None /\
     forall q, q <> p -> lookup_file q (snd (try_remove p w)) = lookup_file q w).
Proof.
  split; [apply no_raise_try_remove |].
  intros w Hc. rewrite try_remove_calm by done. cbn [snd]. split.
  - rewrite lookup_file_remove_if_present. by rewrite decide_True.
  - intros q Hq. rewrite lookup_file_remove_if_present.
    by rewrite decide_False.
Qed.

Lemma try_remove_removes_witness :
  lookup_file (Todo, "task_A.yaml")
    (snd (try_remove (Todo, "task_A.yaml") one_task_world)) = None.
Proof.
  destruct (try_remove_removes (Todo, "task_A.yaml")) as [_ H].
  exact (proj1 (H one_task_world eq_refl)).
Defined.

(** X7. Touching and freshness. In a calm world whose directory is there,
    [touch_file p] returns and leaves a file at [p] (created empty when it
    was missing, its content kept otherwise) stamped with the instant of
    the touch. [file_is_fresh] on it then answers True exactly when the
    clock it reads has moved by no more than the maximal age since the
    touch: with a maximal age of 0, only when the clock has not moved at
    all. On a missing file [file_is_fresh] answers False. *)
Theorem touch_file_then_fresh p max_age w :
  calm w ->
  has_dir w (fst p) = true ->
  fst (touch_file p w) = Ok () /\
  (exists f, lookup_file p (snd (touch_file p w)) = Some f /\
             mtime f = now w /\
             body f = match lookup_file p w with
                      | Some f0 => body f0
                      | None => Doc (YOther PNone)
                      end) /\
  fst (file_is_fresh p max_age (snd (touch_file p w)))
  = Ok (now (snd (touch_file p w)) - now w <=? max_age * 1000000) /\
  (lookup_file p w = None -> fst (file_is_fresh p max_age w) = Ok false).
Proof.
  intros Hc Hd.
  assert (Htouch : exists f,
            touch_file p w = (Ok (), write_entry p f (tick (
              match lookup_file p w with
              | Some _ => w
              | None => write_entry p {| body := Doc (YOther PNone);
                                         mtime := now w |} w
              end))) /\
            mtime f = now w /\
            body f = match lookup_file p w with
                     | Some f0 => body f0
                     | None => Doc (YOther PNone)
                     end).
  { unfold touch_file, bind at 1, open_append, os_utime.
    rewrite !syscall_calm by done. unfold has_dir in Hd.
    destruct (fs w (fst p)) as [d |] eqn:Hfs; [| done].
    destruct (lookup_file p w) as [f0 |] eqn:Hf.
    - rewrite syscall_calm by done.
      rewrite (bind_ok _ _ _ _ _ (datetime_now_tick w)).
      rewrite lookup_file_tick, Hf. by eexists.
    - rewrite syscall_calm by (unfold calm; by rewrite faults_write_entry).
      rewrite (bind_ok _ _ _ _ _ (datetime_now_tick _)).
      rewrite lookup_file_tick.
      rewrite lookup_file_write_entry by (unfold has_dir; by rewrite Hfs).
      rewrite decide_True by done. rewrite now_write_entry.
      by eexists. }
  destruct Htouch as (f & Heq & Hm & Hb). rewrite Heq. cbn [fst snd].
  set (w0 := match lookup_file p w with Some _ => w | None => _ end).
  assert (Hd0 : has_dir (tick w0) (fst p) = true).
  { rewrite has_dir_tick. subst w0. destruct (lookup_file p w); [done |].
    by rewrite has_dir_write_entry. }
  assert (Hc0 : calm (tick w0)).
  { unfold calm. rewrite faults_tick. subst w0.
    destruct (lookup_file p w); [done |]. by rewrite faults_write_entry. }
  split; [done |]. split; [| split].
  - exists f. rewrite lookup_file_write_entry by done.
    by rewrite decide_True.
  - unfold file_is_fresh, try_except, bind.
    rewrite os_path_getmtime_calm
      by (unfold calm; by rewrite faults_write_entry).
    rewrite lookup_file_write_entry by done. rewrite decide_True by done.
    cbn. by rewrite Hm.
  - intros Hnone. unfold file_is_fresh, try_except, bind.
    rewrite os_path_getmtime_calm by done. by rewrite Hnone.
Qed.

Lemma touch_file_then_fresh_witness :
  fst (file_is_fresh (Status, "S1.heartbeat") 1
         (snd (touch_file (Status, "S1.heartbeat") slow_clock_world)))
  = Ok false /\
  fst (file_is_fresh (Status, "S1.heartbeat") 2
         (snd (touch_file (Status, "S1.heartbeat") slow_clock_world)))
  = Ok true.
Proof.
  split.
  - rewrite (proj1 (proj2 (proj2
      (touch_file_then_fresh (Status, "S1.heartbeat") 1 slow_clock_world
         eq_refl eq_refl)))).
    reflexivity.
  - rewrite (proj1 (proj2 (proj2
      (touch_file_then_fresh (Status, "S1.heartbeat") 2 slow_clock_world
         eq_refl eq_refl)))).
    reflexivity.
Defined.

(** ** utils/locking.py *)

Lemma acquire_attempts_verdict n : forall w,
  fst (acquire_attempts n w) =
  if all_time_out n (faults w) then Raise LockAcquisitionError else Ok ().
Proof.
  induction n as [| n IH]; intros w; [done |].
  cbn [acquire_attempts all_time_out].
  unfold try_except_of, filelock_acquire, bind, sys_fault.
  destruct (faults w) as [| [] l] eqn:Hf; cbn; [done | | done].
  destruct n as [| n']; [done |].
  rewrite IH. cbn [faults]. done.
Qed.

(** X8. The outcome of [acquire_lock] is decided by the environment
    alone: it raises OSError when the directory of locks cannot be made,
    LockAcquisitionError when each of the [max_retries] attempts times out
    (so always when [max_retries] is 0), and returns otherwise. A timeout
    of one attempt never escapes as such. *)
Theorem acquire_lock_verdict name timeout max_retries w :
  fst (acquire_lock name timeout max_retries w) =
  match faults w with
  | true :: _ => Raise OSError
  | false :: l =>
    if all_time_out max_retries l then Raise LockAcquisitionError else Ok ()
  | [] =>
    if all_time_out max_retries [] then Raise LockAcquisitionError else Ok ()
  end.
Proof.
  unfold acquire_lock, bind, os_makedirs, syscall, bind, sys_fault.
  destruct (faults w) as [| [] l] eqn:Hf; [| done |].
  - destruct (fs w Locks); rewrite acquire_attempts_verdict;
      unfold set_dir; cbn [faults]; by rewrite Hf.
  - cbn [fs]. destruct (fs w Locks); by rewrite acquire_attempts_verdict.
Qed.

(** ** utils/process_utils.py *)

(** X9. [is_process_running] never raises and leaves the world as it is.
    It answers True exactly when the hostname is absent, empty or the local
    one, [int(pid)] succeeds with a positive number, and that process has
    an entry under /proc or accepts the zero signal. For a remote host, an
    invalid pid, a pid that is not positive, a process that is gone or one
    that may not be signalled, it answers False. *)
Theorem is_process_running_true_iff py pid hostname w :
  exists b,
    is_process_running py pid hostname w = (Ok b, w) /\
    (b = true <-> local_to w hostname /\ probe_alive py pid w).
Proof.
  unfold is_process_running, bind, gethostname, try_except, lift, ret,
    proc_exists, os_kill0, probe_alive, local_to.
  destruct (truthy hostname) eqn:Ht; cbn [andb].
  - destruct (differs_from_host hostname (local_host w)) eqn:Hdiff.
    + exists false. split; [done |]. split; [done |].
      intros [[? | ->] _]; [done |].
      cbn in Hdiff. by rewrite String.eqb_refl in Hdiff.
    + assert (Hloc : hostname = PStr (local_host w)).
      { destruct hostname; try done. cbn in Hdiff.
        apply negb_false_iff, String.eqb_eq in Hdiff. by subst. }
      destruct (py_int py pid) as [z | e] eqn:Hz.
      * destruct (Z.leb_spec z 0).
        { exists false. split; [done |]. split; [done |].
          intros (_ & z' & [= <-] & ? & _). lia. }
        destruct (proc_entry w z) eqn:Hp.
        { exists true. split; [done |]. split; [| done].
          intros _. split; [by right |]. exists z. by repeat split; [| left]. }
        destruct (kill0 w z) eqn:Hk.
        { exists true. split; [done |]. split; [| done].
          intros _. split; [by right |]. exists z. by repeat split; [| right]. }
        all: exists false; split; [done |]; split; [done |];
          intros (_ & z' & [= <-] & _ & [? | ?]); congruence.
      * exists false. split; [done |]. split; [done |].
        by intros (_ & z' & ? & _).
  - destruct (py_int py pid) as [z | e] eqn:Hz.
    + destruct (Z.leb_spec z 0).
      { exists false. split; [done |]. split; [done |].
        intros (_ & z' & [= <-] & ? & _). lia. }
      destruct (proc_entry w z) eqn:Hp.
      { exists true. split; [done |]. split; [| done].
        intros _. split; [by left |]. exists z. by repeat split; [| left]. }
      destruct (kill0 w z) eqn:Hk.
      { exists true. split; [done |]. split; [| done].
        intros _. split; [by left |]. exists z. by repeat split; [| right]. }
      all: exists false; split; [done |]; split; [done |];
        intros (_ & z' & [= <-] & _ & [? | ?]); congruence.
    + exists false. split; [done |]. split; [done |].
      by intros (_ & z' & ? & _).
Qed.

(** ** models/task.py *)

(** X10. [Task.from_file] raises nothing but RuntimeError, in any world;
    the task it returns has the entry name as filename and the path it
    was loaded from. In a calm world it returns exactly when the file is
    there and parses, with the parsed document as data. *)
Theorem from_file_loads_or_wraps p :
  (forall w,
     match fst (from_file p w) with
     | Ok t => filename t = snd p /\ path t = p
     | Raise e => e = RuntimeError
     end) /\
  (forall w, calm w ->
     from_file p w =
     (match lookup_file p w with
      | Some f => match body f with
                  | Doc y => Ok {| filename := snd p; data := y; path := p |}
                  | Garbled => Raise RuntimeError
                  end
      | None => Raise RuntimeError
      end, w)).
Proof.
  split; [| intros w Hc; by apply from_file_calm].
  intros w. unfold from_file, try_except, bind.
  destruct (read_yaml p w) as [[y | e] w']; done.
Qed.

Lemma from_file_loads_or_wraps_witness :
  fst (from_file (Todo, "task_A.yaml") one_task_world) = Ok task_A.
Proof.
  rewrite (proj2 (from_file_loads_or_wraps (Todo, "task_A.yaml"))
             one_task_world eq_refl).
  reflexivity.
Defined.

(** X11. Stamping makes the owner. On a task whose record is a mapping,
    [mark_started] returns a task with the same filename and path whose
    record holds the given process id, host and session id and the
    present instant as [started_at], keeps every other key, and
    [is_owned_by] then answers True for that process and session. On a
    record that is no mapping it raises TypeError. *)
Theorem mark_started_makes_owner py t process_id hostname session_id w :
  match data t with
  | YMap d =>
    exists d',
      mark_started py t process_id hostname session_id w
      = (Ok {| filename := filename t; data := YMap d'; path := path t |},
         tick w) /\
      d' !! "started_at" = Some (PStr (isoformat py (now w))) /\
      d' !! "process_id" = Some (PInt process_id) /\
      d' !! "host" = Some (PStr hostname) /\
      d' !! "session_id" = Some (PStr session_id) /\
      (forall k, k <> "started_at" -> k <> "process_id" -> k <> "host" ->
                 k <> "session_id" -> d' !! k = d !! k) /\
      is_owned_by {| filename := filename t; data := YMap d'; path := path t |}
        process_id session_id = Ok true
  | YOther _ =>
    mark_started py t process_id hostname session_id w
    = (Raise TypeError, tick w)
  end.
Proof.
  destruct (data t) as [d | v] eqn:Hd.
  - rewrite (mark_started_ok py t d) by done. eexists. split; [reflexivity |].
    repeat split; try by simplify_map_eq.
    + intros k ? ? ? ?. by simplify_map_eq.
    + unfold is_owned_by. cbn. simplify_map_eq. unfold py_eq_int. cbn.
      rewrite Z.eqb_refl. simplify_map_eq. cbn. by rewrite String.eqb_refl.
  - by apply (mark_started_not_a_mapping py t v).
Qed.

(** X12. [mark_failed] counts a failure. On a record that is a mapping
    with an integer [retries] the task it returns holds that integer plus
    one, and 1 when the record had no [retries]; it records the reason
    and the instant and keeps every other key. When [retries] holds a
    string it raises TypeError. *)
Theorem mark_failed_counts py t d reason w :
  data t = YMap d ->
  match d !! "retries" with
  | None | Some (PInt _) =>
    exists d',
      mark_failed py t reason w
      = (Ok {| filename := filename t; data := YMap d'; path := path t |},
         tick w) /\
      d' !! "retries"
      = Some (PInt (match d !! "retries" with
                    | Some (PInt z) => z + 1
                    | _ => 1
                    end)) /\
      d' !! "failure_reason" = Some (PStr reason) /\
      d' !! "last_failed" = Some (PStr (isoformat py (now w))) /\
      (forall k, k <> "retries" -> k <> "failure_reason" ->
                 k <> "last_failed" -> d' !! k = d !! k)
  | Some (PStr _) => mark_failed py t reason w = (Raise TypeError, w)
  | Some _ => True
  end.
Proof.
  intros Hd.
  unfold mark_failed, bind, lift, set_data, py_get, py_setitem, ret,
    datetime_now. rewrite Hd.
  destruct (d !! "retries") as [[] |] eqn:Hr; try done; cbn.
  - eexists. split; [reflexivity |].
    repeat split; try by simplify_map_eq.
    intros k ? ? ?. by simplify_map_eq.
  - eexists. split; [reflexivity |].
    repeat split; try by simplify_map_eq.
    intros k ? ? ?. by simplify_map_eq.
Qed.

Lemma mark_failed_counts_witness :
  exists d',
    mark_failed decimal_runtime task_A "worker died" fresh_world
    = (Ok {| filename := "task_A.yaml"; data := YMap d';
             path := (Todo, "task_A.yaml") |}, tick fresh_world) /\
    d' !! "retries" = Some (PInt 1) /\
    d' !! "failure_reason" = Some (PStr "worker died") /\
    d' !! "last_failed" = Some (PStr (isoformat decimal_runtime 0)) /\
    (forall k, k <> "retries" -> k <> "failure_reason" ->
               k <> "last_failed" ->
               d' !! k
               = (list_to_map [("priority", PInt 5); ("retries", PInt 0)]
                  : gmap string pyval) !! k).
Proof.
  exact (mark_failed_counts decimal_runtime task_A
           (list_to_map [("priority", PInt 5); ("retries", PInt 0)])
           "worker died" fresh_world eq_refl).
Defined.

Lemma save_calm t directory suffix w :
  calm w -> has_dir w directory = true ->
  let target :=
    (directory,
     if String.eqb suffix "" then filename t
     else fst (splitext (filename t)) +:+ suffix +:+ ".yaml") in
  save t directory suffix w =
  (Ok {| filename := filename t; data := data t; path := target |},
   publish target (data t) w).
Proof.
  intros Hc Hd target. unfold save.
  assert ((directory,
           if negb (String.eqb suffix "")
           then fst (splitext (filename t)) +:+ suffix +:+ ".yaml"
           else filename t) = target) as ->.
  { unfold target. by destruct (String.eqb suffix ""). }
  unfold try_except, bind. rewrite open_write_calm by done.
  cbn [fst dot_tmp]. change (fst target) with directory. rewrite Hd.
  unfold os_replace. rewrite syscall_calm by calm_tac.
  rewrite move_file_result.
  rewrite lookup_file_write_entry by done.
  rewrite decide_True by done. rewrite has_dir_write_entry.
  change (fst target) with directory. rewrite Hd. done.
Qed.



(** ** task_manager.py *)

Lemma endswith_append suf a : endswith suf (a +:+ suf) = true.
Proof.
  induction a as [| c a IH].
  - change ("" +:+ suf) with suf.
    destruct suf; cbn [endswith]; by rewrite String.eqb_refl.
  - change (String c a +:+ suf) with (String c (a +:+ suf)).
    cbn [endswith]. rewrite IH. by rewrite orb_true_r.
Qed.

Lemma task_name_yaml py task_id w : endswith ".yaml" (task_name py task_id w) = true.
Proof.
  unfold task_name.
  match goal with |- context [if endswith ".yaml" ?i then _ else _] =>
    destruct (endswith ".yaml" i) eqn:E end; [done | apply endswith_append].
Qed.

Lemma lookup_file_no_dir q w : has_dir w (fst q) = false -> lookup_file q w = None.
Proof. unfold lookup_file, has_dir. by destruct (fs w (fst q)). Qed.

(** X14. The filename [create_task] settles on ends in .yaml. When it is a
    name an entry can bear (the id holds no separator and no NUL byte),
    in a calm world with todo/, it returns that filename, and the file of
    todo/ under
    it holds the caller's record with [retries] 0 and the creator's
    [session_id], [created_by] and [created_at] written over whatever the
    caller gave under these keys; no other visible file changes. Without
    todo/ it returns None and changes no file outside .locks/. *)
Theorem create_task_publishes py m task_data task_id w :
  calm w ->
  entry_name (task_name py task_id w) = true ->
  let name := task_name py task_id w in
  let r := TaskManager.create_task py m task_data task_id w in
  endswith ".yaml" name = true /\
  if has_dir w Todo then
    fst r = Ok (Some name) /\
    (exists d mt,
       lookup_file (Todo, name) (snd r)
       = Some {| body := Doc (YMap d); mtime := mt |} /\
       d !! "retries" = Some (PInt 0) /\
       d !! "session_id" = Some (PStr (TaskManager.session_id m)) /\
       d !! "created_by" = Some (PInt (TaskManager.process_id m)) /\
       (exists n, d !! "created_at" = Some (PStr (isoformat py n))) /\
       (forall k, k <> "retries" -> k <> "session_id" -> k <> "created_by" ->
                  k <> "created_at" -> d !! k = task_data !! k)) /\
    (forall q, visible (snd q) = true -> q <> (Todo, name) ->
               lookup_file q (snd r) = lookup_file q w)
  else
    fst r = Ok None /\
    forall q, fst q <> Locks -> lookup_file q (snd r) = lookup_file q w.
Proof.
  intros Hc _ name r. split; [apply task_name_yaml |].
  set (Post := fun (res : result (option string)) (w' : world) =>
    if has_dir w Todo then
      res = Ok (Some name) /\
      (exists d mt,
         lookup_file (Todo, name) w'
         = Some {| body := Doc (YMap d); mtime := mt |} /\
         d !! "retries" = Some (PInt 0) /\
         d !! "session_id" = Some (PStr (TaskManager.session_id m)) /\
         d !! "created_by" = Some (PInt (TaskManager.process_id m)) /\
         (exists n, d !! "created_at" = Some (PStr (isoformat py n))) /\
         (forall k, k <> "retries" -> k <> "session_id" -> k <> "created_by" ->
                    k <> "created_at" -> d !! k = task_data !! k)) /\
      (forall q, visible (snd q) = true -> q <> (Todo, name) ->
                 lookup_file q w' = lookup_file q w)
    else
      res = Ok None /\
      forall q, fst q <> Locks -> lookup_file q w' = lookup_file q w).
  change (wp (TaskManager.create_task py m task_data task_id) Post w).
  unfold TaskManager.create_task.
  assert (Hrest : forall id0 w0,
    calm w0 ->
    (forall q, lookup_file q w0 = lookup_file q w) ->
    (forall x, has_dir w0 x = has_dir w x) ->
    name = (if endswith ".yaml" id0 then id0 else id0 +:+ ".yaml") ->
    wp (n <- datetime_now ;;
        try_except
          (acquire_lock "task_create" 10 3 ;;;
           atomic_write_yaml
             (dot_tmp (Todo, if endswith ".yaml" id0 then id0
                             else id0 +:+ ".yaml"))
             (YMap (<["session_id" := PStr (TaskManager.session_id m)]>
                    (<["retries" := PInt 0]>
                    (<["created_by" := PInt (TaskManager.process_id m)]>
                    (<["created_at" := PStr (isoformat py n)]> task_data))))) ;;;
           os_rename
             (dot_tmp (Todo, if endswith ".yaml" id0 then id0
                             else id0 +:+ ".yaml"))
             (Todo, if endswith ".yaml" id0 then id0 else id0 +:+ ".yaml") ;;;
           ret (Some (if endswith ".yaml" id0 then id0 else id0 +:+ ".yaml")))
          (fun _ =>
             try_remove
               (dot_tmp (Todo, if endswith ".yaml" id0 then id0
                               else id0 +:+ ".yaml")) ;;;
             ret None))
       Post w0).
  { intros id0 w0 Hc0 Hl0 Hh0 Hname. rewrite <- Hname.
    apply wp_bind, wp_datetime_now. wp_beta.
    apply wp_try, wp_bind, wp_acquire_lock; [calm_tac |]. wp_beta.
    set (w1 := mk_locks (tick w0)).
    assert (Hc1 : calm w1) by (subst w1; calm_tac).
    assert (Hl1 : forall q, lookup_file q w1 = lookup_file q w).
    { intros q. subst w1. by rewrite lookup_file_mk_locks, lookup_file_tick. }
    assert (Hh1 : has_dir w1 Todo = has_dir w Todo).
    { subst w1. rewrite has_dir_mk_locks, has_dir_tick, Hh0.
      rewrite bool_decide_eq_false_2 by done. by rewrite orb_false_r. }
    apply wp_bind, wp_atomic_write_yaml; [done |]. cbn [dot_tmp fst snd].
    unfold Post. rewrite Hh1.
    destruct (has_dir w Todo) eqn:Htodo.
    - wp_beta. apply wp_bind, wp_os_rename; [calm_tac |].
      rewrite (lookup_file_publish (Todo, name +:+ ".tmp")) by done.
      rewrite decide_True by done. cbn [fst]. rewrite has_dir_publish, Hh1.
      wp_beta. apply wp_ret. split; [done |]. split.
      + eexists _, _. split.
        * rewrite lookup_file_rename_to.
          rewrite (lookup_file_publish (Todo, name +:+ ".tmp")) by done.
          rewrite decide_True by done. cbn [fst].
          rewrite has_dir_publish, Hh1. rewrite decide_True by done.
          reflexivity.
        * repeat split; try by simplify_map_eq.
          -- eexists. by simplify_map_eq.
          -- intros k ? ? ? ?. by simplify_map_eq.
      + intros q Hv Hq.
        rewrite (lookup_file_installed q (Todo, name)) by done.
        rewrite decide_False by done. apply Hl1.
    - wp_beta. apply wp_bind, wp_try_remove; [done |]. wp_beta.
      apply wp_ret. split; [done |]. intros q _.
      rewrite lookup_file_remove_if_present, Hl1.
      case_decide as Hq; [| done]. subst q. symmetry.
      by apply lookup_file_no_dir. }
  destruct task_id as [i |].
  - apply wp_bind, wp_ret. wp_beta. by apply Hrest.
  - apply wp_bind, wp_bind, wp_datetime_now. wp_beta.
    apply wp_bind. eapply wp_eq; [reflexivity |]. wp_beta.
    apply wp_ret. wp_beta. by apply Hrest.
Qed.

Lemma create_task_publishes_witness :
  fst (TaskManager.create_task decimal_runtime plain_manager
         (list_to_map [("retries", PInt 7)]) (Some "first") fresh_world)
  = Ok (Some "first.yaml").
Proof.
  exact (proj1 (proj2 (create_task_publishes decimal_runtime plain_manager
                         (list_to_map [("retries", PInt 7)]) (Some "first")
                         fresh_world eq_refl eq_refl))).
Defined.

(** ** scheduler.py *)

Lemma lookup_file_sys_fault q w : lookup_file q (snd (sys_fault w)) = lookup_file q w.
Proof. unfold sys_fault. by destruct (faults w). Qed.

Lemma lookup_file_acquire_attempts q n : forall w,
  lookup_file q (snd (acquire_attempts n w)) = lookup_file q w.
Proof.
  induction n as [| n IH]; intros w; [done |].
  cbn [acquire_attempts]. unfold try_except_of, filelock_acquire, bind.
  pose proof (lookup_file_sys_fault q w) as Hs.
  destruct (sys_fault w) as [[b | e] w1] eqn:E; cbn [snd] in Hs.
  - destruct b; cbn; [| done]. destruct n; [done |]. by rewrite IH.
  - unfold sys_fault in E. by destruct (faults w).
Qed.

Lemma lookup_file_acquire_lock q name t n w :
  lookup_file q (snd (acquire_lock name t n w)) = lookup_file q w.
Proof.
  unfold acquire_lock, os_makedirs, syscall, bind.
  pose proof (lookup_file_sys_fault q w) as Hs.
  destruct (sys_fault w) as [[b | e] w1] eqn:E; cbn [snd] in Hs.
  - destruct b; cbn; [done |].
    destruct (fs w1 Locks) eqn:El; rewrite lookup_file_acquire_attempts; [done |].
    rewrite lookup_file_set_dir. case_decide as Hq; [| done].
    rewrite <- Hs. unfold lookup_file. by rewrite Hq, El.
  - unfold sys_fault in E. by destruct (faults w).
Qed.

Lemma lookup_file_open_read q p w :
  lookup_file q (snd (open_read p w)) = lookup_file q w.
Proof.
  unfold open_read, syscall, bind.
  pose proof (lookup_file_sys_fault q w) as Hs.
  destruct (sys_fault w) as [[b | e] w1] eqn:E; cbn [snd] in Hs.
  - destruct b; cbn; [done |]. by destruct (lookup_file p w1).
  - unfold sys_fault in E. by destruct (faults w).
Qed.

(** X15. With the names scheduler.py binds, [report_progress] never
    reports: in every world, for every task, it does not return True and
    leaves every file outside .locks/ as it was, and without I/O failures
    it returns False. The read of the record goes through [yaml], which
    the module does not import; the NameError is caught with the rest. *)
Theorem report_progress_never_reports py s task pct msg w :
  fst (TaskScheduler.report_progress py TaskScheduler.module_names s task pct
         msg w) <> Ok true /\
  (forall q,
     fst q <> Locks ->
     lookup_file q
       (snd (TaskScheduler.report_progress py TaskScheduler.module_names s task
               pct msg w))
     = lookup_file q w) /\
  (calm w ->
   fst (TaskScheduler.report_progress py TaskScheduler.module_names s task pct
          msg w) = Ok false).
Proof.
  assert (H : fst (TaskScheduler.report_progress py TaskScheduler.module_names
                     s task pct msg w) = Ok false /\
              forall q,
                lookup_file q
                  (snd (TaskScheduler.report_progress py
                          TaskScheduler.module_names s task pct msg w))
                = lookup_file q w).
  { unfold TaskScheduler.report_progress.
    destruct task as [task |]; [| done].
    destruct (TaskScheduler._shutdown s); [done |].
    unfold try_except, bind.
    pose proof (fun q => lookup_file_acquire_lock q
                  ("progress_" +:+ filename task) 5 5 w) as Hl.
    destruct (acquire_lock _ 5 5 w) as [[[] | e] w1]; cbn [snd] in Hl; [| done].
    pose proof (fun q => lookup_file_open_read q (path task) w1) as Hr.
    destruct (open_read (path task) w1) as [[c | e] w2]; cbn [snd] in Hr.
    - cbn. split; [done |]. intros q. by rewrite Hr, Hl.
    - cbn. split; [done |]. intros q. by rewrite Hr, Hl. }
  destruct H as [Hres Hfiles]. split; [by rewrite Hres |].
  split; [by intros q _ | done].
Qed.

Lemma report_progress_never_reports_witness :
  fst (TaskScheduler.report_progress decimal_runtime
         TaskScheduler.module_names plain_scheduler (Some early_task)
         (Some (PInt 50)) (Some "half way") early_world) = Ok false /\
  lookup_file (InProgress, "task_A.yaml")
    (snd (TaskScheduler.report_progress decimal_runtime
            TaskScheduler.module_names plain_scheduler (Some early_task)
            (Some (PInt 50)) (Some "half way") early_world))
  = lookup_file (InProgress, "task_A.yaml") early_world.
Proof.
  destruct (report_progress_never_reports decimal_runtime plain_scheduler
              (Some early_task) (Some (PInt 50)) (Some "half way") early_world)
    as (_ & Hf & Hr).
  split; [by apply Hr |].
  by apply Hf.
Defined.

(** X16. [close] never raises, and the scheduler it leaves refuses all
    further work without touching the world: no task is selected or
    claimed, nothing is finalized or reported. In a calm world the
    heartbeat file of the session and the status file of the process are
    gone afterwards, and no other file changed. *)
Theorem close_refuses_further_work py globals s w :
  exists s',
    fst (TaskScheduler.close py s w) = Ok s' /\
    (forall check_stale w1,
       TaskScheduler.get_next_task py globals s' check_stale w1 = (Ok None, w1)) /\
    (forall task w1,
       TaskScheduler.move_to_in_progress py s' task w1 = (Ok None, w1)) /\
    (forall task success results error w1,
       TaskScheduler.move_to_done py s' task success results error w1
       = (Ok false, w1)) /\
    (forall task pct msg w1,
       TaskScheduler.report_progress py globals s' task pct msg w1
       = (Ok false, w1)) /\
    (calm w ->
     forall q,
       lookup_file q (snd (TaskScheduler.close py s w)) =
       if decide (q = (Status, TaskScheduler.session_id s +:+ ".heartbeat"))
       then None
       else if decide (q = (Status, str_of_int py (TaskScheduler.process_id s)
                                    +:+ ".status"))
            then None
            else lookup_file q w).
Proof.
  unfold TaskScheduler.close, TaskScheduler._cleanup_status_files, bind.
  pose proof (no_raise_try_remove
                (Status, str_of_int py (TaskScheduler.process_id s) +:+ ".status")
                w) as H1.
  pose proof (try_remove_calm
                (Status, str_of_int py (TaskScheduler.process_id s) +:+ ".status")
                w) as Hrm1.
  destruct (try_remove _ w) as [[[] | e1] w1]; [| done].
  pose proof (no_raise_try_remove
                (Status, TaskScheduler.session_id s +:+ ".heartbeat") w1) as H2.
  pose proof (try_remove_calm
                (Status, TaskScheduler.session_id s +:+ ".heartbeat") w1) as Hrm2.
  destruct (try_remove _ w1) as [[[] | e2] w2]; [| done].
  eexists. split; [reflexivity |].
  split; [done |]. split; [by intros [t |] |].
  split; [by intros [t |] |]. split; [by intros [t |] |].
  intros Hc q. cbn [snd].
  injection (Hrm1 Hc) as ->.
  assert (Hc1 : calm (remove_if_present
            (Status, str_of_int py (TaskScheduler.process_id s) +:+ ".status") w))
    by calm_tac.
  injection (Hrm2 Hc1) as ->.
  unfold ret; cbn [snd]. rewrite !lookup_file_remove_if_present.
  repeat case_decide; done.
Qed.

Lemma close_refuses_further_work_witness :
  is_Some (lookup_file (Status, "S1.heartbeat") beating_world) /\
  lookup_file (Status, "S1.heartbeat")
    (snd (TaskScheduler.close decimal_runtime plain_scheduler beating_world))
  = None.
Proof.
  split; [by eexists |].
  destruct (close_refuses_further_work decimal_runtime
              TaskScheduler.module_names plain_scheduler beating_world)
    as (s' & _ & _ & _ & _ & _ & H).
  rewrite (H eq_refl). reflexivity.
Defined.

Lemma marker_neq n s : marker n s <> n.
Proof.
  intros E. pose proof (f_equal String.length E) as Hl.
  unfold marker in Hl. rewrite !length_append in Hl. cbn in Hl. lia.
Qed.

Section Claiming.

Variable py : runtime.

(** X17. Claiming. For a scheduler that is not shut down and a handle of
    todo/ in a calm world: when the file is in todo/, the record of the
    handle is a mapping and in_progress/ is there, [move_to_in_progress]
    returns the task with its path in in_progress/; the file there holds
    the record of the handle with the claimant's stamp (every other key
    kept), [is_owned_by] answers True for the claimant, the file has left
    todo/ and no other visible file changed. In every other case (file
    gone, record no mapping, in_progress/ missing) it returns None and
    the visible files are as before. *)
Theorem move_to_in_progress_claims s task w :
  calm w ->
  TaskScheduler._shutdown s = false ->
  path task = (Todo, filename task) ->
  let r := TaskScheduler.move_to_in_progress py s (Some task) w in
  match lookup_file (Todo, filename task) w, data task,
        has_dir w InProgress with
  | Some _, YMap d, true =>
    exists t' d' mt,
      fst r = Ok (Some t') /\
      filename t' = filename task /\
      path t' = (InProgress, filename task) /\
      data t' = YMap d' /\
      (forall k, k <> "started_at" -> k <> "process_id" -> k <> "host" ->
                 k <> "session_id" -> d' !! k = d !! k) /\
      is_owned_by t' (TaskScheduler.process_id s) (TaskScheduler.session_id s)
      = Ok true /\
      lookup_file (InProgress, filename task) (snd r)
      = Some {| body := Doc (YMap d'); mtime := mt |} /\
      lookup_file (Todo, filename task) (snd r) = None /\
      transferred Todo InProgress (filename task)
        {| body := Doc (YMap d'); mtime := mt |} w (snd r)
  | _, _, _ => fst r = Ok None /\ unchanged w (snd r)
  end.
Proof.
  intros Hc Hs Hpath r.
  set (Post := fun (res : result (option Task)) (w' : world) =>
    match lookup_file (Todo, filename task) w, data task,
          has_dir w InProgress with
    | Some _, YMap d, true =>
      exists t' d' mt,
        res = Ok (Some t') /\
        filename t' = filename task /\
        path t' = (InProgress, filename task) /\
        data t' = YMap d' /\
        (forall k, k <> "started_at" -> k <> "process_id" -> k <> "host" ->
                   k <> "session_id" -> d' !! k = d !! k) /\
        is_owned_by t' (TaskScheduler.process_id s) (TaskScheduler.session_id s)
        = Ok true /\
        lookup_file (InProgress, filename task) w'
        = Some {| body := Doc (YMap d'); mtime := mt |} /\
        lookup_file (Todo, filename task) w' = None /\
        transferred Todo InProgress (filename task)
          {| body := Doc (YMap d'); mtime := mt |} w w'
    | _, _, _ => res = Ok None /\ unchanged w w'
    end).
  change (wp (TaskScheduler.move_to_in_progress py s (Some task)) Post w).
  unfold TaskScheduler.move_to_in_progress. rewrite Hs, Hpath.
  apply wp_try, wp_bind, wp_acquire_lock; [done |]. wp_beta.
  apply wp_bind, wp_os_path_exists; [calm_tac |]. wp_beta.
  rewrite lookup_file_mk_locks. unfold Post.
  destruct (lookup_file (Todo, filename task) w) as [f0 |] eqn:Hsrc; cbn [negb].
  2:{ apply wp_ret. split; [done |]. intros q _. apply lookup_file_mk_locks. }
  pose proof (lookup_file_has_dir _ _ _ Hsrc) as Htodo. cbn [fst] in Htodo.
  apply wp_bind, wp_safe_rename; [calm_tac |]. wp_beta.
  set (w2 := rename_to _ _ (mk_locks w)).
  assert (Hc2 : calm w2) by (subst w2; calm_tac).
  assert (Hh2 : forall x, has_dir w2 x = has_dir w x || bool_decide (x = Locks)).
  { intros x. subst w2. by autorewrite with world. }
  assert (Hback : forall w3,
            calm w3 ->
            (forall q, lookup_file q w3 = lookup_file q w2) ->
            (forall x, has_dir w3 x = has_dir w2 x) ->
            wp (safe_rename (Todo, marker (filename task) ".reserved")
                  (Todo, filename task) ;;; ret None)
               (fun (res : result (option Task)) w' =>
                  res = Ok None /\ unchanged w w') w3).
  { intros w3 Hc3 Hl3 Hh3.
    apply wp_bind, wp_safe_rename; [done |]. wp_beta. apply wp_ret.
    split; [done |]. intros q Hv.
    rewrite (lookup_file_restored q (Todo, filename task) Todo
               (filename task) ".reserved" (mk_locks w) w3 f0); try done.
    + apply lookup_file_mk_locks.
    + by rewrite lookup_file_mk_locks.
    + intros x. rewrite Hh3. subst w2. by autorewrite with world.
    + rewrite has_dir_mk_locks. by rewrite Htodo. }
  destruct (data task) as [d | v] eqn:Hdata.
  - apply wp_bind. eapply wp_eq; [by apply mark_started_ok |]. wp_beta.
    cbn [data filename path].
    set (d' := <["session_id" := _]> _).
    apply wp_bind, wp_atomic_write_yaml; [calm_tac |]. cbn [dot_tmp fst snd].
    autorewrite with world. rewrite Hh2. cbn [bool_decide]. 
    rewrite bool_decide_eq_false_2 by done. rewrite orb_false_r.
    destruct (has_dir w InProgress) eqn:Hip.
    + assert (Hip2 : has_dir w2 InProgress = true).
      { rewrite Hh2, Hip. done. }
      apply wp_bind, wp_safe_rename; [calm_tac |]. wp_beta.
      apply wp_bind, wp_try_remove; [calm_tac |]. wp_beta.
      apply wp_ret.
      assert (Hfiles : forall q,
        q <> (Todo, marker (filename task) ".reserved") ->
        q <> dot_tmp (InProgress, filename task) ->
        q <> dot_tmp (dot_tmp (InProgress, filename task)) ->
        lookup_file q
          (remove_if_present (Todo, marker (filename task) ".reserved")
             (rename_to (dot_tmp (InProgress, filename task))
                (InProgress, filename task)
                (publish (dot_tmp (InProgress, filename task)) (YMap d')
                   (tick w2))))
        = if decide (q = (InProgress, filename task))
          then Some {| body := Doc (YMap d'); mtime := now (tick w2) |}
          else if decide (q = (Todo, filename task)) then None
               else lookup_file q w).
      { intros q Hq1 Hq2 Hq3.
        rewrite lookup_file_remove_if_present.
        rewrite decide_False by done.
        rewrite lookup_file_rename_to.
        rewrite (lookup_file_publish (dot_tmp (InProgress, filename task)))
          by (by autorewrite with world).
        rewrite decide_True by done. rewrite has_dir_publish.
        cbn [fst]. autorewrite with world. rewrite Hip2.
        decide_cases (q = (InProgress, filename task)); [done |].
        rewrite decide_False by done.
        rewrite lookup_file_publish by (by autorewrite with world).
        rewrite decide_False by done. rewrite decide_False by done.
        rewrite lookup_file_tick. subst w2. rewrite lookup_file_rename_to.
        rewrite lookup_file_mk_locks, Hsrc. cbn [fst].
        rewrite has_dir_mk_locks, Htodo. cbn [orb].
        rewrite decide_False by done.
        decide_cases (q = (Todo, filename task)); [done |].
        apply lookup_file_mk_locks. }
      eexists {| filename := filename task; data := YMap d';
                 path := (InProgress, filename task) |}, d', (now (tick w2)).
      split; [done |]. split; [done |]. split; [done |]. split; [done |].
      split; [intros k ? ? ? ?; subst d'; by simplify_map_eq |].
      split.
      { unfold is_owned_by. subst d'. cbn. simplify_map_eq.
        unfold py_eq_int. cbn. rewrite Z.eqb_refl. simplify_map_eq. cbn.
        by rewrite String.eqb_refl. }
      split.
      { rewrite Hfiles; [by rewrite decide_True | done | |].
        - unfold dot_tmp; cbn. intros [= E].
          pose proof (f_equal String.length E) as Hl.
          rewrite length_append in Hl. cbn in Hl. lia.
        - unfold dot_tmp; cbn. intros [= E].
          pose proof (f_equal String.length E) as Hl.
          rewrite !length_append in Hl. cbn in Hl. lia. }
      split.
      { rewrite Hfiles; [| | done | done].
        - rewrite decide_False by done. by rewrite decide_True.
        - intros [= E]. symmetry in E. by apply marker_neq in E. }
      intros q Hv.
      rewrite Hfiles.
      * done.
      * by apply visible_not_marker.
      * by apply visible_not_tmp.
      * by apply visible_not_tmp.
    + apply Hback; [calm_tac | done | done].
  - apply wp_bind.
    eapply wp_eq; [by apply (mark_started_not_a_mapping _ _ v) |].
    wp_beta. apply Hback; [calm_tac | done | done].
Qed.

End Claiming.

Lemma move_to_in_progress_claims_witness :
  exists t',
    fst (TaskScheduler.move_to_in_progress decimal_runtime plain_scheduler
           (Some task_A) one_task_world) = Ok (Some t') /\
    path t' = (InProgress, "task_A.yaml") /\
    lookup_file (Todo, "task_A.yaml")
      (snd (TaskScheduler.move_to_in_progress decimal_runtime plain_scheduler
              (Some task_A) one_task_world)) = None.
Proof.
  destruct (move_to_in_progress_claims decimal_runtime plain_scheduler task_A
              one_task_world eq_refl eq_refl eq_refl)
    as (t' & d' & mt & Hr & _ & Hp & _ & _ & _ & _ & Hgone & _).
  exists t'. split; [exact Hr |]. split; [exact Hp | exact Hgone].
Defined.

Section Finalizing.

Variable py : runtime.

(** The fields [mark_completed] sets from its arguments. *)
Lemma mark_completed_fields t d success results error w :
  data t = YMap d ->
  exists d' w',
    mark_completed py t success results error w
    = (Ok {| filename := filename t; data := YMap d'; path := path t |}, w') /\
    faults w' = faults w /\
    (forall q, lookup_file q w' = lookup_file q w) /\
    (forall x, has_dir w' x = has_dir w x) /\
    d' !! "success" = Some (PBool success) /\
    d' !! "results" = Some results /\
    d' !! "error" = Some error /\
    (forall k, k <> "completed_at" -> k <> "success" -> k <> "results" ->
               k <> "error" -> k <> "duration_seconds" -> d' !! k = d !! k).
Proof.
  intros Hd.
  unfold mark_completed, bind, try_except, set_data, lift, ret, datetime_now.
  cbn. rewrite Hd. cbn.
  rewrite !lookup_insert_ne by done.
  destruct (d !! "started_at") as [v |] eqn:Es; cbn.
  - destruct (py_fromisoformat py v) as [[start | start] | e] eqn:Ep; cbn.
    + eexists _, _. split; [reflexivity |].
      repeat split; try done; try (by simplify_map_eq).
      intros k ? ? ? ? ?. by simplify_map_eq.
    + eexists _, _. split; [reflexivity |].
      repeat split; try done; try (by simplify_map_eq).
      intros k ? ? ? ? ?. by simplify_map_eq.
    + eexists _, _. split; [reflexivity |].
      repeat split; try done; try (by simplify_map_eq).
      intros k ? ? ? ? ?. by simplify_map_eq.
  - eexists _, _. split; [reflexivity |].
    repeat split; try done; try (by simplify_map_eq).
    intros k ? ? ? ? ?. by simplify_map_eq.
Qed.

(** X18. Finalizing. For a scheduler that is not shut down and a handle
    of in_progress/ whose record is a mapping, in a calm world with done/:
    [move_to_done] returns True, the file of done/ under the filename
    holds the record of the handle with [success], [results] and [error]
    as given (the keys it does not set are kept), in_progress/ no longer
    holds the file and no other visible file changed. This is so also
    when in_progress/ did not hold the file any more: the record of the
    handle is published in done/ all the same. Without done/ it returns
    False, and the visible files are as before when in_progress/ held the
    file. *)
Theorem move_to_done_publishes s task d success results error w :
  calm w ->
  TaskScheduler._shutdown s = false ->
  path task = (InProgress, filename task) ->
  data task = YMap d ->
  let r := TaskScheduler.move_to_done py s (Some task) success results error
             w in
  if has_dir w Done then
    exists d' mt,
      fst r = Ok true /\
      lookup_file (Done, filename task) (snd r)
      = Some {| body := Doc (YMap d'); mtime := mt |} /\
      d' !! "success" = Some (PBool success) /\
      d' !! "results" = Some results /\
      d' !! "error" = Some error /\
      (forall k, k <> "completed_at" -> k <> "success" -> k <> "results" ->
                 k <> "error" -> k <> "duration_seconds" -> d' !! k = d !! k) /\
      lookup_file (InProgress, filename task) (snd r) = None /\
      (forall q, visible (snd q) = true ->
                 q <> (Done, filename task) ->
                 q <> (InProgress, filename task) ->
                 lookup_file q (snd r) = lookup_file q w)
  else
    fst r = Ok false /\
    (is_Some (lookup_file (InProgress, filename task) w) ->
     unchanged w (snd r)).
Proof.
  intros Hc Hs Hpath Hdata r.
  set (Post := fun (res : result bool) (w' : world) =>
    if has_dir w Done then
      exists d' mt,
        res = Ok true /\
        lookup_file (Done, filename task) w'
        = Some {| body := Doc (YMap d'); mtime := mt |} /\
        d' !! "success" = Some (PBool success) /\
        d' !! "results" = Some results /\
        d' !! "error" = Some error /\
        (forall k, k <> "completed_at" -> k <> "success" -> k <> "results" ->
                   k <> "error" -> k <> "duration_seconds" -> d' !! k = d !! k) /\
        lookup_file (InProgress, filename task) w' = None /\
        (forall q, visible (snd q) = true ->
                   q <> (Done, filename task) ->
                   q <> (InProgress, filename task) ->
                   lookup_file q w' = lookup_file q w)
    else
      res = Ok false /\
      (is_Some (lookup_file (InProgress, filename task) w) ->
       unchanged w w')).
  change (wp (TaskScheduler.move_to_done py s (Some task) success results error)
            Post w).
  unfold TaskScheduler.move_to_done. rewrite Hs, Hpath.
  apply wp_try, wp_bind, wp_acquire_lock; [done |]. wp_beta.
  apply wp_bind, wp_safe_rename; [calm_tac |]. wp_beta.
  set (w2 := rename_to _ _ (mk_locks w)).
  assert (Hc2 : calm w2) by (subst w2; calm_tac).
  assert (Hh2 : forall x, has_dir w2 x = has_dir w x || bool_decide (x = Locks)).
  { intros x. subst w2. by autorewrite with world. }
  destruct (mark_completed_fields task d success results error w2 Hdata)
    as (d' & w3 & Hm & Hf & Hl & Hh & Hsucc & Hres & Herr & Hkeep).
  apply wp_bind. eapply wp_eq; [exact Hm |]. wp_beta.
  cbn [data filename path].
  assert (Hc3 : calm w3) by (unfold calm; by rewrite Hf).
  apply wp_bind, wp_atomic_write_yaml; [done |]. cbn [dot_tmp fst snd].
  assert (Hdone3 : has_dir w3 Done = has_dir w Done).
  { rewrite Hh, Hh2. rewrite bool_decide_eq_false_2 by done.
    by rewrite orb_false_r. }
  rewrite Hdone3. unfold Post.
  destruct (has_dir w Done) eqn:Hdone.
  - apply wp_bind, wp_safe_rename; [calm_tac |]. wp_beta.
    apply wp_bind, wp_try_remove; [calm_tac |]. wp_beta.
    apply wp_ret.
    assert (Hfiles : forall q,
      q <> (InProgress, marker (filename task) ".completing") ->
      q <> dot_tmp (Done, filename task) ->
      q <> dot_tmp (dot_tmp (Done, filename task)) ->
      lookup_file q
        (remove_if_present (InProgress, marker (filename task) ".completing")
           (rename_to (dot_tmp (Done, filename task)) (Done, filename task)
              (publish (dot_tmp (Done, filename task)) (YMap d') w3)))
      = if decide (q = (Done, filename task))
        then Some {| body := Doc (YMap d'); mtime := now w3 |}
        else if decide (q = (InProgress, filename task)) then None
             else lookup_file q w).
    { intros q Hq1 Hq2 Hq3.
      rewrite lookup_file_remove_if_present.
      rewrite decide_False by done.
      rewrite lookup_file_rename_to.
      rewrite (lookup_file_publish (dot_tmp (Done, filename task))) by done.
      rewrite decide_True by done. rewrite has_dir_publish.
      cbn [fst]. rewrite Hdone3.
      decide_cases (q = (Done, filename task)); [done |].
      rewrite decide_False by done.
      rewrite lookup_file_publish by done.
      rewrite decide_False by done. rewrite decide_False by done.
      rewrite Hl. subst w2. rewrite lookup_file_rename_to.
      rewrite lookup_file_mk_locks.
      destruct (lookup_file (InProgress, filename task) w) as [f0 |] eqn:Hsrc.
      - pose proof (lookup_file_has_dir _ _ _ Hsrc) as Hip. cbn [fst] in Hip.
        cbn [fst]. rewrite has_dir_mk_locks, Hip. cbn [orb].
        rewrite decide_False by done.
        decide_cases (q = (InProgress, filename task)); [done |].
        apply lookup_file_mk_locks.
      - rewrite lookup_file_mk_locks.
        decide_cases (q = (InProgress, filename task)); [by subst q | done]. }
    exists d', (now w3).
    split; [done |]. split.
    { rewrite Hfiles; [by rewrite decide_True | done | |].
      - unfold dot_tmp; cbn. intros [= E].
        pose proof (f_equal String.length E) as Hlen.
        rewrite length_append in Hlen. cbn in Hlen. lia.
      - unfold dot_tmp; cbn. intros [= E].
        pose proof (f_equal String.length E) as Hlen.
        rewrite !length_append in Hlen. cbn in Hlen. lia. }
    split; [done |]. split; [done |]. split; [done |]. split; [done |].
    split.
    { rewrite Hfiles; [| | done | done].
      - rewrite decide_False by done. by rewrite decide_True.
      - intros [= E]. symmetry in E. by apply marker_neq in E. }
    intros q Hv Hq1 Hq2. rewrite Hfiles.
    + by rewrite !decide_False.
    + by apply visible_not_marker.
    + by apply visible_not_tmp.
    + by apply visible_not_tmp.
  - apply wp_bind, wp_safe_rename; [done |]. wp_beta. apply wp_ret.
    split; [done |]. intros [f0 Hsrc] q Hv.
    pose proof (lookup_file_has_dir _ _ _ Hsrc) as Hip. cbn [fst] in Hip.
    rewrite (lookup_file_restored q (InProgress, filename task) InProgress
               (filename task) ".completing" (mk_locks w) w3 f0); try done.
    + apply lookup_file_mk_locks.
    + by rewrite lookup_file_mk_locks.
    + intros x. rewrite Hh. subst w2. by autorewrite with world.
    + rewrite has_dir_mk_locks. by rewrite Hip.
Qed.

End Finalizing.

Lemma move_to_done_publishes_witness :
  lookup_file (InProgress, "task_A.yaml") one_task_world = None /\
  fst (TaskScheduler.move_to_done decimal_runtime plain_scheduler
         (Some early_task) true PNone PNone one_task_world) = Ok true /\
  is_Some (lookup_file (Done, "task_A.yaml")
             (snd (TaskScheduler.move_to_done decimal_runtime plain_scheduler
                     (Some early_task) true PNone PNone one_task_world))) /\
  lookup_file (Todo, "task_A.yaml")
    (snd (TaskScheduler.move_to_done decimal_runtime plain_scheduler
            (Some early_task) true PNone PNone one_task_world))
  = lookup_file (Todo, "task_A.yaml") one_task_world.
Proof.
  split; [reflexivity |].
  destruct (move_to_done_publishes decimal_runtime plain_scheduler early_task
              early_record true PNone PNone one_task_world
              eq_refl eq_refl eq_refl eq_refl)
    as (d' & mt & Hr & Hd & _ & _ & _ & _ & _ & Hq).
  split; [exact Hr |]. split; [eexists; exact Hd |].
  apply Hq; [reflexivity | discriminate | discriminate].
Defined.

Lemma insert_desc_equal k x l :
  Forall (fun y => fst y = k) l ->
  TaskScheduler.insert_desc (k, x) l = l ++ [(k, x)].
Proof.
  induction 1 as [| y l Hy Hl IH]; [done |].
  cbn [TaskScheduler.insert_desc fst]. rewrite Hy.
  rewrite Z.ltb_irrefl. cbn [app]. by rewrite IH.
Qed.

Lemma sort_desc_stable_equal k l :
  Forall (fun y => fst y = k) l -> TaskScheduler.sort_desc_stable l = l.
Proof.
  unfold TaskScheduler.sort_desc_stable.
  assert (H : forall acc,
            Forall (fun y => fst y = k) acc ->
            Forall (fun y : Z * string => fst y = k) l ->
            fold_left (fun acc x => TaskScheduler.insert_desc x acc) l acc
            = acc ++ l).
  { induction l as [| [k' x] l IH]; intros acc Hacc Hl.
    - by rewrite app_nil_r.
    - inversion Hl as [| ? ? Hk Hl']; subst. cbn [fst] in *. cbn [fold_left].
      rewrite insert_desc_equal by done.
      rewrite IH; [by rewrite <- app_assoc | | done].
      apply Forall_app. split; [done |]. by constructor. }
  intros Hl. by rewrite (H [] (List.Forall_nil _) Hl).
Qed.

Lemma priority_keys_unbound tasks w :
  calm w ->
  TaskScheduler.priority_keys TaskScheduler.module_names tasks w
  = (Ok (map (fun f => (PInt 0, f)) tasks), w).
Proof.
  intros Hc. induction tasks as [| f rest IH]; [done |].
  cbn [TaskScheduler.priority_keys map]. unfold bind at 1.
  assert (TaskScheduler._get_task_priority TaskScheduler.module_names f w
          = (Ok (PInt 0), w)) as ->.
  { unfold TaskScheduler._get_task_priority, try_except, bind,
      TaskScheduler.global_name.
    rewrite open_read_calm by done.
    by destruct (lookup_file (Todo, f) w). }
  unfold bind. by rewrite IH.
Qed.

Lemma sort_by_key_unbound tasks :
  TaskScheduler.sort_by_key (map (fun f => (PInt 0, f)) tasks) = ret tasks.
Proof.
  assert (Hmap : forall l : list string,
            map snd (map (fun f => (0, f)) l) = l).
  { induction l as [| x l IH]; [done |]. cbn [map snd]. by rewrite IH. }
  assert (Hnum : forall l : list string,
            TaskScheduler.numeric_keys (map (fun f => (PInt 0, f)) l)
            = Some (map (fun f => (0, f)) l)).
  { induction l as [| x l IH]; [done |].
    cbn [map TaskScheduler.numeric_keys py_num]. by rewrite IH. }
  destruct tasks as [| t1 [| t2 ts]]; [done | done |].
  transitivity
    (match TaskScheduler.numeric_keys
             (map (fun f => (PInt 0, f)) (t1 :: t2 :: ts)) with
     | Some nl => ret (map snd (TaskScheduler.sort_desc_stable nl))
     | None => raise TypeError
     end); [reflexivity |].
  rewrite Hnum. rewrite (sort_desc_stable_equal 0).
  - by rewrite Hmap.
  - apply List.Forall_forall. intros y [f [<- _]]%in_map_iff. done.
Qed.

Lemma visible_names_mk_locks dn w :
  dn <> Locks -> visible_names dn (mk_locks w) = visible_names dn w.
Proof.
  intros Hd. unfold visible_names, mk_locks.
  destruct (fs w Locks); [done |]. cbn. by rewrite decide_False.
Qed.

Lemma loaded_mk_locks p w : loaded p (mk_locks w) = loaded p w.
Proof. unfold loaded. by rewrite lookup_file_mk_locks. Qed.

(** The selection step with the names scheduler.py binds. *)
Lemma selection_unbound w :
  calm w ->
  try_except
    (acquire_lock "todo_lock" 5 5 ;;;
     tasks <- get_yaml_files Todo ;;
     match tasks with
     | [] => ret None
     | _ :: _ =>
       keyed <- TaskScheduler.priority_keys TaskScheduler.module_names tasks ;;
       sorted <- TaskScheduler.sort_by_key keyed ;;
       match sorted with
       | task_file :: _ =>
         task <- from_file (Todo, task_file) ;;
         ret (Some task)
       | [] => raise IndexError
       end
     end)
    (fun _ => ret None) w
  = (Ok (match visible_names Todo w with
         | [] => None
         | n :: _ => loaded (Todo, n) w
         end), mk_locks w).
Proof.
  intros Hc. unfold try_except, bind at 1.
  rewrite acquire_lock_calm by done.
  unfold bind at 1. rewrite get_yaml_files_calm by calm_tac.
  change (match fs (mk_locks w) Todo with
          | Some d => List.filter visible (names d)
          | None => []
          end) with (visible_names Todo (mk_locks w)).
  rewrite visible_names_mk_locks by done.
  destruct (visible_names Todo w) as [| n rest] eqn:Hv; [done |].
  unfold bind at 1. rewrite priority_keys_unbound by calm_tac.
  unfold bind at 1. rewrite sort_by_key_unbound. unfold ret at 1.
  unfold bind. rewrite from_file_calm by calm_tac.
  rewrite <- (loaded_mk_locks (Todo, n) w). unfold loaded.
  destruct (lookup_file (Todo, n) (mk_locks w)) as [f |]; [| done].
  by destruct (body f).
Qed.

Lemma wp_and {A} (m : M A) (Q1 Q2 : result A -> world -> Prop) w :
  wp m Q1 w -> wp m Q2 w -> wp m (fun r w' => Q1 r w' /\ Q2 r w') w.
Proof. unfold wp. by split. Qed.

Lemma filter_visible_remove_entry name d :
  visible name = false ->
  List.filter visible (names (remove_entry name d))
  = List.filter visible (names d).
Proof.
  intros Hn. induction d as [| [k f] d IH]; [done |].
  cbn [remove_entry]. destruct (String.eqb k name) eqn:E.
  - apply String.eqb_eq in E. subst k. cbn [names map fst List.filter].
    by rewrite Hn.
  - cbn [names map fst List.filter]. fold (names d).
    fold (names (remove_entry name d)). by rewrite IH.
Qed.

Lemma visible_names_delete_entry dn p w :
  visible (snd p) = false ->
  visible_names dn (delete_entry p w) = visible_names dn w.
Proof.
  intros Hv. unfold visible_names, delete_entry.
  destruct (fs w (fst p)) as [d |] eqn:E; [| done]. cbn [fs set_dir].
  case_decide as Hd; [| done]. subst dn. rewrite E.
  by apply filter_visible_remove_entry.
Qed.

(** [cleanup_temp_files] leaves the listing of the visible names as it is. *)
Lemma cleanup_temp_files_listing dn secs w :
  calm w ->
  wp (cleanup_temp_files dn secs)
     (fun _ w' => forall x, visible_names x w' = visible_names x w) w.
Proof.
  intros Hc. unfold cleanup_temp_files.
  apply wp_bind, wp_dir_exists; [done |]. wp_beta.
  destruct (has_dir w dn); cbn [negb]; [| by apply wp_ret].
  apply wp_try.
  apply wp_bind. eapply wp_eq; [by apply os_listdir_calm |].
  destruct (fs w dn) as [d |]; wp_beta; [| by apply wp_ret].
  eapply wp_mono.
  - apply (wp_for_each _ _
             (fun w1 => calm w1 /\
                        forall x, visible_names x w1 = visible_names x w));
      [| done].
    intros name w1 [Hc1 Hl1].
    destruct (startswith "." name) eqn:Hs; cbn [negb];
      [| by apply wp_ret].
    apply wp_try, wp_bind, wp_datetime_now. wp_beta.
    apply wp_bind, wp_os_path_getmtime; [calm_tac |].
    rewrite lookup_file_tick.
    destruct (lookup_file (dn, name) w1) as [f |] eqn:Hf;
      [| apply wp_ret; split; [done |]; split; [calm_tac | done]].
    wp_beta.
    destruct ((secs * 1000000 <? now w1 - mtime f) && transient_suffix name)
      eqn:Hold.
    + apply wp_os_remove; [calm_tac |]. rewrite lookup_file_tick, Hf.
      split; [done |]. split; [calm_tac |]. intros x.
      rewrite visible_names_delete_entry; [apply Hl1 |].
      by apply visible_not_hidden.
    + apply wp_ret. split; [done |]. split; [calm_tac | done].
  - intros [[] | e] w' [Hr [_ Hp]]; [done | done].
Qed.

Section Selecting.

Variable py : runtime.

(** X19. With the names scheduler.py binds, the priorities play no part in
    the selection. For a scheduler that is not shut down, in a calm world,
    with or without the recovery of stale tasks, [get_next_task] returns
    the task loaded from the first visible file that todo/ lists when the
    call returns, None when todo/ lists no visible file or when that
    first file does not parse. Without the recovery, todo/ then lists
    what it listed before and the visible files are as before. *)
Theorem get_next_task_takes_first_listed s check_stale w :
  calm w ->
  TaskScheduler._shutdown s = false ->
  let r := TaskScheduler.get_next_task py TaskScheduler.module_names s
             check_stale w in
  fst r = Ok (match visible_names Todo (snd r) with
              | [] => None
              | n :: _ => loaded (Todo, n) (snd r)
              end) /\
  (check_stale = false ->
   visible_names Todo (snd r) = visible_names Todo w /\ unchanged w (snd r)).
Proof.
  intros Hc Hs r.
  set (Post := fun (res : result (option Task)) (w' : world) =>
    res = Ok (match visible_names Todo w' with
              | [] => None
              | n :: _ => loaded (Todo, n) w'
              end) /\
    (check_stale = false ->
     visible_names Todo w' = visible_names Todo w /\ unchanged w w')).
  change (wp (TaskScheduler.get_next_task py TaskScheduler.module_names s
                check_stale) Post w).
  unfold TaskScheduler.get_next_task. rewrite Hs.
  apply wp_bind. eapply wp_mono.
  { apply wp_and; [by apply cleanup_temp_files_pruned
                  | by apply (cleanup_temp_files_listing Todo 3600)]. }
  intros [[] | e] w1 [[Hr Hp] Hlist]; [| done]. wp_beta.
  destruct (pruned_unchanged Todo w w1 Hp) as [[Hc1 _] Hu1].
  assert (Hsel : forall w2,
            calm w2 ->
            (check_stale = false ->
             visible_names Todo w2 = visible_names Todo w /\ unchanged w w2) ->
            wp (try_except
                  (acquire_lock "todo_lock" 5 5 ;;;
                   tasks <- get_yaml_files Todo ;;
                   match tasks with
                   | [] => ret None
                   | _ :: _ =>
                     keyed <- TaskScheduler.priority_keys
                                TaskScheduler.module_names tasks ;;
                     sorted <- TaskScheduler.sort_by_key keyed ;;
                     match sorted with
                     | task_file :: _ =>
                       task <- from_file (Todo, task_file) ;;
                       ret (Some task)
                     | [] => raise IndexError
                     end
                   end)
                  (fun _ => ret None)) Post w2).
  { intros w2 Hc2 H2. eapply wp_eq; [by apply selection_unbound |].
    unfold Post. rewrite visible_names_mk_locks by done. split.
    - destruct (visible_names Todo w2); [done |]. by rewrite loaded_mk_locks.
    - intros Hf. destruct (H2 Hf) as [Hn Hu]. split; [done |].
      intros q Hv. rewrite lookup_file_mk_locks. by apply Hu. }
  apply wp_bind. destruct check_stale.
  - apply wp_bind. eapply wp_mono; [by apply (recover_stale_tasks_kept py) |].
    intros [n | e] w2 [Hr2 Hk2]; [| done]. apply wp_ret. wp_beta.
    pose proof Hk2 as [[Hc2 _] _]. by apply Hsel.
  - apply wp_ret. wp_beta. apply Hsel; [done |]. intros _. by split.
Qed.

End Selecting.

Lemma get_next_task_takes_first_listed_witness :
  fst (TaskScheduler.get_next_task decimal_runtime TaskScheduler.module_names
         plain_scheduler false priorities_world)
  = Ok (loaded (Todo, "a.yaml") priorities_world).
Proof.
  destruct (get_next_task_takes_first_listed decimal_runtime plain_scheduler
              false priorities_world eq_refl eq_refl) as [Hr Hf].
  destruct (Hf eq_refl) as [Hn Hu].
  rewrite Hr, Hn.
  change (visible_names Todo priorities_world)
    with ["a.yaml"; "b.yaml"; "c.yaml"].
  cbv iota. unfold loaded. by rewrite (Hu (Todo, "a.yaml") eq_refl).
Defined.

(** ** heartbeat.py *)

Lemma now_publish p data w : now (publish p data w) = now w.
Proof. unfold publish. by rewrite now_rename_to, now_write_entry. Qed.

Section Beating.

Variable py : runtime.
Variable r : TaskRecovery.t.


End Beating.


(** ** task_manager.py: ownership *)

Section Owning.

Variable m : TaskManager.t.

(** The task the loop of [list_owned_in_progress_tasks] makes of the
    entry [name]. *)
Lemma owned_loop_calm files : forall owned w,
  calm w ->
  exists l,
    TaskManager.owned_loop m files owned w = (Ok (owned ++ l), w) /\
    forall t, In t l <->
      exists name f y,
        In name files /\
        lookup_file (InProgress, name) w = Some f /\ body f = Doc y /\
        t = {| filename := name; data := y; path := (InProgress, name) |} /\
        is_owned_by t (TaskManager.process_id m) (TaskManager.session_id m)
        = Ok true.
Proof.
  induction files as [| name rest IH]; intros owned w Hc.
  - exists []. rewrite app_nil_r. split; [done |].
    intros t. split; [done | by intros (? & ? & ? & [] & _)].
  - cbn [TaskManager.owned_loop]. unfold bind at 1, try_except.
    unfold bind at 1. rewrite read_yaml_calm by done.
    assert (Hskip : forall w',
              w' = w ->
              (forall f y, lookup_file (InProgress, name) w = Some f ->
                           body f = Doc y ->
                           is_owned_by {| filename := name; data := y; path := (InProgress, name) |} (TaskManager.process_id m)
                             (TaskManager.session_id m) <> Ok true) ->
              exists l,
                TaskManager.owned_loop m rest owned w' = (Ok (owned ++ l), w) /\
                forall t, In t l <->
                  exists name0 f y,
                    In name0 (name :: rest) /\
                    lookup_file (InProgress, name0) w = Some f /\
                    body f = Doc y /\
                    t = {| filename := name0; data := y;
                           path := (InProgress, name0) |} /\
                    is_owned_by t (TaskManager.process_id m)
                      (TaskManager.session_id m) = Ok true).
    { intros w' -> Hno. destruct (IH owned w Hc) as (l & Heq & Hl).
      exists l. split; [done |]. intros t. rewrite Hl. split.
      - intros (n & f & y & Hin & Hrest). exists n, f, y. split; [by right | done].
      - intros (n & f & y & [<- | Hin] & Hf & Hb & -> & Ho).
        + by destruct (Hno f y Hf Hb).
        + by exists n, f, y. }
    destruct (lookup_file (InProgress, name) w) as [f |] eqn:Hf;
      [| apply Hskip; [done | by intros]].
    destruct (body f) as [| y] eqn:Hb;
      [apply Hskip; [done | intros f' y' [= <-]; by rewrite Hb] |].
    cbn iota beta.
    assert (Hone' : forall f' y', Some f = Some f' -> body f' = Doc y' -> y' = y).
    { intros f' y' [= <-] Hb'. rewrite Hb in Hb'. by injection Hb'. }
    assert (Hone : forall f' y',
              lookup_file (InProgress, name) w = Some f' ->
              body f' = Doc y' -> y' = y).
    { intros f' y' Hf'. rewrite Hf in Hf'. by apply Hone'. }
    destruct (is_owned_by {| filename := name; data := y; path := (InProgress, name) |} (TaskManager.process_id m)
                (TaskManager.session_id m)) as [[|] | e] eqn:Hown.
    + (* owned: appended *)
      assert (HE : (p <- lift (py_get y "process_id" PNone) ;;
                    if py_eq_int p (TaskManager.process_id m)
                    then s <- lift (py_get y "session_id" PNone) ;;
                         if py_eq_str s (TaskManager.session_id m)
                         then ret (owned ++ [{| filename := name; data := y; path := (InProgress, name) |}])
                         else ret owned
                    else ret owned) w = (Ok (owned ++ [{| filename := name; data := y; path := (InProgress, name) |}]), w)).
      { unfold is_owned_by in Hown. cbn [data] in Hown.
        unfold bind, lift, ret.
        destruct (py_get y "process_id" PNone) as [p | e]; [| done].
        destruct (py_eq_int p (TaskManager.process_id m)); [| done].
        destruct (py_get y "session_id" PNone) as [s | e]; [| done].
        injection Hown as ->. done. }
      rewrite HE. destruct (IH (owned ++ [{| filename := name; data := y; path := (InProgress, name) |}]) w Hc) as (l & Heq & Hl).
      exists ({| filename := name; data := y; path := (InProgress, name) |} :: l). split.
      { rewrite Heq. by rewrite <- app_assoc. }
      intros t. cbn [In]. rewrite Hl. split.
      * intros [<- | (n & f' & y' & Hin & Hrest)].
        -- exists name, f, y. split; [by left | done].
        -- exists n, f', y'. split; [by right | done].
      * intros (n & f' & y' & [<- | Hin] & Hf' & Hb' & -> & Ho).
        -- left. by rewrite (Hone f' y' Hf' Hb').
        -- right. by exists n, f', y'.
    + assert (HE : (p <- lift (py_get y "process_id" PNone) ;;
                    if py_eq_int p (TaskManager.process_id m)
                    then s <- lift (py_get y "session_id" PNone) ;;
                         if py_eq_str s (TaskManager.session_id m)
                         then ret (owned ++ [{| filename := name; data := y; path := (InProgress, name) |}])
                         else ret owned
                    else ret owned) w = (Ok owned, w)).
      { unfold is_owned_by in Hown. cbn [data] in Hown.
        unfold bind, lift, ret.
        destruct (py_get y "process_id" PNone) as [p | e]; [| done].
        destruct (py_eq_int p (TaskManager.process_id m)); [| done].
        destruct (py_get y "session_id" PNone) as [s | e]; [| done].
        injection Hown as ->. done. }
      rewrite HE. apply Hskip; [done |].
      intros f' y' Hf' Hb'. rewrite (Hone' f' y' Hf' Hb'). by rewrite Hown.
    + assert (HE : exists e', (p <- lift (py_get y "process_id" PNone) ;;
                    if py_eq_int p (TaskManager.process_id m)
                    then s <- lift (py_get y "session_id" PNone) ;;
                         if py_eq_str s (TaskManager.session_id m)
                         then ret (owned ++ [{| filename := name; data := y; path := (InProgress, name) |}])
                         else ret owned
                    else ret owned) w = (Raise e', w)).
      { unfold is_owned_by in Hown. cbn [data] in Hown.
        unfold bind, lift, ret.
        destruct (py_get y "process_id" PNone) as [p | e0]; [| by eexists].
        destruct (py_eq_int p (TaskManager.process_id m)); [| done].
        destruct (py_get y "session_id" PNone) as [s | e0]; [done | by eexists]. }
      destruct HE as [e' HE]. rewrite HE. apply Hskip; [done |].
      intros f' y' Hf' Hb'. rewrite (Hone' f' y' Hf' Hb'). by rewrite Hown.
Qed.

(** X21. In a calm world [list_owned_in_progress_tasks] returns, leaves the
    world as it is, and lists exactly the tasks made of the visible files
    of in_progress/ that parse and for which [is_owned_by] answers True
    for the manager's process and session, each with the entry name as
    filename and its path in in_progress/. A file that does not parse, or
    whose record is no mapping, is passed over; without in_progress/ the
    list is empty. *)
Theorem list_owned_lists_the_owned w :
  calm w ->
  exists l,
    TaskManager.list_owned_in_progress_tasks m w = (Ok l, w) /\
    forall t, In t l <->
      exists name f y,
        In name (visible_names InProgress w) /\
        lookup_file (InProgress, name) w = Some f /\ body f = Doc y /\
        t = {| filename := name; data := y; path := (InProgress, name) |} /\
        is_owned_by t (TaskManager.process_id m) (TaskManager.session_id m)
        = Ok true.
Proof.
  intros Hc. unfold TaskManager.list_owned_in_progress_tasks.
  rewrite (bind_ok _ _ _ _ _ (dir_exists_calm InProgress w Hc)).
  unfold visible_names, has_dir.
  destruct (fs w InProgress) as [d |] eqn:Hd; cbn [negb].
  - rewrite (bind_ok _ _ _ _ _ (get_yaml_files_calm InProgress w Hc)).
    rewrite Hd.
    destruct (owned_loop_calm (List.filter visible (names d)) [] w Hc)
      as (l & Heq & Hl).
    exists l. split; [done | done].
  - exists []. split; [done |]. intros t.
    split; [done | by intros (? & ? & ? & [] & _)].
Qed.

End Owning.

Lemma list_owned_lists_the_owned_witness :
  exists l t,
    fst (TaskManager.list_owned_in_progress_tasks plain_manager claimed_world)
    = Ok l /\
    In t l /\ filename t = "task_A.yaml".
Proof.
  destruct (list_owned_lists_the_owned plain_manager claimed_world eq_refl)
    as (l & Heq & Hl).
  exists l. eexists. split; [by rewrite Heq |]. split.
  - apply Hl. exists "task_A.yaml". eexists _, _.
    split; [by vm_compute; left |].
    split; [by vm_compute |]. split; [reflexivity |].
    split; [reflexivity |]. by vm_compute.
  - reflexivity.
Defined.

(** * Invariants of the queue under interleaved schedulers *)

Lemma exclusive_overrun_world : exclusive overrun_world.
Proof.
  intros n d1 d2 (Hp1 & Hv1 & Hs1) (Hp2 & Hv2 & Hs2).
  destruct d1, d2; try done;
    try (by destruct Hs1 as [? Hs1]; cbn in Hs1);
    try (by destruct Hs2 as [? Hs2]; cbn in Hs2).
Qed.

(** C1 fails on the code. A task outlives the staleness window while its
    owner is alive: in_progress/ holds job.yaml and no other directory
    holds a task file. The recovery of another scheduler finds the entry
    older than the window and republishes it in todo/; the owner then
    finalizes the task with its handle. [move_to_done], unlike
    [move_to_in_progress], does not look whether the file is still where
    the handle says: the rename fails in silence, the record of the
    handle is published in done/ and True is returned. todo/ and done/
    now both list job.yaml. *)
Theorem move_to_done_duplicates_recovered_task :
  exclusive overrun_world /\
  fst overrun_recovery = Ok 1 /\
  visible_names Todo (snd overrun_recovery) = ["job.yaml"] /\
  visible_names InProgress (snd overrun_recovery) = [] /\
  fst overrun_finalization = Ok true /\
  visible_names Todo (snd overrun_finalization) = ["job.yaml"] /\
  visible_names Done (snd overrun_finalization) = ["job.yaml"] /\
  ~ exclusive (snd overrun_finalization).
Proof.
  split; [apply exclusive_overrun_world |].
  split; [by vm_compute |]. split; [by vm_compute |].
  split; [by vm_compute |]. split; [by vm_compute |].
  split; [by vm_compute |]. split; [by vm_compute |].
  intros H.
  assert (Todo = Done) as Habs; [| discriminate Habs].
  apply (H "job.yaml"); (split; [done |]; split; [done |]); vm_compute; by eexists.
Qed.

(** C8 fails on the code. todo/ holds job.yaml with [retries] 0 and the
    scheduler S1 holds the handle [get_next_task] gave it. Another
    scheduler claims the task and dies, and the recovery puts the file
    back into todo/ with [retries] 1. S1 then claims the task with its
    handle: [move_to_in_progress] finds the file in todo/ and writes the
    record of the handle, read before the recovery, into in_progress/.
    The [retries] persisted for job.yaml goes from 1 back to 0. The
    recovery and [report_progress] read the record from the file under
    the lock before they write; [move_to_in_progress] does not. *)
Theorem move_to_in_progress_lowers_retries :
  retries_at (Todo, "job.yaml") lag_world = Some 0 /\
  option_map filename lag_handle = Some "job.yaml" /\
  option_map filename
    (match fst lag_first_claim with Ok t => t | Raise _ => None end)
  = Some "job.yaml" /\
  fst lag_recovery = Ok 1 /\
  retries_at (Todo, "job.yaml") (snd lag_recovery) = Some 1 /\
  visible_names InProgress (snd lag_recovery) = [] /\
  option_map path
    (match fst lag_late_claim with Ok t => t | Raise _ => None end)
  = Some (InProgress, "job.yaml") /\
  retries_at (InProgress, "job.yaml") (snd lag_late_claim) = Some 0 /\
  visible_names Todo (snd lag_late_claim) = [].
Proof. repeat split; by vm_compute. Qed.

(** ** task_manager.py: tasks per process *)

Lemma pid_count_entry_calm name (counts : gmap pykey Z) w :
  calm w ->
  try_except
    (data <- read_yaml (InProgress, name) ;;
     pid <- lift (py_get data "process_id" PNone) ;;
     match pid with
     | PNone => ret counts
     | _ =>
       k <- lift (hash_key pid) ;;
       ret (<[k := default 0 (counts !! k) + 1]> counts)
     end)
    (fun _ => ret counts) w
  = (Ok (match pid_key name w with
         | Some k => <[k := default 0 (counts !! k) + 1]> counts
         | None => counts
         end), w).
Proof.
  intros Hc. unfold try_except, bind at 1. rewrite read_yaml_calm by done.
  unfold pid_key.
  destruct (lookup_file (InProgress, name) w) as [f |]; [| done].
  destruct (body f) as [| [d | v]]; [done | | done].
  unfold bind, lift, ret. cbn [py_get].
  destruct (d !! "process_id") as [[] |]; cbn; done.
Qed.

Lemma pid_count_loop_calm files : forall counts w,
  calm w ->
  (forall k n, counts !! k = Some n -> 0 < n) ->
  exists counts',
    TaskManager.pid_count_loop files counts w = (Ok counts', w) /\
    (forall k n, counts' !! k = Some n -> 0 < n) /\
    forall k, default 0 (counts' !! k)
              = default 0 (counts !! k) + counted_under k files w.
Proof.
  induction files as [| name rest IH]; intros counts w Hc Hpos.
  - exists counts. split; [done |]. split; [done |]. intros k.
    unfold counted_under. cbn. lia.
  - cbn [TaskManager.pid_count_loop]. unfold bind at 1.
    rewrite pid_count_entry_calm by done.
    destruct (pid_key name w) as [k0 |] eqn:Hk.
    + assert (Hpos0 : (0 <= default 0 (counts !! k0))%Z).
      { destruct (counts !! k0) as [n |] eqn:E; cbn; [| lia].
        pose proof (Hpos k0 n E). lia. }
      destruct (IH (<[k0 := default 0 (counts !! k0) + 1]> counts) w Hc)
        as (counts' & Heq & Hpos' & Hcnt).
      { intros k n. destruct (decide (k = k0)) as [-> | Hne].
        - rewrite lookup_insert. case_decide; [| done].
          intros [= <-]. clear Hpos0.
          destruct (counts !! k0) as [n0 |] eqn:E; cbn; [| lia].
          pose proof (Hpos k0 n0 E) as Hn0. clear -Hn0. lia.
        - rewrite lookup_insert_ne by done. apply Hpos. }
      exists counts'. split; [done |]. split; [done |]. intros k.
      rewrite Hcnt. unfold counted_under. cbn [List.filter]. rewrite Hk.
      destruct (decide (k = k0)) as [-> | Hne].
      * rewrite lookup_insert. rewrite decide_True by done.
        cbn [from_option id].
        rewrite bool_decide_eq_true_2 by done. cbn [length].
        rewrite Nat2Z.inj_succ. lia.
      * rewrite lookup_insert_ne by done.
        rewrite bool_decide_eq_false_2 by congruence. done.
    + destruct (IH counts w Hc Hpos) as (counts' & Heq & Hpos' & Hcnt).
      exists counts'. split; [done |]. split; [done |]. intros k.
      rewrite Hcnt. unfold counted_under. cbn [List.filter]. rewrite Hk.
      by rewrite bool_decide_eq_false_2.
Qed.

(** X23. In a calm world [count_tasks_by_process] returns, leaves the
    world as it is, and maps a key to the number of visible files of
    in_progress/ whose record is a mapping that holds, under
    [process_id], a value with that key. Keys are compared as Python
    compares them (1, 1.0 and True are one key). A file that does not
    parse, a record without [process_id] or with None or an unhashable
    value there is counted nowhere, and no key is mapped to 0. *)
Theorem count_tasks_by_process_counts w :
  calm w ->
  exists counts,
    TaskManager.count_tasks_by_process w = (Ok counts, w) /\
    forall k n,
      counts !! k = Some n <->
      0 < n /\ n = counted_under k (visible_names InProgress w) w.
Proof.
  intros Hc. unfold TaskManager.count_tasks_by_process.
  rewrite (bind_ok _ _ _ _ _ (get_yaml_files_calm InProgress w Hc)).
  fold (visible_names InProgress w).
  destruct (pid_count_loop_calm (visible_names InProgress w) ∅ w Hc)
    as (counts & Heq & Hpos & Hcnt); [by intros k n; rewrite lookup_empty |].
  exists counts. split; [done |]. intros k n.
  specialize (Hcnt k). rewrite lookup_empty in Hcnt. cbn [default] in Hcnt.
  split.
  - intros Hk. split; [by apply (Hpos k) |]. rewrite Hk in Hcnt.
    cbn in Hcnt. lia.
  - intros [Hn ->]. destruct (counts !! k) as [n' |] eqn:E; cbn in Hcnt.
    + f_equal. lia.
    + lia.
Qed.

Lemma count_tasks_by_process_counts_witness :
  exists counts,
    fst (TaskManager.count_tasks_by_process claimed_world) = Ok counts /\
    counts !! KNum 100000000 = Some 1.
Proof.
  destruct (count_tasks_by_process_counts claimed_world eq_refl)
    as (counts & Heq & H).
  exists counts. split; [by rewrite Heq |].
  apply H. split; [lia | by vm_compute].
Defined.
